(** * GithubInputPage: the analysis screen of the GitHub profile analyzer

    A shallow embedding of [Github-Analyzer/src/components/GithubInputPage.jsx]: the
    module-level helpers ([fetchWithTimeout], [getResponseError],
    [sanitizeLogEntry], [formatBytes]), the [handleAnalyze] handler of the
    component and the [derivedCareerActions] memo, followed by the
    properties the specification states about them.

    Conventions of the model:
    - a JavaScript string is the list of its UTF-16 code units;
    - a Number is an IEEE 754 double (module [Num]): it is compared by
      its exact value and printed as Number::toString prints it; only
      the byte count of [formatBytes] and the positions, lengths and
      status codes of the source are taken as integers;
    - a JSON object is the list of its own properties in enumeration
      order (the order [Object.entries] walks);
    - React state setters act at once on the state record: the updates
      queued by one handler are applied in program order, and the
      functional updater of [setLogs] sees the list left by the previous
      one. *)

From Stdlib Require Import String Ascii ZArith NArith Bool Lia Arith List.
From Stdlib Require Import DecimalString.
From Stdlib Require DecimalPos DecimalZ.
Import ListNotations.

Local Open Scope Z_scope.

(* ===================================================================== *)
(** ** JavaScript strings *)
(* ===================================================================== *)

Module Js.

(** A string is a sequence of UTF-16 code units. *)
Definition jsstring := list N.

(** The string denoted by an ASCII literal of the source. *)
Definition str (s : string) : jsstring :=
  List.map N_of_ascii (list_ascii_of_string s).

Fixpoint eqb (a b : jsstring) : bool :=
  match a, b with
  | [], [] => true
  | x :: a', y :: b' => N.eqb x y && eqb a' b'
  | _, _ => false
  end.

(** WhiteSpace and LineTerminator code points: the class [\s] of a regular
    expression, which is also what [String.prototype.trim] strips. *)
Definition is_ws (c : N) : bool :=
  ((9 <=? c) && (c <=? 13) || (c =? 32) || (c =? 160) || (c =? 5760)
   || (8192 <=? c) && (c <=? 8202) || (c =? 8232) || (c =? 8233)
   || (c =? 8239) || (c =? 8287) || (c =? 12288) || (c =? 65279))%N.

Fixpoint dropWhile (p : N -> bool) (s : jsstring) : jsstring :=
  match s with
  | [] => []
  | c :: s' => if p c then dropWhile p s' else s
  end.

Definition trimStart (s : jsstring) : jsstring := dropWhile is_ws s.
Definition trimEnd (s : jsstring) : jsstring := rev (dropWhile is_ws (rev s)).

(** [s.trim()] *)
Definition trim (s : jsstring) : jsstring := trimEnd (trimStart s).

(** Does [s] start with [p]? *)
Fixpoint startsWith (p s : jsstring) : bool :=
  match p, s with
  | [], _ => true
  | x :: p', y :: s' => N.eqb x y && startsWith p' s'
  | _ :: _, [] => false
  end.

(** [s.indexOf(needle)]: the least index at which [needle] occurs, or -1. *)
Fixpoint indexOf_from (needle s : jsstring) (i : Z) : Z :=
  if startsWith needle s then i
  else match s with
       | [] => -1
       | _ :: s' => indexOf_from needle s' (i + 1)
       end.

Definition indexOf (needle s : jsstring) : Z := indexOf_from needle s 0.

(** [s.slice(from, to)] with the relative (negative) indices of the
    language and clamping to the length. *)
Definition slice (s : jsstring) (from to : Z) : jsstring :=
  let len := Z.of_nat (length s) in
  let clamp k := if k <? 0 then Z.max (len + k) 0 else Z.min k len in
  let a := clamp from in
  let b := clamp to in
  firstn (Z.to_nat (b - a)) (skipn (Z.to_nat a) s).

(** Decimal numeral of an integer: how a whole Number below 10^21 (a list
    length, a position) is printed. *)
Definition decimal (z : Z) : jsstring := str (NilZero.string_of_int (Z.to_int z)).

(** [parts.join(sep)] on strings. *)
Fixpoint join (sep : jsstring) (parts : list jsstring) : jsstring :=
  match parts with
  | [] => []
  | [p] => p
  | p :: rest => p ++ sep ++ join sep rest
  end.

End Js.

Export Js.

(* ===================================================================== *)
(** ** Regular expressions *)
(* ===================================================================== *)

(** The two expressions of the source, [/```[\s\S]*?```/g] and [/\s+/g], are
    built from backtracking matchers in continuation-passing style: a
    matcher consumes a prefix of the input and hands the rest to its
    continuation, whose failure makes it try its next alternative. *)
Module Regex.

Definition cont := jsstring -> option jsstring.
Definition matcher := jsstring -> cont -> option jsstring.

(** One code unit of a class. *)
Definition chr (p : N -> bool) : matcher :=
  fun s k =>
    match s with
    | c :: s' => if p c then k s' else None
    | [] => None
    end.

(** A literal code unit. *)
Definition lit (c : N) : matcher := chr (N.eqb c).

Definition seq (a b : matcher) : matcher :=
  fun s k => a s (fun s1 => b s1 k).

(** [[cls]*?]: as few repetitions as the continuation allows. *)
Fixpoint lazyStar (p : N -> bool) (s : jsstring) (k : cont) : option jsstring :=
  match k s with
  | Some r => Some r
  | None =>
      match s with
      | c :: s' => if p c then lazyStar p s' k else None
      | [] => None
      end
  end.

(** [[cls]*]: as many repetitions as possible, giving back one at a time. *)
Fixpoint greedyStar (p : N -> bool) (s : jsstring) (k : cont) : option jsstring :=
  match s with
  | c :: s' =>
      if p c then
        match greedyStar p s' k with
        | Some r => Some r
        | None => k s
        end
      else k s
  | [] => k s
  end.

(** [[cls]+] *)
Definition plus (p : N -> bool) : matcher := seq (chr p) (greedyStar p).

(** Length of the match of [m] anchored at the start of [s], if any. *)
Definition matchLen (m : matcher) (s : jsstring) : option nat :=
  match m s (fun r => Some r) with
  | Some r => Some (length s - length r)%nat
  | None => None
  end.

(** [s.replace(/m/g, rep)]: matches are sought left to right; after a match
    the search resumes behind it ([skip] counts the code units of the
    current match still to pass), after an empty match one code unit
    further. *)
Fixpoint replaceAll (m : matcher) (rep : jsstring) (skip : nat) (s : jsstring)
  : jsstring :=
  match s with
  | [] =>
      match skip, matchLen m [] with
      | O, Some _ => rep
      | _, _ => []
      end
  | c :: s' =>
      match skip with
      | S n => replaceAll m rep n s'
      | O =>
          match matchLen m s with
          | Some (S n) => rep ++ replaceAll m rep n s'
          | Some O => rep ++ c :: replaceAll m rep O s'
          | None => c :: replaceAll m rep O s'
          end
      end
  end.

Definition replace_g (m : matcher) (rep : jsstring) (s : jsstring) : jsstring :=
  replaceAll m rep O s.

Definition any (_ : N) : bool := true.

Definition backtick : N := 96.

(** [/```[\s\S]*?```/] *)
Definition fenceRe : matcher :=
  seq (lit backtick) (seq (lit backtick) (seq (lit backtick)
    (seq (lazyStar any)
      (seq (lit backtick) (seq (lit backtick) (lit backtick)))))).

(** [/\s+/] *)
Definition spacesRe : matcher := plus is_ws.

(** The closing marker of [fenceRe], as a continuation. *)
Definition closeK : cont :=
  fun s => seq (lit backtick) (seq (lit backtick) (lit backtick)) s (fun r => Some r).

(** What follows the first closing marker found from [t] on: the scan of
    [[\s\S]*?] in [fenceRe]. *)
Definition closeAt (t : jsstring) : option jsstring := lazyStar any t closeK.

End Regex.

(* ===================================================================== *)
(** ** Numbers *)
(* ===================================================================== *)

(** The Number type: IEEE 754 binary64. A finite number is held as sign,
    significand and binary exponent and stands for (-1)^s * m * 2^e; the
    Numbers of the language are the pairs with m < 2^53 and
    -1074 <= e <= 971, which is what [round] produces. Every operation
    below goes by the value, so that it does not matter which of the
    pairs (m, e) of a value is at hand. *)
Definition isDigit (c : N) : bool := ((48 <=? c) && (c <=? 57))%N.

Module Num.

Inductive number : Type :=
| NaN
| Infinite (negative : bool)
| Finite (negative : bool) (m : N) (e : Z).

(** *** Exact values *)

(** A non-negative rational as numerator and positive denominator. *)
Definition ratio : Type := (Z * Z)%type.

Definition valueOf (m : N) (e : Z) : ratio :=
  if 0 <=? e then (Z.of_N m * 2 ^ e, 1) else (Z.of_N m, 2 ^ (- e)).

Definition compareQ (a b : ratio) : comparison :=
  Z.compare (fst a * snd b) (fst b * snd a).

(** [num / (den * 10^p)] *)
Definition scale10 (q : ratio) (p : Z) : ratio :=
  if 0 <=? p then (fst q, snd q * 10 ^ p) else (fst q * 10 ^ (- p), snd q).

(** *** Rounding to the nearest Number, ties to even *)

(** Quotient and remainder of [num / (den * 2^e)], with the divisor. *)
Definition divide2 (num den e : Z) : Z * Z * Z :=
  if e <? 0 then
    let (q, r) := Z.div_eucl (num * 2 ^ (- e)) den in (q, r, den)
  else
    let (q, r) := Z.div_eucl num (den * 2 ^ e) in (q, r, den * 2 ^ e).

(** The Number nearest to [num / den] ([0 <= num], [0 < den]): 53 bits of
    significand from exponent -1074 up, the even significand on a tie,
    infinity from 2^1024 on. *)
Definition round (negative : bool) (num den : Z) : number :=
  if num <=? 0 then Finite negative 0 0
  else
    let e0 := Z.log2 num - Z.log2 den - 52 in
    let '(q0, _, _) := divide2 num den e0 in
    let e1 := if 2 ^ 53 <=? q0 then e0 + 1
              else if q0 <? 2 ^ 52 then e0 - 1 else e0 in
    let e := Z.max e1 (-1074) in
    let '(q, r, d) := divide2 num den e in
    let up := match Z.compare (2 * r) d with
              | Gt => true
              | Eq => Z.odd q
              | Lt => false
              end in
    let m := if up then q + 1 else q in
    let e' := if m =? 2 ^ 53 then e + 1 else e in
    let m' := if m =? 2 ^ 53 then 2 ^ 52 else m in
    if 971 <? e' then Infinite negative else Finite negative (Z.to_N m') e'.

(** The Number of an integer. *)
Definition ofZ (z : Z) : number := round (z <? 0) (Z.abs z) 1.

(** The Number of the decimal [digits * 10^exponent]. *)
Definition ofDecimal (negative : bool) (digits : Z) (exponent : Z) : number :=
  let q := scale10 (digits, 1) (- exponent) in
  round negative (fst q) (snd q).

(** *** Tests *)

Definition isZero (x : number) : bool :=
  match x with
  | Finite _ m _ => N.eqb m 0
  | _ => false
  end.

Definition isNaN (x : number) : bool :=
  match x with NaN => true | _ => false end.

(** [x < y] *)
Definition ltb (x y : number) : bool :=
  match x, y with
  | NaN, _ | _, NaN => false
  | Infinite sx, Infinite sy => sx && negb sy
  | Infinite sx, Finite _ _ _ => sx
  | Finite _ _ _, Infinite sy => negb sy
  | Finite sx mx ex, Finite sy my ey =>
      let vx := valueOf mx ex in
      let vy := valueOf my ey in
      match sx, sy with
      | false, false => match compareQ vx vy with Lt => true | _ => false end
      | true, true => match compareQ vx vy with Gt => true | _ => false end
      | true, false => negb (N.eqb mx 0 && N.eqb my 0)
      | false, true => false
      end
  end.

(** *** Number::toString *)

Definition digitCount (z : Z) : Z := Z.of_nat (length (decimal z)).

(** The [k] with [10^(k-1) <= v < 10^k], for [0 < v]. *)
Definition magnitude (v : ratio) : Z :=
  let (num, den) := v in
  if den <=? num then digitCount (num / den)
  else 1 - digitCount ((den + num - 1) / num - 1).

(** Does the decimal [s * 10^p] read back as the Number of value [v]? *)
Definition readsBack (v : ratio) (s p : Z) : bool :=
  match ofDecimal false s p with
  | Finite _ m e =>
      match compareQ (valueOf m e) v with Eq => true | _ => false end
  | _ => false
  end.

(** The [n]-digit decimals next to [v] on either side that read back as
    [v]; of two, the nearer one, the even one if they are as near. The
    result is the digits [s] and the position [k] of the point:
    [s * 10^(k-n)]. *)
Definition shortestAt (v : ratio) (k n : Z) : option (Z * Z) :=
  let t := scale10 v (k - n) in
  let (lo, r) := Z.div_eucl (fst t) (snd t) in
  let hi := lo + 1 in
  let okLo := readsBack v lo (k - n) in
  let okHi := negb (r =? 0) && readsBack v hi (k - n) in
  let pickHi := if hi =? 10 ^ n then Some (10 ^ (n - 1), k + 1) else Some (hi, k) in
  match okLo, okHi with
  | true, false => Some (lo, k)
  | false, true => pickHi
  | false, false => None
  | true, true =>
      match Z.compare (2 * r) (snd t) with
      | Lt => Some (lo, k)
      | Gt => pickHi
      | Eq => if Z.even lo then Some (lo, k) else pickHi
      end
  end.

(** The least number of digits that reads back, tried from [n] on; 17
    digits tell any two Numbers apart, so the search from 1 ends within
    its 17 rounds. *)
Fixpoint shortestFrom (fuel : nat) (v : ratio) (k n : Z) : Z * Z * Z :=
  match fuel with
  | O => (fst (Z.div_eucl (fst (scale10 v (k - n))) (snd (scale10 v (k - n)))), k, n)
  | S fuel' =>
      match shortestAt v k n with
      | Some (s, k') => (s, k', n)
      | None => shortestFrom fuel' v k (n + 1)
      end
  end.

Fixpoint zeros (n : nat) : jsstring :=
  match n with
  | O => []
  | S n' => 48%N :: zeros n'
  end.

(** The digits [s] ([n] of them) with the point at [k], laid out as
    Number::toString does. *)
Definition layout (s n k : Z) : jsstring :=
  let digits := decimal s in
  if (n <=? k) && (k <=? 21) then digits ++ zeros (Z.to_nat (k - n))
  else if (0 <? k) && (k <=? 21) then
    firstn (Z.to_nat k) digits ++ str "." ++ skipn (Z.to_nat k) digits
  else if (-6 <? k) && (k <=? 0) then
    str "0." ++ zeros (Z.to_nat (- k)) ++ digits
  else
    let exponent := (if k - 1 <? 0 then str "-" else str "+") ++ decimal (Z.abs (k - 1)) in
    if n =? 1 then digits ++ str "e" ++ exponent
    else firstn 1 digits ++ str "." ++ skipn 1 digits ++ str "e" ++ exponent.

Definition toString (x : number) : jsstring :=
  match x with
  | NaN => str "NaN"
  | Infinite negative => if negative then str "-Infinity" else str "Infinity"
  | Finite negative m e =>
      if N.eqb m 0 then str "0"
      else
        let v := valueOf m e in
        let '(s, k, n) := shortestFrom 17 v (magnitude v) 1 in
        (if negative then str "-" else []) ++ layout s n k
  end.

(** *** StringToNumber *)

Definition digitValue (c : N) : option Z :=
  if ((48 <=? c) && (c <=? 57))%N then Some (Z.of_N c - 48)
  else if ((97 <=? c) && (c <=? 102))%N then Some (Z.of_N c - 87)
  else if ((65 <=? c) && (c <=? 70))%N then Some (Z.of_N c - 55)
  else None.

(** The value of a run of digits in [radix], if [s] is one. *)
Fixpoint digitsIn (radix : Z) (acc : Z) (s : jsstring) : option Z :=
  match s with
  | [] => Some acc
  | c :: s' =>
      match digitValue c with
      | Some d => if d <? radix then digitsIn radix (radix * acc + d) s' else None
      | None => None
      end
  end.

Fixpoint takeDigits (s : jsstring) : jsstring * jsstring :=
  match s with
  | c :: s' =>
      if isDigit c then let (d, rest) := takeDigits s' in (c :: d, rest)
      else ([], s)
  | [] => ([], [])
  end.

Definition digitsOr0 (s : jsstring) : Z :=
  match digitsIn 10 0 s with Some z => z | None => 0 end.

(** ExponentPart, or nothing: the exponent, if [s] is such a part. *)
Definition exponentPart (s : jsstring) : option Z :=
  match s with
  | [] => Some 0
  | c :: s' =>
      if ((c =? 101) || (c =? 69))%N then
        let '(negative, ds) :=
          match s' with
          | 43%N :: ds => (false, ds)
          | 45%N :: ds => (true, ds)
          | _ => (false, s')
          end in
        match ds with
        | [] => None
        | _ :: _ =>
            match digitsIn 10 0 ds with
            | Some z => Some (if negative then - z else z)
            | None => None
            end
        end
      else None
  end.

(** StrUnsignedDecimalLiteral *)
Definition unsignedDecimal (negative : bool) (s : jsstring) : number :=
  if eqb s (str "Infinity") then Infinite negative
  else
    let (whole, rest) := takeDigits s in
    let '(fraction, rest, dotted) :=
      match rest with
      | 46%N :: rest' => let (f, r) := takeDigits rest' in (f, r, true)
      | _ => ([], rest, false)
      end in
    match whole, fraction with
    | [], [] => NaN
    | _, _ =>
        match exponentPart rest with
        | Some ex =>
            ofDecimal negative (digitsOr0 (whole ++ fraction))
                      (ex - Z.of_nat (length fraction))
        | None => NaN
        end
    end.

(** StringToNumber: blank text is 0; a decimal literal, signed or not; a
    binary, octal or hexadecimal integer literal without a sign; anything
    else is NaN. *)
Definition stringToNumber (text : jsstring) : number :=
  match trim text with
  | [] => Finite false 0 0
  | 48%N :: c :: ds =>
      let radix :=
        if ((c =? 120) || (c =? 88))%N then Some 16
        else if ((c =? 111) || (c =? 79))%N then Some 8
        else if ((c =? 98) || (c =? 66))%N then Some 2
        else None in
      match radix with
      | Some r =>
          match ds with
          | [] => NaN
          | _ :: _ =>
              match digitsIn r 0 ds with
              | Some z => round false z 1
              | None => NaN
              end
          end
      | None => unsignedDecimal false (trim text)
      end
  | 43%N :: s => unsignedDecimal false s
  | 45%N :: s => unsignedDecimal true s
  | s => unsignedDecimal false s
  end.

End Num.

(* ===================================================================== *)
(** ** JSON values *)
(* ===================================================================== *)

#[warnings="-register-all"] Inductive value : Type :=
| VUndefined
| VNull
| VBool (b : bool)
| VNum (x : Num.number)
| VStr (s : jsstring)
| VArr (items : list value)
| VObj (props : list (jsstring * value)).

(** ToBoolean *)
Definition truthy (v : value) : bool :=
  match v with
  | VUndefined | VNull => false
  | VBool b => b
  | VNum x => negb (Num.isZero x || Num.isNaN x)
  | VStr s => match s with [] => false | _ => true end
  | VArr _ | VObj _ => true
  end.

Fixpoint lookup (key : jsstring) (props : list (jsstring * value)) : option value :=
  match props with
  | [] => None
  | (k, v) :: rest => if Js.eqb k key then Some v else lookup key rest
  end.

(** [v?.key] for a key that no prototype defines (every key read by the
    component is one): the own property of an object, [undefined]
    elsewhere. *)
Definition optGet (key : jsstring) (v : value) : value :=
  match v with
  | VObj props => match lookup key props with Some x => x | None => VUndefined end
  | _ => VUndefined
  end.

(** ToString. [None] stands for the TypeError of a conversion that finds
    no primitive: a parsed object that has a property [toString] of its
    own hides the method of the prototype behind a value that cannot be
    called, and [valueOf] of the prototype gives the object back. Any other
    parsed object prints through the prototype, and an array joins the
    conversions of its elements. *)
Fixpoint toString (v : value) : option jsstring :=
  match v with
  | VUndefined => Some (str "undefined")
  | VNull => Some (str "null")
  | VBool true => Some (str "true")
  | VBool false => Some (str "false")
  | VNum x => Some (Num.toString x)
  | VStr s => Some s
  | VArr items =>
      let fix elements (items : list value) : option (list jsstring) :=
        match items with
        | [] => Some []
        | x :: items' =>
            match (match x with
                   | VUndefined | VNull => Some []
                   | _ => toString x
                   end) with
            | Some s =>
                match elements items' with
                | Some rest => Some (s :: rest)
                | None => None
                end
            | None => None
            end
        end in
      match elements items with
      | Some parts => Some (Js.join (str ",") parts)
      | None => None
      end
  | VObj props =>
      match lookup (str "toString") props with
      | Some _ => None
      | None => Some (str "[object Object]")
      end
  end.

(* ===================================================================== *)
(** ** sanitizeLogEntry *)
(* ===================================================================== *)

Definition colon : jsstring := str ":".

Definition sanitizeLogEntry (entry : value) : jsstring :=
  match entry with
  | VStr entry =>
      let withoutCodeBlocks := Regex.replace_g Regex.fenceRe [] entry in
      let colonIndex := indexOf colon withoutCodeBlocks in
      let trimmed :=
        if colonIndex >? -1 then slice withoutCodeBlocks 0 colonIndex
        else withoutCodeBlocks in
      trim (Regex.replace_g Regex.spacesRe (str " ") trimmed)
  | _ => []
  end.

(* ===================================================================== *)
(** ** formatBytes *)
(* ===================================================================== *)

Definition units : list jsstring :=
  [str "B"; str "KB"; str "MB"; str "GB"; str "TB"].

(** [(num/den).toFixed(1)] for [0 <= num], [0 < den]: the integer [n] for
    which [n/10] is nearest to the quotient, the larger one on a tie,
    printed with one digit behind the point. *)
Definition toFixed1 (num den : Z) : jsstring :=
  let n := (20 * num + den) / (2 * den) in
  decimal (n / 10) ++ str "." ++ decimal (n mod 10).

(** [units[index]] inside a template literal. *)
Definition unitAt (index : Z) : jsstring :=
  nth (Z.to_nat index) units (str "undefined").

(** The byte count is an integer. [Math.floor(Math.log(bytes) /
    Math.log(1024))] is taken exactly, as the integer logarithm to base
    1024, and the division by the power of 1024 as the exact quotient; a
    negative count makes the logarithm, and with it every later value,
    NaN. The default [bytes = 0] of an absent argument is the case [0].

    The source divides two floating-point logarithms. Their quotient has
    the integer part taken here as long as it is not within rounding of
    the next integer, which happens for the few counts right below 2^50
    (there the source finds the index 5 and prints "1.0 undefined"); on
    those counts the definition does not follow the source, and nothing
    below is stated about them. *)
Definition formatBytes (bytes : Z) : jsstring :=
  if bytes =? 0 then str "0 B"
  else if bytes <? 0 then str "NaN undefined"
  else
    let index := Z.log2 bytes / 10 in
    let scale := 1024 ^ index in
    toFixed1 bytes scale ++ str " " ++ unitAt index.

(* ===================================================================== *)
(** ** derivedCareerActions *)
(* ===================================================================== *)

(** ToNumber. An object or an array is first brought to a primitive, which
    for a parsed value is the string of ToString; [None] stands for the
    TypeError of that conversion. *)
Definition toNumber (v : value) : option Num.number :=
  match v with
  | VUndefined => Some Num.NaN
  | VNull => Some (Num.ofZ 0)
  | VBool b => Some (Num.ofZ (if b then 1 else 0))
  | VNum x => Some x
  | VStr s => Some (Num.stringToNumber s)
  | VArr _ | VObj _ => option_map Num.stringToNumber (toString v)
  end.

(** [v < bound] for a Number [bound]; [None] when the conversion of [v]
    throws. *)
Definition lessThan (v : value) (bound : Num.number) : option bool :=
  option_map (fun x => Num.ltb x bound) (toNumber v).

Fixpoint indexed {A} (i : nat) (l : list A) : list (nat * A) :=
  match l with
  | [] => []
  | x :: l' => (i, x) :: indexed (S i) l'
  end.

(** [Object.entries(v)] for a truthy [v]: the own enumerable properties of
    an object, the index properties of an array or a string, nothing for a
    number or a boolean. *)
Definition Object_entries (v : value) : list (jsstring * value) :=
  match v with
  | VObj props => props
  | VArr items =>
      List.map (fun ix => (decimal (Z.of_nat (fst ix)), snd ix)) (indexed O items)
  | VStr s =>
      List.map (fun ix => (decimal (Z.of_nat (fst ix)), VStr [snd ix])) (indexed O s)
  | _ => []
  end.

(** The template literal of the source; [None] when the conversion of the
    score throws. *)
Definition actionText (skill : jsstring) (score : value) : option jsstring :=
  option_map
    (fun text =>
       skill ++ str " skills are at " ++ text
             ++ str ". Focus on targeted projects or courses to lift this metric.")
    (toString score).

(** The memo over [numericInsights]. [forEach] walks the entries in order
    and [push] appends to [actions]; [None] stands for the TypeError that
    leaves the walk when a score cannot be converted. *)
Definition derivedCareerActions (numericInsights : value) : option (list jsstring) :=
  let actions : list jsstring := [] in
  if negb (truthy (optGet (str "skills") numericInsights)) then Some actions
  else
    let walked :=
      fold_left
        (fun walk entry =>
           match walk with
           | None => None
           | Some actions =>
               let '(skill, score) := entry in
               match lessThan score (Num.ofZ 50) with
               | None => None
               | Some true =>
                   option_map (fun text => actions ++ [text]) (actionText skill score)
               | Some false => Some actions
               end
           end)
        (Object_entries (optGet (str "skills") numericInsights))
        (Some actions) in
    option_map (firstn 4) walked.

(* ===================================================================== *)
(** ** Errors, responses and the network *)
(* ===================================================================== *)

Module JsError.
Record t : Type := mk { name : jsstring; message : jsstring }.
End JsError.

Definition TypeError (message : jsstring) : JsError.t :=
  JsError.mk (str "TypeError") message.

Definition SyntaxError (message : jsstring) : JsError.t :=
  JsError.mk (str "SyntaxError") message.

(** The DOMException with which [fetch] rejects once its signal aborts. *)
Definition AbortError : JsError.t :=
  JsError.mk (str "AbortError") (str "The operation was aborted.").

(** Outcome of a statement or an awaited promise. *)
Inductive completion (A : Type) : Type :=
| Normal (a : A)
| Thrown (e : JsError.t).
Arguments Normal {A} a.
Arguments Thrown {A} e.

(** What reading a body as JSON gives: the parsed value, or the message of
    the SyntaxError of the parser. *)
Inductive BodyRead : Type :=
| BodyJson (v : value)
| BodyBad (msg : jsstring).

Module Response.

Record t : Type := mk { status : Z; body : BodyRead; bodyUsed : bool }.

Definition ok (r : t) : bool := (200 <=? status r) && (status r <=? 299).

(** [r.json()]: rejects on a body already read, else reads it; the body
    counts as used from then on, whatever the outcome. *)
Definition json (r : t) : completion value * t :=
  ((if bodyUsed r then Thrown (TypeError (str "body stream already read"))
    else match body r with
         | BodyJson v => Normal v
         | BodyBad msg => Thrown (SyntaxError msg)
         end),
   mk (status r) (body r) true).

(** [r.clone()]: throws on a body already read. *)
Definition clone (r : t) : completion t :=
  if bodyUsed r then Thrown (TypeError (str "Response body is already used"))
  else Normal r.

End Response.

(** The second argument of [fetch]; [jsonBody] is the value handed to
    [JSON.stringify] for the body. *)
Record RequestInit : Type := mkInit {
  method : jsstring;
  headers : list (jsstring * jsstring);
  jsonBody : option value
}.

(** [{}]; the method defaults to GET *)
Definition emptyInit : RequestInit := mkInit (str "GET") [] None.

(** How the transport settles a request, if left alone. *)
Inductive NetResult : Type :=
| Responds (status : Z) (body : BodyRead)
| Fails (msg : jsstring).

(** One request as the environment answers it: the transport settles
    [latency] milliseconds after the call with [outcome]; [timerFirst]
    says which task the event loop runs first when a timer falls due at
    that very millisecond. *)
Record Exchange : Type := mkExchange {
  latency : Z;
  timerFirst : bool;
  outcome : NetResult
}.

Module Env.
Record t : Type := mk {
  (** the backend behind [fetch] *)
  fetch : jsstring -> RequestInit -> Exchange;
  (** [toLocaleTimeString] at the k-th reading of the clock *)
  clock : nat -> jsstring;
  (** message of the TypeError for a property read on [null] or
      [undefined], per property name *)
  nullReadMessage : jsstring -> jsstring;
  (** message of the TypeError for an object that converts to no
      primitive *)
  convertMessage : jsstring
}.
End Env.

(** An Error with its message in place. *)
Definition errorWith (message : jsstring) : JsError.t :=
  JsError.mk (str "Error") message.

(** [new Error(message)]: the message is converted with ToString, which
    may throw; an [undefined] argument leaves the empty message of the
    prototype. *)
Definition new_Error (env : Env.t) (message : value) : completion JsError.t :=
  match message with
  | VUndefined => Normal (errorWith [])
  | _ =>
      match toString message with
      | Some text => Normal (errorWith text)
      | None => Thrown (TypeError (Env.convertMessage env))
      end
  end.

(** What [throw new Error(message)] throws: the Error, or the TypeError of
    the conversion. *)
Definition raised (env : Env.t) (message : value) : JsError.t :=
  match new_Error env message with
  | Normal err => err
  | Thrown err => err
  end.

(* ===================================================================== *)
(** ** Component state *)
(* ===================================================================== *)

Module LogEntry.
Record t : Type := mk { id : jsstring; time : jsstring; message : jsstring }.
End LogEntry.

(** The [useState] cells of [GithubInputPage]. *)
Module St.
Record t : Type := mk {
  username : jsstring;
  loading : bool;
  error : jsstring;
  logs : list LogEntry.t;
  githubData : value;
  aiInsights : value;
  numericInsights : value
}.

(** The cells as the first render has them. *)
Definition initial : t := mk [] false [] [] VNull VNull VNull.
End St.

(** A call of [fetchWithTimeout] as seen from outside: the request, the
    delay given to the timer, whether the controller aborted the request,
    and the component state at the moment of the call. *)
Record NetCall : Type := mkCall {
  url : jsstring;
  init : RequestInit;
  timeoutMs : Z;
  aborted : bool;
  issuedWith : St.t
}.

Record World : Type := mkWorld {
  state : St.t;
  calls : list NetCall;
  clockReads : nat
}.

(** Asynchronous code of the component: it reads and updates the world and
    completes normally or throws. Every [await] of the source is a bind. *)
Definition M (A : Type) : Type := World -> completion A * World.

Definition ret {A} (a : A) : M A := fun w => (Normal a, w).

Definition bind {A B} (c : M A) (k : A -> M B) : M B :=
  fun w =>
    match c w with
    | (Normal a, w') => k a w'
    | (Thrown e, w') => (Thrown e, w')
    end.

Definition throw {A} (e : JsError.t) : M A := fun w => (Thrown e, w).

Definition lift {A} (c : completion A) : M A := fun w => (c, w).

(** [try { body } catch (e) { handler e }] *)
Definition tryCatch {A} (body : M A) (handler : JsError.t -> M A) : M A :=
  fun w =>
    match body w with
    | (Normal a, w') => (Normal a, w')
    | (Thrown e, w') => handler e w'
    end.

(** [try { body } finally { fin }] *)
Definition tryFinally {A} (body : M A) (fin : M unit) : M A :=
  fun w =>
    match body w with
    | (r, w') =>
        match fin w' with
        | (Normal _, w'') => (r, w'')
        | (Thrown e, w'') => (Thrown e, w'')
        end
    end.

Declare Scope js_scope.
Delimit Scope js_scope with js.
Notation "x <- c ;; k" := (bind c (fun x => k))
  (at level 61, c at next level, right associativity) : js_scope.
Notation "c ;; k" := (bind c (fun _ => k))
  (at level 61, right associativity) : js_scope.
Local Open Scope js_scope.

Fixpoint forEach {A} (l : list A) (f : A -> M unit) : M unit :=
  match l with
  | [] => ret tt
  | x :: l' => f x ;; forEach l' f
  end.

Definition getState {A} (proj : St.t -> A) : M A :=
  fun w => (Normal (proj (state w)), w).

Definition setState (f : St.t -> St.t) : M unit :=
  fun w => (Normal tt, mkWorld (f (state w)) (calls w) (clockReads w)).

Definition setLoading (b : bool) : M unit :=
  setState (fun s => St.mk (St.username s) b (St.error s) (St.logs s)
                           (St.githubData s) (St.aiInsights s) (St.numericInsights s)).

Definition setError (e : jsstring) : M unit :=
  setState (fun s => St.mk (St.username s) (St.loading s) e (St.logs s)
                           (St.githubData s) (St.aiInsights s) (St.numericInsights s)).

(** [setLogs] with a functional updater; [setLogs([])] is [fun _ => []]. *)
Definition setLogs (f : list LogEntry.t -> list LogEntry.t) : M unit :=
  setState (fun s => St.mk (St.username s) (St.loading s) (St.error s) (f (St.logs s))
                           (St.githubData s) (St.aiInsights s) (St.numericInsights s)).

Definition setGithubData (v : value) : M unit :=
  setState (fun s => St.mk (St.username s) (St.loading s) (St.error s) (St.logs s)
                           v (St.aiInsights s) (St.numericInsights s)).

Definition setAiInsights (v : value) : M unit :=
  setState (fun s => St.mk (St.username s) (St.loading s) (St.error s) (St.logs s)
                           (St.githubData s) v (St.numericInsights s)).

Definition setNumericInsights (v : value) : M unit :=
  setState (fun s => St.mk (St.username s) (St.loading s) (St.error s) (St.logs s)
                           (St.githubData s) (St.aiInsights s) v).

(** [new Date().toLocaleTimeString(...)] *)
Definition readClock (env : Env.t) : M jsstring :=
  fun w => (Normal (Env.clock env (clockReads w)),
            mkWorld (state w) (calls w) (S (clockReads w))).

(** [v.key] for a key that no prototype defines: a TypeError on [null] and
    [undefined], the own property or [undefined] elsewhere. *)
Definition getMember (env : Env.t) (v : value) (key : jsstring) : M value :=
  match v with
  | VUndefined | VNull => throw (TypeError (Env.nullReadMessage env key))
  | _ => ret (optGet key v)
  end.

Definition nonEmpty (s : jsstring) : bool :=
  match s with [] => false | _ :: _ => true end.

(* ===================================================================== *)
(** ** fetchWithTimeout and getResponseError *)
(* ===================================================================== *)

Definition VALIDATION_TIMEOUT : Z := 8000.
Definition PROFILE_TIMEOUT : Z := 120000.
Definition AI_TIMEOUT : Z := 150000.

(** Does the callback of [setTimeout(() => controller.abort(), timeout)]
    run before the transport settles? The delay is taken as the number of
    milliseconds it names. That is what the timer does with a delay from 0
    to 2^31 - 1, where both delays of the component lie; a delay outside
    that range, which [setTimeout] would first bring to 32 bits, is not
    modelled. *)
Definition timerFires (x : Exchange) (timeout : Z) : bool :=
  (timeout <? latency x) || ((timeout =? latency x) && timerFirst x).

(** The timer and the transport race. When the timer wins, the controller
    aborts the request and [fetch] rejects with the AbortError; otherwise
    the promise settles as the transport does. [finally] clears the timer
    in either case, so no abort can follow the return. *)
Definition fetchWithTimeout (env : Env.t) (url : jsstring)
    (options : RequestInit) (timeout : Z) : M Response.t :=
  fun w =>
    let x := Env.fetch env url options in
    let controllerAborts := timerFires x timeout in
    let w' := mkWorld (state w)
                (calls w ++ [mkCall url options timeout controllerAborts (state w)])
                (clockReads w) in
    if controllerAborts then (Thrown AbortError, w')
    else
      match outcome x with
      | Responds status body => (Normal (Response.mk status body false), w')
      | Fails msg => (Thrown (TypeError msg), w')
      end.

(** The [try] block either returns the [error] field ([Some]), falls
    through ([None]) or throws, which the empty [catch] swallows. *)
Definition getResponseError (response : Response.t) (fallback : jsstring) : jsstring :=
  let attempt : completion (option jsstring) :=
    match Response.clone response with
    | Thrown e => Thrown e
    | Normal copy =>
        match fst (Response.json copy) with
        | Thrown e => Thrown e
        | Normal data =>
            match optGet (str "error") data with
            | VStr e => if nonEmpty (trim e) then Normal (Some e) else Normal None
            | _ => Normal None
            end
        end
    end in
  match attempt with
  | Normal (Some e) => e
  | _ =>
      if Response.status response =? 404 then str "GitHub user not found."
      else fallback
  end.

(* ===================================================================== *)
(** ** The component: appendLog and handleAnalyze *)
(* ===================================================================== *)

Definition appendLog (env : Env.t) (message : jsstring) : M unit :=
  if negb (nonEmpty message) then ret tt
  else
    timestamp <- readClock env ;;
    setLogs (fun prev =>
      prev ++ [LogEntry.mk (timestamp ++ str "-" ++ decimal (Z.of_nat (length prev)))
                           timestamp message]).

(** The template literal of the profile request: the username goes in as
    typed, neither trimmed nor encoded. *)
Definition profileUrl (username : jsstring) : jsstring :=
  str "http://localhost:5000/analyze?user=" ++ username.

Definition aiUrl : jsstring := str "http://localhost:5000/ai/full-analysis".

(** The options of the AI request. *)
Definition aiInit (profileData : value) : RequestInit :=
  mkInit (str "POST")
         [(str "Content-Type", str "application/json")]
         (Some (VObj [(str "profileData", profileData)])).

(** [handleAnalyze] is given in parts: the blocks of its [try] statement,
    then the handler that puts them together. *)

(** The block [if (!profileRes.ok) { ... }] (lines 117-133), entered with
    a response that is not ok. *)
Definition profileFailed (env : Env.t) (profileRes : Response.t) : M unit :=
  let errorMessage := str "Failed to fetch GitHub profile data" in
  (* [profileRes.json()] opens the inner [try]: the body is used from here
     on, also in its [catch] *)
  let (read, profileRes) := Response.json profileRes in
  errorMessage <-
    tryCatch
      (errorData <- lift read ;;
       field <- getMember env errorData (str "error") ;;
       ret (if truthy field then field else VStr errorMessage))
      (fun _ => ret (VStr (getResponseError profileRes errorMessage))) ;;
  let errorMessage :=
    if Response.status profileRes =? 404 then
      VStr (str "GitHub user not found. Please check the username.")
    else if Response.status profileRes =? 403 then
      VStr (str "GitHub API rate limit exceeded. Please try again later.")
    else errorMessage in
  err <- lift (new_Error env errorMessage) ;;
  throw err.

(** The rest of the [try] block (lines 135-165), entered with a profile
    response that is ok. *)
Definition aiStage (env : Env.t) (profileRes : Response.t) : M unit :=
  profileData <- lift (fst (Response.json profileRes)) ;;
  setGithubData profileData ;;
  appendLog env (str "Repository summary received") ;;
  appendLog env (str "Sending profile summary to AI pipeline") ;;
  aiRes <- fetchWithTimeout env aiUrl (aiInit profileData) AI_TIMEOUT ;;
  if negb (Response.ok aiRes) then
    let message := getResponseError aiRes (str "AI analysis failed") in
    err <- lift (new_Error env (VStr message)) ;;
    throw err
  else
    aiResult <- lift (fst (Response.json aiRes)) ;;
    text_analysis <- getMember env aiResult (str "text_analysis") ;;
    setAiInsights (if truthy text_analysis then text_analysis else VNull) ;;
    numeric_analysis <- getMember env aiResult (str "numeric_analysis") ;;
    setNumericInsights (if truthy numeric_analysis then numeric_analysis else VNull) ;;
    logs <- getMember env aiResult (str "logs") ;;
    match logs with
    | VArr ((_ :: _) as items) =>
        forEach (filter nonEmpty (List.map sanitizeLogEntry items))
                (fun entry => appendLog env entry)
    | _ => ret tt
    end ;;
    appendLog env (str "AI pipeline completed successfully").

(** The [catch (err)] block (lines 166-173); [console.error] leaves the
    component alone. *)
Definition analysisFailed (env : Env.t) (err : JsError.t) : M unit :=
  appendLog env (str "Analysis failed") ;;
  if Js.eqb (JsError.name err) (str "AbortError") then
    setError (str "Request timed out. Please try again.")
  else
    setError (if nonEmpty (JsError.message err) then JsError.message err
              else str "Something went wrong. Try again.").

(** The [try] block as a whole (lines 109-165). *)
Definition analysis (env : Env.t) (username : jsstring) : M unit :=
  appendLog env (str "Requesting repository intelligence from backend") ;;
  profileRes <- fetchWithTimeout env (profileUrl username) emptyInit PROFILE_TIMEOUT ;;
  if negb (Response.ok profileRes) then profileFailed env profileRes
  else aiStage env profileRes.

Definition handleAnalyze (env : Env.t) : M unit :=
  username <- getState St.username ;;
  if negb (nonEmpty (trim username)) then
    setError (str "Username cannot be empty")
  else
    setError [] ;;
    setLoading true ;;
    setGithubData VNull ;;
    setAiInsights VNull ;;
    setNumericInsights VNull ;;
    setLogs (fun _ => []) ;;
    appendLog env (str "Kickstarting GitHub profile analysis") ;;
    tryFinally
      (tryCatch (analysis env username) (analysisFailed env))
      (setLoading false).

(** The world after a click on the button. *)
Definition run (env : Env.t) (w : World) : World := snd (handleAnalyze env w).

(** *** Worlds met along a run *)

(** The entry that [appendLog env message] adds in world [w]. *)
Definition entryAt (env : Env.t) (w : World) (message : jsstring) : LogEntry.t :=
  LogEntry.mk
    (Env.clock env (clockReads w) ++ str "-"
       ++ decimal (Z.of_nat (length (St.logs (state w)))))
    (Env.clock env (clockReads w)) message.

(** The world once [appendLog env message] has run, for a message that is
    not empty. *)
Definition logged (env : Env.t) (message : jsstring) (w : World) : World :=
  mkWorld
    (St.mk (St.username (state w)) (St.loading (state w)) (St.error (state w))
           (St.logs (state w) ++ [entryAt env w message])
           (St.githubData (state w)) (St.aiInsights (state w))
           (St.numericInsights (state w)))
    (calls w) (S (clockReads w)).

(** The world when the [try] block is entered: results and log cleared,
    the first entry logged. *)
Definition started (env : Env.t) (w : World) : World :=
  logged env (str "Kickstarting GitHub profile analysis")
    (mkWorld (St.mk (St.username (state w)) true [] [] VNull VNull VNull)
             (calls w) (clockReads w)).

(** The world in which the profile request is issued. *)
Definition requesting (env : Env.t) (w : World) : World :=
  logged env (str "Requesting repository intelligence from backend") (started env w).

(** What the [catch] block shows for the error it caught. *)
Definition surfaced (err : JsError.t) : jsstring :=
  if Js.eqb (JsError.name err) (str "AbortError") then
    str "Request timed out. Please try again."
  else if nonEmpty (JsError.message err) then JsError.message err
  else str "Something went wrong. Try again.".

(** The world once the [catch] block has run on [err]. *)
Definition failed (env : Env.t) (err : JsError.t) (w : World) : World :=
  let w1 := logged env (str "Analysis failed") w in
  mkWorld
    (St.mk (St.username (state w1)) (St.loading (state w1)) (surfaced err)
           (St.logs (state w1)) (St.githubData (state w1))
           (St.aiInsights (state w1)) (St.numericInsights (state w1)))
    (calls w1) (clockReads w1).

(** The world once the [finally] block has run. *)
Definition settled (w : World) : World :=
  mkWorld
    (St.mk (St.username (state w)) false (St.error (state w))
           (St.logs (state w)) (St.githubData (state w))
           (St.aiInsights (state w)) (St.numericInsights (state w)))
    (calls w) (clockReads w).

(** The profile request of a run started in world [w]. *)
Definition profileExchange (env : Env.t) (w : World) : Exchange :=
  Env.fetch env (profileUrl (St.username (state w))) emptyInit.

(** The record of that request. *)
Definition profileCall (env : Env.t) (w : World) : NetCall :=
  mkCall (profileUrl (St.username (state w))) emptyInit PROFILE_TIMEOUT
         (timerFires (profileExchange env w) PROFILE_TIMEOUT)
         (state (requesting env w)).

(** The AI request for the profile payload [profileData]. *)
Definition aiExchange (env : Env.t) (profileData : value) : Exchange :=
  Env.fetch env aiUrl (aiInit profileData).

(** The world in which the AI request is issued, [w] being the world in
    which the profile response arrived. *)
Definition aiRequesting (env : Env.t) (profileData : value) (w : World) : World :=
  logged env (str "Sending profile summary to AI pipeline")
    (logged env (str "Repository summary received")
       (mkWorld
          (St.mk (St.username (state w)) (St.loading (state w)) (St.error (state w))
                 (St.logs (state w)) profileData (St.aiInsights (state w))
                 (St.numericInsights (state w)))
          (calls w) (clockReads w))).

(** The record of the AI request issued in world [w]. *)
Definition aiCall (env : Env.t) (profileData : value) (w : World) : NetCall :=
  mkCall aiUrl (aiInit profileData) AI_TIMEOUT
         (timerFires (aiExchange env profileData) AI_TIMEOUT) (state w).

(** The world with one more call on record. *)
Definition called (c : NetCall) (w : World) : World :=
  mkWorld (state w) (calls w ++ [c]) (clockReads w).

(** [c] keeps [P]: from a world with [P], [c] ends in a world with [P],
    however it completes. *)
Definition preserves {A} (P : World -> Prop) (c : M A) : Prop :=
  forall w, P w -> P (snd (c w)).

(** The error cell holds [e]. *)
Definition errorIs (e : jsstring) (w : World) : Prop := St.error (state w) = e.

(** The calls made so far start with [pre]. *)
Definition callsFrom (pre : list NetCall) (w : World) : Prop :=
  exists rest, calls w = pre ++ rest.

(* ===================================================================== *)
(** ** The specification's reading of the helpers *)
(* ===================================================================== *)

(** The log sanitizer as the specification words it, step by step; these
    definitions follow the prose, not the source, and are compared with
    [sanitizeLogEntry] below. *)
Module SanitizeSpec.

Definition fence : jsstring := str "```".

Definition isFence (a b c : N) : bool :=
  (N.eqb Regex.backtick a && N.eqb Regex.backtick b && N.eqb Regex.backtick c)%bool.

Definition consHead (a : N) (ps : list jsstring) : list jsstring :=
  match ps with
  | [] => [[a]]
  | p :: rest => (a :: p) :: rest
  end.

(** The text cut at its fence markers, leftmost marker first. *)
Fixpoint pieces (s : jsstring) : list jsstring :=
  match s with
  | [] => [[]]
  | a :: s1 =>
      match s1 with
      | b :: c :: s3 =>
          if isFence a b c then [] :: pieces s3 else consHead a (pieces s1)
      | _ => consHead a (pieces s1)
      end
  end.

(** The pieces alternate between text outside and inside a fenced segment;
    a segment is fenced when a marker closes it. The text of the fenced
    segments goes, with its two markers; a last marker that nothing closes
    stays, with what follows it. *)
Fixpoint outside (ps : list jsstring) : jsstring :=
  match ps with
  | [] => []
  | [p] => p
  | [p; unclosed] => p ++ fence ++ unclosed
  | p :: _ :: rest => p ++ outside rest
  end.

(** "removes any fenced code-block segments" *)
Definition removeFenced (s : jsstring) : jsstring := outside (pieces s).

Fixpoint takeWhile (p : N -> bool) (s : jsstring) : jsstring :=
  match s with
  | [] => []
  | c :: s' => if p c then c :: takeWhile p s' else []
  end.

(** "truncates the remainder at the first colon (dropping everything from
    the colon onward)" *)
Definition beforeColon (s : jsstring) : jsstring :=
  takeWhile (fun c => negb (N.eqb c 58)) s.

(** [inRun]: the code unit before this one was whitespace. *)
Fixpoint collapseRuns (inRun : bool) (s : jsstring) : jsstring :=
  match s with
  | [] => []
  | c :: s' =>
      if is_ws c then
        if inRun then collapseRuns true s' else 32%N :: collapseRuns true s'
      else c :: collapseRuns false s'
  end.

(** "collapses internal whitespace runs to single spaces" *)
Definition collapseWhitespace (s : jsstring) : jsstring := collapseRuns false s.

(** "Non-string input yields an empty result." *)
Definition sanitized (entry : value) : jsstring :=
  match entry with
  | VStr s => trim (collapseWhitespace (beforeColon (removeFenced s)))
  | _ => []
  end.

End SanitizeSpec.

(** The error of a failed AI request as the specification words it. *)
Module ErrorSpec.

(** "read a string error field; if that field is present and non-blank" *)
Definition errorField (body : BodyRead) : option jsstring :=
  match body with
  | BodyJson d =>
      match optGet (str "error") d with
      | VStr e => if nonEmpty (trim e) then Some e else None
      | _ => None
      end
  | BodyBad _ => None
  end.

(** The field verbatim, else the not-found message for 404, else the
    fallback of the AI request. *)
Definition aiErrorMessage (status : Z) (body : BodyRead) : jsstring :=
  match errorField body with
  | Some e => e
  | None =>
      if status =? 404 then str "GitHub user not found."
      else str "AI analysis failed"
  end.

End ErrorSpec.

(** The derived action list as the specification words it. *)
Module ActionsSpec.

(** A skills mapping with numeric scores, in iteration order. *)
Definition numericMapping (scores : list (jsstring * Num.number)) : value :=
  VObj (List.map (fun e => (fst e, VNum (snd e))) scores).

(** The suggestion for one skill: it names the skill and its score. *)
Definition suggestion (e : jsstring * Num.number) : jsstring :=
  fst e ++ str " skills are at " ++ Num.toString (snd e)
        ++ str ". Focus on targeted projects or courses to lift this metric.".

(** "for every skill whose score is below 50, produce a suggestion ...;
    cap the produced list at 4 entries, preserving mapping iteration
    order" *)
Definition suggestions (scores : list (jsstring * Num.number)) : list jsstring :=
  firstn 4 (List.map suggestion
              (filter (fun e => Num.ltb (snd e) (Num.ofZ 50)) scores)).

(** The whole scores from 0 to 100. *)
Definition percentages : list Z := List.map Z.of_nat (seq 0 101).

End ActionsSpec.

(** *** Sample environments and worlds *)

(** A backend that answers the AI address with [ai] and any other address
    with [profile], under a clock that shows the number of the reading. *)
Definition backend (profile ai : Exchange) : Env.t :=
  Env.mk (fun url _ => if Js.eqb url aiUrl then ai else profile)
         (fun k => decimal (Z.of_nat k))
         (fun key => str "Cannot read properties of null (reading '" ++ key ++ str "')")
         (str "Cannot convert object to primitive value").

(** An exchange answered after [ms] milliseconds. *)
Definition answers (ms : Z) (status : Z) (body : BodyRead) : Exchange :=
  mkExchange ms false (Responds status body).

(** A world left by an earlier run: results, an error and a log entry are
    in place, one call is on record. *)
Definition usedWorld (username : jsstring) : World :=
  mkWorld
    (St.mk username false (str "AI analysis failed")
           [LogEntry.mk (str "0-0") (str "0") (str "Analysis failed")]
           (VObj [(str "profile", VNull)])
           (VObj [(str "resume_summary", VStr (str "old"))])
           (VObj [(str "skills", VObj [(str "Go", VNum (Num.ofZ 40))])]))
    [mkCall (profileUrl username) emptyInit PROFILE_TIMEOUT false St.initial]
    7.

(** The first render, with [username] typed in. *)
Definition freshWorld (username : jsstring) : World :=
  mkWorld (St.mk username false [] [] VNull VNull VNull) [] O.

(** *** More worlds met along a run *)

(** The world once [appendLog] has run on each of [messages], in order. *)
Definition loggedAll (env : Env.t) (messages : list jsstring) (w : World) : World :=
  fold_left (fun w m => logged env m w) messages w.

(** The entries of the [logs] array of an AI result as they reach the log:
    sanitized, the empty ones dropped, in array order. *)
Definition forwarded (aiResult : value) : list jsstring :=
  match optGet (str "logs") aiResult with
  | VArr items => filter nonEmpty (List.map sanitizeLogEntry items)
  | _ => []
  end.

(** [v || null] *)
Definition orNull (v : value) : value := if truthy v then v else VNull.

(** The world once the AI stage has gone through with the result
    [aiResult], [w] being the world in which the AI response arrived. *)
Definition completed (env : Env.t) (aiResult : value) (w : World) : World :=
  logged env (str "AI pipeline completed successfully")
    (loggedAll env (forwarded aiResult)
       (mkWorld
          (St.mk (St.username (state w)) (St.loading (state w)) (St.error (state w))
                 (St.logs (state w)) (St.githubData (state w))
                 (orNull (optGet (str "text_analysis") aiResult))
                 (orNull (optGet (str "numeric_analysis") aiResult)))
          (calls w) (clockReads w))).

(** The world in which the answer to the AI request arrives, in a run
    started in [w] whose profile request gave [profileData]. *)
Definition aiAnswered (env : Env.t) (profileData : value) (w : World) : World :=
  let w1 := aiRequesting env profileData (called (profileCall env w) (requesting env w)) in
  called (aiCall env profileData w1) w1.

(** A value other than [null] and [undefined]. *)
Definition hasMembers (v : value) : bool :=
  match v with
  | VUndefined | VNull => false
  | _ => true
  end.


(** The world in which the answer to the profile request arrives. *)
Definition profileAnswered (env : Env.t) (w : World) : World :=
  called (profileCall env w) (requesting env w).

(** The payload of the profile request, when the request is answered in
    time by an ok response whose body parses. *)
Definition profilePayload (env : Env.t) (w : World) : option value :=
  if timerFires (profileExchange env w) PROFILE_TIMEOUT then None
  else
    match outcome (profileExchange env w) with
    | Responds status (BodyJson v) =>
        if Response.ok (Response.mk status (BodyJson v) false) then Some v else None
    | _ => None
    end.

(** The result of the AI request for [profileData], when the request is
    answered in time by an ok response whose body parses to something
    other than [null]. *)
Definition aiResultOf (env : Env.t) (profileData : value) : option value :=
  if timerFires (aiExchange env profileData) AI_TIMEOUT then None
  else
    match outcome (aiExchange env profileData) with
    | Responds status (BodyJson r) =>
        if Response.ok (Response.mk status (BodyJson r) false) && hasMembers r
        then Some r else None
    | _ => None
    end.

(** The three ways a run that passed validation ends: the profile stage
    failed, the AI stage failed, or the run went through. *)
Inductive RunEnd (env : Env.t) (w : World) : World -> Prop :=
| ProfileStageFailed err :
    profilePayload env w = None ->
    RunEnd env w (settled (failed env err (profileAnswered env w)))
| AiStageFailed profileData err :
    profilePayload env w = Some profileData ->
    aiResultOf env profileData = None ->
    RunEnd env w (settled (failed env err (aiAnswered env profileData w)))
| WentThrough profileData aiResult :
    profilePayload env w = Some profileData ->
    aiResultOf env profileData = Some aiResult ->
    RunEnd env w (settled (completed env aiResult (aiAnswered env profileData w))).


(** Each entry carries its position: its id is its timestamp, a dash and
    its index in the log. *)
Definition positional (logs : list LogEntry.t) : Prop :=
  forall k e,
    nth_error logs k = Some e ->
    LogEntry.id e = LogEntry.time e ++ str "-" ++ decimal (Z.of_nat k).


(** [t] added to the end of the last piece. *)
Fixpoint appendLast (ps : list jsstring) (t : jsstring) : list jsstring :=
  match ps with
  | [] => [t]
  | [p] => [p ++ t]
  | p :: rest => p :: appendLast rest t
  end.


(** *** The chart palette *)

Definition PIE_COLORS : list jsstring :=
  [str "#60a5fa"; str "#34d399"; str "#c084fc"; str "#fbbf24"; str "#f472b6";
   str "#38bdf8"].

(** [PIE_COLORS[index % PIE_COLORS.length]], the fill of the cell of slice
    [index] in [renderPieChart]; [None] stands for [undefined]. *)
Definition cellFill (index : nat) : option jsstring :=
  nth_error PIE_COLORS (index mod length PIE_COLORS).

(** The fills of the cells [renderPieChart] makes for [data], one per
    entry, by position. *)
Definition pieFills {A} (data : list A) : list (option jsstring) :=
  List.map (fun ix => cellFill (fst ix)) (indexed O data).

(** [err.message || "Something went wrong. Try again."] *)
Definition messageOrDefault (message : jsstring) : jsstring :=
  if nonEmpty message then message else str "Something went wrong. Try again.".


(** Two worlds with the same component state and the same clock. *)
Definition agree (w1 w2 : World) : Prop :=
  state w1 = state w2 /\ clockReads w1 = clockReads w2.

(** [c] does not look at the calls on record: from worlds that agree it
    completes alike and ends in worlds that agree. *)
Definition respects {A} (c : M A) : Prop :=
  forall w1 w2, agree w1 w2 -> fst (c w1) = fst (c w2) /\ agree (snd (c w1)) (snd (c w2)).


Example sanitize_example :
  sanitizeLogEntry (VStr (str "build failed: ```stack trace``` extra")) = str "build failed".
Proof. vm_compute. reflexivity. Qed.

Example removeFenced_examples :
  SanitizeSpec.pieces (str "a```b```c```d") = [str "a"; str "b"; str "c"; str "d"]
  /\ SanitizeSpec.removeFenced (str "a```b```c```d") = str "ac```d"
  /\ SanitizeSpec.removeFenced (str "x````y``` z") = str "x z"
  /\ Regex.replace_g Regex.fenceRe [] (str "x````y``` z") = str "x z".
Proof. vm_compute. repeat split. Qed.

Example stringToNumber_examples :
  Num.stringToNumber (str " 12 ") = Num.ofZ 12
  /\ Num.stringToNumber (str "-7") = Num.ofZ (-7)
  /\ Num.stringToNumber [] = Num.ofZ 0
  /\ Num.stringToNumber (str "4a") = Num.NaN
  /\ Num.stringToNumber (str "+") = Num.NaN
  /\ Num.stringToNumber (str "0x10") = Num.ofZ 16
  /\ Num.stringToNumber (str "1e1") = Num.ofZ 10
  /\ Num.stringToNumber (str "5.") = Num.ofZ 5
  /\ Num.stringToNumber (str "-0x10") = Num.NaN
  /\ Num.stringToNumber (str "49.5") = Num.Finite false 6966505673588736 (-47)
  /\ Num.stringToNumber (str ".5e1") = Num.ofZ 5
  /\ Num.stringToNumber (str "-Infinity") = Num.Infinite true
  /\ Num.stringToNumber (str "1e999") = Num.Infinite false
  /\ Num.stringToNumber (str "9007199254740993") = Num.ofZ 9007199254740992.
Proof. vm_compute. repeat split. Qed.

Example Number_toString_examples :
  List.map (fun text => Num.toString (Num.stringToNumber (str text)))
    ["40"; "49.5"; "0.1"; "0.30000000000000004"; "1e21"; "-1e21";
     "123456789012345680000"; "999999999999999999999"; "0.000001"; "1e-7";
     "5e-324"; "1.7976931348623157e308"; "1.7976931348623159e308"; "-0";
     "4.35"; "123456789.125"; "1e23"; "x"]%string
  = List.map str
    ["40"; "49.5"; "0.1"; "0.30000000000000004"; "1e+21"; "-1e+21";
     "123456789012345680000"; "1e+21"; "0.000001"; "1e-7";
     "5e-324"; "1.7976931348623157e+308"; "Infinity"; "0";
     "4.35"; "123456789.125"; "1e+23"; "NaN"]%string.
Proof. vm_compute. reflexivity. Qed.

Example toString_examples :
  toString (VArr [VNum (Num.ofZ 1); VNull; VArr [VStr (str "a"); VUndefined]; VBool true])
  = Some (str "1,,a,,true")
  /\ toString (VObj [(str "valueOf", VNull)]) = Some (str "[object Object]")
  /\ toString (VObj [(str "toString", VStr (str "x"))]) = None
  /\ toString (VArr [VNum (Num.ofZ 1); VObj [(str "toString", VNull)]]) = None.
Proof. vm_compute. repeat split. Qed.

Example profile_error_examples :
  List.map
    (fun field =>
       St.error
         (state (run (backend (answers 40 500 (BodyJson (VObj [(str "error", field)])))
                              (answers 5 200 (BodyJson VNull)))
                     (freshWorld (str "octocat")))))
    [VNum (Num.ofZ (10 ^ 21)); VNum (Num.stringToNumber (str "0.5"));
     VStr (str "quota"); VBool true;
     VArr [VNum (Num.ofZ 1); VNull; VStr (str "a")];
     VObj [(str "message", VStr (str "x"))];
     VObj [(str "toString", VStr (str "x"))];
     VArr []; VNum (Num.ofZ 0)]
  = List.map str
      ["1e+21"; "0.5"; "quota"; "true"; "1,,a"; "[object Object]";
       "Cannot convert object to primitive value";
       "Something went wrong. Try again.";
       "Failed to fetch GitHub profile data"]%string.
Proof. vm_compute. reflexivity. Qed.

Example formatBytes_examples :
  formatBytes 1536 = str "1.5 KB" /\ formatBytes 1048576 = str "1.0 MB"
  /\ formatBytes 1023 = str "1023.0 B".
Proof. vm_compute. repeat split. Qed.

Example successful_run_log :
  List.map LogEntry.message
    (St.logs
       (state
          (run (backend
                  (answers 40 200 (BodyJson (VObj [(str "profile", VNull)])))
                  (answers 5 200
                     (BodyJson
                        (VObj [(str "text_analysis", VObj []);
                               (str "logs",
                                VArr [VStr (str "step 1: detail"); VNum (Num.ofZ 3);
                                      VStr (str "```x```");
                                      VStr (str "  done   now ")])]))))
               (usedWorld (str "octocat")))))
  = [str "Kickstarting GitHub profile analysis";
     str "Requesting repository intelligence from backend";
     str "Repository summary received";
     str "Sending profile summary to AI pipeline";
     str "step 1"; str "done now";
     str "AI pipeline completed successfully"].
Proof. vm_compute. reflexivity. Qed.

Example derived_example :
  derivedCareerActions
    (VObj [(str "skills",
            VObj [(str "Go", VNum (Num.ofZ 40)); (str "Rust", VNum (Num.ofZ 70));
                  (str "C", VStr (str "0x10")); (str "Lua", VStr (str "4a"));
                  (str "Zig", VNum (Num.stringToNumber (str "49.5")));
                  (str "Nim", VArr [VStr (str "1e1")]);
                  (str "D", VNum (Num.ofZ (- 10 ^ 21)))])])
  = Some
      [str "Go skills are at 40. Focus on targeted projects or courses to lift this metric.";
       str "C skills are at 0x10. Focus on targeted projects or courses to lift this metric.";
       str "Zig skills are at 49.5. Focus on targeted projects or courses to lift this metric.";
       str "Nim skills are at 1e1. Focus on targeted projects or courses to lift this metric."]
  /\ derivedCareerActions
       (VObj [(str "skills", VObj [(str "D", VNum (Num.ofZ (- 10 ^ 21)))])])
     = Some
         [str "D skills are at -1e+21. Focus on targeted projects or courses to lift this metric."]
  /\ derivedCareerActions
       (VObj [(str "skills", VObj [(str "Go", VObj [(str "toString", VNull)])])])
     = None.
Proof. vm_compute. repeat split. Qed.

(* ===================================================================== *)
(** ** Lists and strings *)
(* ===================================================================== *)

Lemma dropWhile_length (p : N -> bool) (s : jsstring) :
  (length (dropWhile p s) <= length s)%nat.
Proof.
  induction s as [|c s IH]; simpl; [lia|].
  destruct (p c); simpl; lia.
Qed.

Lemma skipn_dropWhile (p : N -> bool) (s : jsstring) :
  skipn (length s - length (dropWhile p s)) s = dropWhile p s.
Proof.
  induction s as [|c s IH]; [reflexivity|].
  cbn [dropWhile]. destruct (p c) eqn:E.
  - pose proof (dropWhile_length p s).
    change (length (c :: s)) with (S (length s)).
    replace (S (length s) - length (dropWhile p s))%nat
      with (S (length s - length (dropWhile p s))) by lia.
    cbn [skipn]. exact IH.
  - now rewrite Nat.sub_diag.
Qed.

(* ===================================================================== *)
(** ** The regular expressions of the sanitizer *)
(* ===================================================================== *)

Module RegexFacts.
Import Regex SanitizeSpec.

(** Once [n] code units of a match remain to be passed, the replacement
    resumes behind them. *)
Lemma replaceAll_skip m rep : forall n s,
  (n <= length s)%nat ->
  replaceAll m rep n s = replaceAll m rep O (skipn n s).
Proof.
  induction n as [|n IH]; intros s Hn; [reflexivity|].
  destruct s as [|c s]; simpl in Hn; [lia|].
  simpl. apply IH. lia.
Qed.

(** *** [/\s+/g] *)

Lemma greedyStar_all p : forall s,
  greedyStar p s (fun r => Some r) = Some (dropWhile p s).
Proof.
  induction s as [|c s IH]; simpl; [reflexivity|].
  destruct (p c); [now rewrite IH | reflexivity].
Qed.

Lemma spacesRe_match c s :
  matchLen spacesRe (c :: s) =
  if is_ws c then Some (S (length s - length (dropWhile is_ws s))) else None.
Proof.
  unfold matchLen, spacesRe, plus, seq, chr.
  destruct (is_ws c); [|reflexivity].
  rewrite greedyStar_all.
  pose proof (dropWhile_length is_ws s).
  f_equal. simpl length. lia.
Qed.

Lemma collapseRuns_inRun : forall s,
  collapseRuns true s = collapseRuns false (dropWhile is_ws s).
Proof.
  induction s as [|c s IH]; simpl; [reflexivity|].
  destruct (is_ws c) eqn:E; [exact IH|].
  simpl. now rewrite E.
Qed.

Lemma replace_spaces_bounded : forall n s,
  (length s <= n)%nat ->
  replaceAll spacesRe (str " ") O s = collapseRuns false s.
Proof.
  induction n as [|n IH]; intros s Hn.
  - destruct s; simpl in Hn; [reflexivity | lia].
  - destruct s as [|c s]; [reflexivity|].
    simpl in Hn.
    cbn [replaceAll]. rewrite spacesRe_match.
    cbn [collapseRuns].
    destruct (is_ws c) eqn:E.
    + pose proof (dropWhile_length is_ws s).
      rewrite replaceAll_skip by lia.
      rewrite skipn_dropWhile, collapseRuns_inRun.
      rewrite IH by lia. reflexivity.
    + rewrite IH by lia. reflexivity.
Qed.

Lemma replace_spaces s :
  replace_g spacesRe (str " ") s = collapseWhitespace s.
Proof. apply (replace_spaces_bounded (length s)). lia. Qed.

(** *** [/```[\s\S]*?```/g] *)

Lemma isFence_true a b c :
  isFence a b c = true -> a = backtick /\ b = backtick /\ c = backtick.
Proof.
  unfold isFence. intro H.
  apply andb_prop in H as [H Hc]. apply andb_prop in H as [Ha Hb].
  apply N.eqb_eq in Ha, Hb, Hc. auto.
Qed.

Lemma closeK_spec t :
  closeK t =
  match t with
  | a :: b :: c :: t3 => if isFence a b c then Some t3 else None
  | _ => None
  end.
Proof.
  unfold closeK, seq, lit, chr, isFence.
  destruct t as [|a [|b [|c t3]]]; try reflexivity.
  - now destruct (N.eqb backtick a).
  - destruct (N.eqb backtick a); [|reflexivity]. now destruct (N.eqb backtick b).
  - destruct (N.eqb backtick a); [|reflexivity].
    destruct (N.eqb backtick b); reflexivity.
Qed.

Lemma fenceRe_spec s :
  fenceRe s (fun r => Some r) =
  match s with
  | a :: b :: c :: t => if isFence a b c then closeAt t else None
  | _ => None
  end.
Proof.
  unfold fenceRe, closeAt, closeK, seq, lit, chr, isFence.
  destruct s as [|a [|b [|c t]]]; try reflexivity.
  - now destruct (N.eqb backtick a).
  - destruct (N.eqb backtick a); [|reflexivity]. now destruct (N.eqb backtick b).
  - destruct (N.eqb backtick a); [|reflexivity].
    destruct (N.eqb backtick b); [|reflexivity].
    destruct (N.eqb backtick c); reflexivity.
Qed.

Lemma closeAt_cons a t :
  closeAt (a :: t) =
  match closeK (a :: t) with
  | Some r => Some r
  | None => closeAt t
  end.
Proof. reflexivity. Qed.

Lemma closeAt_tail a t : closeAt (a :: t) = None -> closeAt t = None.
Proof.
  rewrite closeAt_cons. destruct (closeK (a :: t)); [discriminate | auto].
Qed.

Lemma pieces_cons a s1 :
  pieces (a :: s1) =
  match closeK (a :: s1) with
  | Some s3 => [] :: pieces s3
  | None => consHead a (pieces s1)
  end.
Proof.
  rewrite closeK_spec.
  destruct s1 as [|b [|c s3]]; try reflexivity.
  cbn [pieces]. destruct (isFence a b c); reflexivity.
Qed.

Lemma pieces_nonempty s : pieces s <> [].
Proof.
  destruct s as [|a s1]; [discriminate|].
  rewrite pieces_cons. destruct (closeK (a :: s1)); [discriminate|].
  destruct (pieces s1); discriminate.
Qed.

(** The scan of [[\s\S]*?] for the closing marker stops where the cut of
    the text has its first marker. *)
Lemma pieces_closeAt : forall t,
  match closeAt t with
  | None => pieces t = [t]
  | Some post => exists body, pieces t = body :: pieces post /\ t = body ++ fence ++ post
  end.
Proof.
  induction t as [|a t IH]; [reflexivity|].
  rewrite closeAt_cons, pieces_cons.
  destruct (closeK (a :: t)) as [post|] eqn:K.
  - exists []. split; [reflexivity|].
    rewrite closeK_spec in K.
    destruct t as [|b [|c t3]]; try discriminate.
    destruct (isFence a b c) eqn:F; [|discriminate].
    injection K as <-. apply isFence_true in F as (-> & -> & ->). reflexivity.
  - destruct (closeAt t) as [post|].
    + destruct IH as (body & -> & ->). exists (a :: body). split; reflexivity.
    + rewrite IH. reflexivity.
Qed.

Lemma outside_consHead a ps :
  ps <> [] -> outside (consHead a ps) = a :: outside ps.
Proof.
  destruct ps as [|p [|q [|r rest]]]; intro H; [congruence | reflexivity..].
Qed.

Lemma join_consHead a ps :
  ps <> [] -> Js.join fence (consHead a ps) = a :: Js.join fence ps.
Proof.
  destruct ps as [|p [|q rest]]; intro H; [congruence | reflexivity..].
Qed.

Lemma length_consHead a ps : ps <> [] -> length (consHead a ps) = length ps.
Proof. destruct ps; [congruence | reflexivity]. Qed.

(** Gluing the pieces with the marker gives the text back. *)
Lemma join_pieces_bounded : forall n s,
  (length s <= n)%nat -> Js.join fence (pieces s) = s.
Proof.
  induction n as [|n IH]; intros s Hn.
  - destruct s; simpl in Hn; [reflexivity | lia].
  - destruct s as [|a s1]; [reflexivity|].
    simpl in Hn. rewrite pieces_cons.
    destruct (closeK (a :: s1)) as [s3|] eqn:K.
    + rewrite closeK_spec in K.
      destruct s1 as [|b [|c t3]]; try discriminate.
      destruct (isFence a b c) eqn:F; [|discriminate].
      injection K as <-. apply isFence_true in F as (-> & -> & ->).
      simpl in Hn.
      pose proof (pieces_nonempty t3) as Hne.
      specialize (IH t3 ltac:(lia)).
      destruct (pieces t3) as [|p rest]; [congruence|].
      change (Js.join fence ([] :: p :: rest))
        with (fence ++ Js.join fence (p :: rest)).
      rewrite IH. reflexivity.
    + rewrite join_consHead by apply pieces_nonempty.
      rewrite IH by lia. reflexivity.
Qed.

Lemma outside_short ps :
  (length ps <= 2)%nat -> outside ps = Js.join fence ps.
Proof.
  destruct ps as [|p [|q [|r rest]]]; simpl; intro H; try reflexivity; lia.
Qed.

(** Behind an opening marker that nothing closes, no further segment is
    fenced. *)
Lemma pieces_unclosed t x y :
  closeAt t = None -> (length (pieces (x :: y :: t)) <= 2)%nat.
Proof.
  intro Ht.
  assert (Hsingle : forall u, closeAt u = None -> pieces u = [u]).
  { intros u Hu. pose proof (pieces_closeAt u) as P. now rewrite Hu in P. }
  assert (Hyt : (length (pieces (y :: t)) <= 2)%nat).
  { rewrite pieces_cons. destruct (closeK (y :: t)) as [s3|] eqn:K.
    - rewrite closeK_spec in K.
      destruct t as [|c [|d t3]]; try discriminate.
      destruct (isFence y c d); [|discriminate]. injection K as <-.
      apply closeAt_tail, closeAt_tail in Ht.
      rewrite (Hsingle _ Ht). simpl. lia.
    - rewrite (Hsingle _ Ht). simpl. lia. }
  rewrite pieces_cons. destruct (closeK (x :: y :: t)) as [s3|] eqn:K.
  - rewrite closeK_spec in K.
    destruct t as [|c t3]; try discriminate.
    destruct (isFence x y c); [|discriminate]. injection K as <-.
    apply closeAt_tail in Ht. rewrite (Hsingle _ Ht). simpl. lia.
  - rewrite length_consHead by apply pieces_nonempty. exact Hyt.
Qed.

Lemma replace_fences_bounded : forall n s,
  (length s <= n)%nat ->
  replaceAll fenceRe [] O s = outside (pieces s).
Proof.
  induction n as [|n IH]; intros s Hn.
  - destruct s; simpl in Hn; [reflexivity | lia].
  - destruct s as [|a s1]; [reflexivity|].
    simpl in Hn.
    cbn [replaceAll]. unfold matchLen. rewrite fenceRe_spec, pieces_cons, closeK_spec.
    destruct s1 as [|b [|c t]]; simpl in Hn.
    + rewrite IH by (simpl; lia). reflexivity.
    + rewrite IH by (simpl; lia).
      rewrite outside_consHead by apply pieces_nonempty. reflexivity.
    + destruct (isFence a b c) eqn:F.
      * pose proof (pieces_closeAt t) as P.
        destruct (closeAt t) as [post|] eqn:C.
        -- destruct P as (body & Hp & Ht).
           assert (Hl : length t = (length body + 3 + length post)%nat).
           { rewrite Ht, !length_app. change (length fence) with 3%nat. lia. }
           change (length (a :: b :: c :: t)) with (S (S (S (length t)))).
           replace (S (S (S (length t))) - length post)%nat
             with (S (S (S (length body) + 3))) by lia.
           rewrite replaceAll_skip
             by (change (length (b :: c :: t)) with (S (S (length t))); lia).
           assert (Hskip : skipn (S (S (length body) + 3)) (b :: c :: t) = post).
           { rewrite Ht. cbn [skipn Nat.add].
             rewrite skipn_app, skipn_all2 by lia.
             replace (length body + 3 - length body)%nat with 3%nat by lia.
             reflexivity. }
           rewrite Hskip.
           rewrite IH by lia.
           rewrite Hp.
           pose proof (pieces_nonempty post) as Hne.
           destruct (pieces post); [congruence | reflexivity].
        -- rewrite IH by (simpl; lia).
           rewrite outside_short by (apply pieces_unclosed; exact C).
           rewrite (join_pieces_bounded (length (b :: c :: t))) by lia.
           rewrite P. apply isFence_true in F as (-> & -> & ->). reflexivity.
      * rewrite IH by (simpl; lia).
        rewrite outside_consHead by apply pieces_nonempty. reflexivity.
Qed.

Lemma replace_fences s : replace_g fenceRe [] s = removeFenced s.
Proof. apply (replace_fences_bounded (length s)). lia. Qed.

End RegexFacts.

(* ===================================================================== *)
(** ** Reasoning about the handler *)
(* ===================================================================== *)

Section Preservation.

Context {P : World -> Prop}.

Lemma preserves_ret {A} (a : A) : preserves P (ret a).
Proof. intros w H. exact H. Qed.

Lemma preserves_throw {A} (e : JsError.t) : preserves P (@throw A e).
Proof. intros w H. exact H. Qed.

Lemma preserves_lift {A} (c : completion A) : preserves P (lift c).
Proof. intros w H. exact H. Qed.

Lemma preserves_bind {A B} (c : M A) (k : A -> M B) :
  preserves P c -> (forall a, preserves P (k a)) -> preserves P (bind c k).
Proof.
  intros Hc Hk w H. unfold bind.
  specialize (Hc w H). destruct (c w) as [[a|e] w']; simpl in Hc.
  - apply Hk, Hc.
  - exact Hc.
Qed.

Lemma preserves_tryCatch {A} (body : M A) (handler : JsError.t -> M A) :
  preserves P body -> (forall e, preserves P (handler e)) ->
  preserves P (tryCatch body handler).
Proof.
  intros Hb Hh w H. unfold tryCatch.
  specialize (Hb w H). destruct (body w) as [[a|e] w']; simpl in Hb.
  - exact Hb.
  - apply Hh, Hb.
Qed.

Lemma preserves_tryFinally {A} (body : M A) (fin : M unit) :
  preserves P body -> preserves P fin -> preserves P (tryFinally body fin).
Proof.
  intros Hb Hf w H. unfold tryFinally.
  specialize (Hb w H). destruct (body w) as [r w']; simpl in Hb.
  specialize (Hf w' Hb). destruct (fin w') as [[u|e] w'']; exact Hf.
Qed.

Lemma preserves_forEach {A} (l : list A) (f : A -> M unit) :
  (forall x, preserves P (f x)) -> preserves P (forEach l f).
Proof.
  intro Hf. induction l as [|x l IH]; simpl.
  - apply preserves_ret.
  - apply preserves_bind; [apply Hf | intros _; exact IH].
Qed.

Lemma preserves_getMember env v key : preserves P (getMember env v key).
Proof. destruct v; intros w H; exact H. Qed.

End Preservation.

(** Splits a block along its binds, handlers and branches, leaving the
    state updates, the clock, the log and the requests. *)
Ltac preserve_step :=
  lazymatch goal with
  | |- preserves _ (bind _ _) => apply preserves_bind; [|intro]
  | |- preserves _ (tryCatch _ _) => apply preserves_tryCatch; [|intro]
  | |- preserves _ (tryFinally _ _) => apply preserves_tryFinally
  | |- preserves _ (forEach _ _) => apply preserves_forEach; intro
  | |- preserves _ (ret _) => apply preserves_ret
  | |- preserves _ (throw _) => apply preserves_throw
  | |- preserves _ (lift _) => apply preserves_lift
  | |- preserves _ (getMember _ _ _) => apply preserves_getMember
  | |- preserves _ (if ?b then _ else _) => destruct b
  | |- preserves _ (match ?v with VArr _ => _ | _ => _ end) => destruct v
  | |- preserves _ (match ?l with [] => _ | _ :: _ => _ end) => destruct l
  end.

(** *** The log *)

Lemma appendLog_run env message w :
  message <> [] -> appendLog env message w = (Normal tt, logged env message w).
Proof.
  intro H. destruct message; [congruence|]. reflexivity.
Qed.

Lemma appendLog_empty env w : appendLog env [] w = (Normal tt, w).
Proof. reflexivity. Qed.

(** *** The error cell *)

Lemma errorIs_appendLog e env message : preserves (errorIs e) (appendLog env message).
Proof.
  intros w H. destruct message as [|c m]; [exact H|].
  rewrite appendLog_run by discriminate. exact H.
Qed.

Lemma errorIs_fetch e env u o t : preserves (errorIs e) (fetchWithTimeout env u o t).
Proof.
  intros w H. unfold fetchWithTimeout.
  destruct (timerFires _ _); [exact H|].
  destruct (outcome _); exact H.
Qed.

Lemma errorIs_profileFailed e env r : preserves (errorIs e) (profileFailed env r).
Proof.
  unfold profileFailed, Response.json. repeat preserve_step.
Qed.

Lemma errorIs_aiStage e env r : preserves (errorIs e) (aiStage env r).
Proof.
  unfold aiStage.
  repeat (preserve_step
          || apply errorIs_appendLog || apply errorIs_fetch
          || (intros ? H; exact H)).
Qed.

(** *** The calls *)

Lemma callsFrom_appendLog pre env message :
  preserves (callsFrom pre) (appendLog env message).
Proof.
  intros w H. destruct message as [|c m]; [exact H|].
  rewrite appendLog_run by discriminate. exact H.
Qed.

Lemma callsFrom_fetch pre env u o t :
  preserves (callsFrom pre) (fetchWithTimeout env u o t).
Proof.
  intros w [rest H]. unfold fetchWithTimeout.
  assert (G : callsFrom pre
                (mkWorld (state w)
                   (calls w ++ [mkCall u o t (timerFires (Env.fetch env u o) t) (state w)])
                   (clockReads w))).
  { eexists. cbn [calls]. rewrite H, <- app_assoc. reflexivity. }
  destruct (timerFires _ _); [exact G|].
  destruct (outcome _); exact G.
Qed.

Lemma callsFrom_profileFailed pre env r :
  preserves (callsFrom pre) (profileFailed env r).
Proof.
  unfold profileFailed, Response.json. repeat preserve_step.
Qed.

Lemma callsFrom_aiStage pre env r : preserves (callsFrom pre) (aiStage env r).
Proof.
  unfold aiStage.
  repeat (preserve_step
          || apply callsFrom_appendLog || apply callsFrom_fetch
          || (intros ? H; exact H)).
Qed.

(** *** The handler, block by block *)

Lemma analysisFailed_run env err w :
  analysisFailed env err w = (Normal tt, failed env err w).
Proof.
  unfold analysisFailed, bind. rewrite appendLog_run by discriminate.
  unfold failed, surfaced.
  destruct (Js.eqb (JsError.name err) (str "AbortError")); reflexivity.
Qed.

Lemma handleAnalyze_blank env w :
  trim (St.username (state w)) = [] ->
  handleAnalyze env w =
  (Normal tt,
   mkWorld
     (St.mk (St.username (state w)) (St.loading (state w))
            (str "Username cannot be empty") (St.logs (state w))
            (St.githubData (state w)) (St.aiInsights (state w))
            (St.numericInsights (state w)))
     (calls w) (clockReads w)).
Proof.
  intro H. unfold handleAnalyze, bind, getState. cbn [state]. rewrite H. reflexivity.
Qed.

Lemma handleAnalyze_nonblank env w :
  trim (St.username (state w)) <> [] ->
  handleAnalyze env w =
  tryFinally (tryCatch (analysis env (St.username (state w))) (analysisFailed env))
             (setLoading false) (started env w).
Proof.
  intro H. unfold handleAnalyze. unfold bind at 1. unfold getState at 1.
  destruct (trim (St.username (state w))); [congruence|]. reflexivity.
Qed.

(** A run that passes validation ends as its [try] block does: settled, and
    through the [catch] block when the [try] block threw. *)
Lemma run_nonblank env w :
  trim (St.username (state w)) <> [] ->
  run env w =
  match analysis env (St.username (state w)) (started env w) with
  | (Normal _, w1) => settled w1
  | (Thrown err, w1) => settled (failed env err w1)
  end.
Proof.
  intro H. unfold run. rewrite handleAnalyze_nonblank by exact H.
  unfold tryFinally, tryCatch.
  destruct (analysis _ _ _) as [[u|err] w1]; [reflexivity|].
  rewrite analysisFailed_run. reflexivity.
Qed.

(** The [try] block up to the answer to the profile request. *)
Lemma analysis_run env w :
  analysis env (St.username (state w)) (started env w) =
  let w1 := called (profileCall env w) (requesting env w) in
  if timerFires (profileExchange env w) PROFILE_TIMEOUT then (Thrown AbortError, w1)
  else
    match outcome (profileExchange env w) with
    | Responds status body =>
        let profileRes := Response.mk status body false in
        if Response.ok profileRes then aiStage env profileRes w1
        else profileFailed env profileRes w1
    | Fails msg => (Thrown (TypeError msg), w1)
    end.
Proof.
  unfold analysis, bind. rewrite appendLog_run by discriminate.
  fold (requesting env w). unfold fetchWithTimeout.
  fold (profileExchange env w). cbv zeta.
  change (mkWorld (state (requesting env w)) _ _)
    with (called (profileCall env w) (requesting env w)).
  destruct (timerFires _ _); [reflexivity|].
  destruct (outcome _) as [status body|msg]; [|reflexivity].
  destruct (Response.ok _); reflexivity.
Qed.

(** [throw new Error(message)] throws, one error or the other. *)
Lemma throw_new_Error {A} env message w :
  (err <- lift (new_Error env message) ;; throw (A := A) err) w
  = (Thrown (raised env message), w).
Proof.
  unfold bind, lift, throw, raised. destruct (new_Error env message); reflexivity.
Qed.

Lemma raised_string env text : raised env (VStr text) = errorWith text.
Proof. reflexivity. Qed.

(** The block for a failed profile request always throws; the message of
    its [Error] is the canned one for 404 and 403, and the default one
    when the body is JSON without a truthy [error]. *)
Lemma profileFailed_run env status body w :
  exists m,
    profileFailed env (Response.mk status body false) w = (Thrown (raised env m), w)
    /\ (status = 404 ->
        m = VStr (str "GitHub user not found. Please check the username."))
    /\ (status = 403 ->
        m = VStr (str "GitHub API rate limit exceeded. Please try again later."))
    /\ (status <> 404 -> status <> 403 ->
        forall d, body = BodyJson d -> truthy (optGet (str "error") d) = false ->
        m = VStr (str "Failed to fetch GitHub profile data")).
Proof.
  unfold profileFailed, Response.json, tryCatch, bind, lift, ret, throw.
  cbn [Response.bodyUsed Response.body Response.status].
  assert (E4 : status = 404 -> (status =? 404) = true) by (intros ->; reflexivity).
  assert (E3 : status = 403 -> (status =? 404) = false /\ (status =? 403) = true)
    by (intros ->; split; reflexivity).
  destruct body as [d|msg]; [destruct d|];
    (eexists; split; [apply (throw_new_Error env _ w)|]; repeat split;
     [ intro H; rewrite (E4 H); reflexivity
     | intro H; destruct (E3 H) as [-> ->]; reflexivity
     | intros H4 H3 d' Hd' Ht;
       apply Z.eqb_neq in H4, H3; rewrite H4, H3;
       try discriminate Hd';
       injection Hd' as <-;
       cbn in Ht |- *; rewrite ?H4, ?Ht; try reflexivity ]).
Qed.

(** The AI stage up to the answer to the AI request, for a profile body
    that parses. *)
Lemma aiStage_timeout env status v w :
  timerFires (aiExchange env v) AI_TIMEOUT = true ->
  aiStage env (Response.mk status (BodyJson v) false) w =
  (Thrown AbortError,
   called (aiCall env v (aiRequesting env v w)) (aiRequesting env v w)).
Proof.
  intro Ht. unfold aiStage, bind, lift, setGithubData, setState. cbn [fst Response.json Response.bodyUsed Response.body].
  rewrite !appendLog_run by discriminate.
  unfold fetchWithTimeout. fold (aiExchange env v). cbv zeta.
  unfold called, aiCall. rewrite Ht. reflexivity.
Qed.

Lemma aiStage_failed env status v w status2 body2 :
  timerFires (aiExchange env v) AI_TIMEOUT = false ->
  outcome (aiExchange env v) = Responds status2 body2 ->
  Response.ok (Response.mk status2 body2 false) = false ->
  aiStage env (Response.mk status (BodyJson v) false) w =
  (Thrown (errorWith (getResponseError (Response.mk status2 body2 false)
                                       (str "AI analysis failed"))),
   called (aiCall env v (aiRequesting env v w)) (aiRequesting env v w)).
Proof.
  intros Ht Ho Hok. unfold aiStage, bind, lift, setGithubData, setState.
  cbn [fst Response.json Response.bodyUsed Response.body].
  rewrite !appendLog_run by discriminate.
  unfold fetchWithTimeout. fold (aiExchange env v). cbv zeta.
  unfold called, aiCall. rewrite Ht, Ho, Hok. reflexivity.
Qed.

(** *** What the [catch] block shows *)

Lemma surfaced_Error m : m <> [] -> surfaced (errorWith m) = m.
Proof. destruct m; [congruence | reflexivity]. Qed.

Lemma surfaced_AbortError :
  surfaced AbortError = str "Request timed out. Please try again.".
Proof. reflexivity. Qed.

Lemma trim_nil_inv e : trim e <> [] -> e <> [].
Proof. intros H ->. apply H. reflexivity. Qed.

Lemma getResponseError_fresh status body fallback :
  getResponseError (Response.mk status body false) fallback =
  match ErrorSpec.errorField body with
  | Some e => e
  | None => if status =? 404 then str "GitHub user not found." else fallback
  end.
Proof.
  unfold getResponseError, ErrorSpec.errorField, Response.clone, Response.json.
  cbn [Response.bodyUsed Response.body Response.status fst].
  destruct body as [d|msg]; [|reflexivity].
  destruct (optGet (str "error") d); try reflexivity.
  destruct (nonEmpty (trim s)); reflexivity.
Qed.

Lemma errorField_nonEmpty body e : ErrorSpec.errorField body = Some e -> e <> [].
Proof.
  unfold ErrorSpec.errorField.
  destruct body as [d|msg]; [|discriminate].
  destruct (optGet (str "error") d); try discriminate.
  destruct (nonEmpty (trim s)) eqn:E; [|discriminate].
  intros [= <-]. apply trim_nil_inv. destruct (trim s); discriminate.
Qed.

(** *** Ends of a run *)

Lemma run_thrown env w err w1 :
  trim (St.username (state w)) <> [] ->
  analysis env (St.username (state w)) (started env w) = (Thrown err, w1) ->
  run env w = settled (failed env err w1).
Proof. intros H E. rewrite run_nonblank by exact H. rewrite E. reflexivity. Qed.

Lemma run_calls env w :
  trim (St.username (state w)) <> [] ->
  callsFrom (calls w ++ [profileCall env w]) (run env w).
Proof.
  intro H. rewrite run_nonblank by exact H. rewrite analysis_run. cbv zeta.
  assert (G0 : callsFrom (calls w ++ [profileCall env w])
                 (called (profileCall env w) (requesting env w))).
  { exists []. rewrite app_nil_r. reflexivity. }
  assert (G : forall r : completion unit * World,
             callsFrom (calls w ++ [profileCall env w]) (snd r) ->
             callsFrom (calls w ++ [profileCall env w])
               match r with
               | (Normal _, w1) => settled w1
               | (Thrown err, w1) => settled (failed env err w1)
               end).
  { intros [[u|err] w1] K; exact K. }
  destruct (timerFires _ _); [exact (G (Thrown AbortError, _) G0)|].
  destruct (outcome _) as [status body|msg]; [|exact (G (Thrown (TypeError msg), _) G0)].
  cbv zeta. destruct (Response.ok _); apply G.
  - apply callsFrom_aiStage, G0.
  - apply callsFrom_profileFailed, G0.
Qed.

(* ===================================================================== *)
(** ** The log sanitizer *)
(* ===================================================================== *)

Lemma slice_prefix (s : jsstring) (n : nat) :
  (n <= length s)%nat -> slice s 0 (Z.of_nat n) = firstn n s.
Proof.
  intro H. unfold slice. cbv zeta.
  change (0 <? 0) with false. cbv iota.
  destruct (Z.of_nat n <? 0) eqn:E; [apply Z.ltb_lt in E; lia|].
  rewrite Z.min_l, Z.min_l by lia.
  rewrite Z.sub_0_r, Nat2Z.id. reflexivity.
Qed.

Lemma indexOf_colon : forall s i,
  (indexOf_from colon s i = -1 /\ SanitizeSpec.beforeColon s = s)
  \/ (exists n, indexOf_from colon s i = i + Z.of_nat n
                /\ (n <= length s)%nat
                /\ SanitizeSpec.beforeColon s = firstn n s).
Proof.
  induction s as [|c s IH]; intro i.
  - left. split; reflexivity.
  - cbn [indexOf_from]. change (startsWith colon (c :: s)) with (N.eqb 58 c && true)%bool.
    unfold SanitizeSpec.beforeColon. cbn [SanitizeSpec.takeWhile].
    rewrite andb_true_r, (N.eqb_sym c 58).
    destruct (N.eqb 58 c); cbn [negb].
    + right. exists O. repeat split; [lia | simpl; lia].
    + destruct (IH (i + 1)) as [[-> Hb] | (n & -> & Hn & Hb)].
      * left. split; [reflexivity|]. f_equal. exact Hb.
      * right. exists (S n). repeat split; [lia | simpl; lia |].
        cbn [firstn]. f_equal. exact Hb.
Qed.

Lemma truncate_at_colon s :
  (if indexOf colon s >? -1 then slice s 0 (indexOf colon s) else s)
  = SanitizeSpec.beforeColon s.
Proof.
  unfold indexOf.
  destruct (indexOf_colon s 0) as [[-> Hb] | (n & -> & Hn & Hb)].
  - rewrite Hb. reflexivity.
  - rewrite Z.add_0_l.
    destruct (Z.of_nat n >? -1) eqn:E; [|rewrite Z.gtb_ltb in E; apply Z.ltb_ge in E; lia].
    rewrite slice_prefix by exact Hn. symmetry. exact Hb.
Qed.

(** C3: on a string the sanitizer removes the fenced code-block segments,
    cuts the rest at its first colon, collapses every run of whitespace to
    one space and trims; on anything else it gives the empty string; and
    "build failed: ```stack trace``` extra" becomes "build failed". *)
Theorem sanitizeLogEntry_spec :
  (forall entry, sanitizeLogEntry entry = SanitizeSpec.sanitized entry)
  /\ sanitizeLogEntry (VStr (str "build failed: ```stack trace``` extra"))
     = str "build failed".
Proof.
  split.
  - intros [ | | b | z | s | items | props]; try reflexivity.
    unfold sanitizeLogEntry, SanitizeSpec.sanitized. cbv zeta.
    rewrite RegexFacts.replace_fences, truncate_at_colon, RegexFacts.replace_spaces.
    reflexivity.
  - vm_compute. reflexivity.
Qed.

(* ===================================================================== *)
(** ** The derived action list *)
(* ===================================================================== *)

Lemma actions_fold : forall scores acc,
  fold_left
    (fun walk entry =>
       match walk with
       | None => None
       | Some actions =>
           let '(skill, score) := entry in
           match lessThan score (Num.ofZ 50) with
           | None => None
           | Some true =>
               option_map (fun text => actions ++ [text]) (actionText skill score)
           | Some false => Some actions
           end
       end)
    (List.map (fun e : jsstring * Num.number => (fst e, VNum (snd e))) scores)
    (Some acc)
  = Some (acc ++ List.map ActionsSpec.suggestion
                   (filter (fun e => Num.ltb (snd e) (Num.ofZ 50)) scores)).
Proof.
  induction scores as [|[skill x] scores IH]; intro acc;
    cbn [List.map fold_left filter fst snd].
  - now rewrite app_nil_r.
  - change (lessThan (VNum x) (Num.ofZ 50)) with (Some (Num.ltb x (Num.ofZ 50))).
    destruct (Num.ltb x (Num.ofZ 50)); [|apply IH].
    change (actionText skill (VNum x)) with (Some (ActionsSpec.suggestion (skill, x))).
    cbn [option_map]. rewrite IH, <- app_assoc. reflexivity.
Qed.

Lemma eqb_true (a b : jsstring) : Js.eqb a b = true -> a = b.
Proof.
  revert b. induction a as [|x a IH]; intros [|y b] H; try discriminate H.
  - reflexivity.
  - cbn [Js.eqb] in H. apply andb_true_iff in H. destruct H as [H1 H2].
    apply N.eqb_eq in H1. subst y. f_equal. apply IH, H2.
Qed.

Lemma percentages_in z : 0 <= z <= 100 -> In z ActionsSpec.percentages.
Proof.
  intro H. unfold ActionsSpec.percentages. rewrite in_map_iff. exists (Z.to_nat z).
  split; [lia | apply in_seq; lia].
Qed.

(** On a whole score from 0 to 100 the comparison of Numbers is that of
    the integers and the score prints as its decimal numeral. *)
Lemma percentage_score z :
  0 <= z <= 100 ->
  Num.ltb (Num.ofZ z) (Num.ofZ 50) = (z <? 50)
  /\ Num.toString (Num.ofZ z) = decimal z.
Proof.
  intro H. apply percentages_in in H.
  assert (A : forallb (fun z => Bool.eqb (Num.ltb (Num.ofZ z) (Num.ofZ 50)) (z <? 50)
                                && Js.eqb (Num.toString (Num.ofZ z)) (decimal z))
                      ActionsSpec.percentages = true) by (vm_compute; reflexivity).
  rewrite forallb_forall in A. specialize (A z H).
  apply andb_true_iff in A. destruct A as [A1 A2].
  split; [apply Bool.eqb_prop, A1 | apply eqb_true, A2].
Qed.

(** C4: for a skills mapping with numeric scores (any Numbers: whole or
    fractional, of any size) the derived action list holds the suggestion
    (skill and score, the score printed as a Number prints) of each skill
    scoring below 50, in iteration order, cut to 4 entries; a whole score
    from 0 to 100 counts as below 50 exactly when the integer is, and is
    named by its decimal numeral; without numeric insights, or without a
    skills mapping in them, the list is empty; whatever the insights hold,
    a list that is derived has at most 4 entries. *)
Theorem derivedCareerActions_spec :
  forall numericInsights,
    (forall scores,
        optGet (str "skills") numericInsights = ActionsSpec.numericMapping scores ->
        derivedCareerActions numericInsights = Some (ActionsSpec.suggestions scores))
    /\ (forall skill z,
           0 <= z <= 100 ->
           Num.ltb (Num.ofZ z) (Num.ofZ 50) = (z <? 50)
           /\ ActionsSpec.suggestion (skill, Num.ofZ z)
              = skill ++ str " skills are at " ++ decimal z
                  ++ str ". Focus on targeted projects or courses to lift this metric.")
    /\ (optGet (str "skills") numericInsights = VUndefined ->
        derivedCareerActions numericInsights = Some [])
    /\ derivedCareerActions VNull = Some []
    /\ (forall actions,
           derivedCareerActions numericInsights = Some actions ->
           (length actions <= 4)%nat).
Proof.
  intro ni. repeat split.
  - intros scores H. unfold derivedCareerActions. rewrite H.
    cbn [ActionsSpec.numericMapping truthy negb Object_entries].
    rewrite actions_fold. reflexivity.
  - apply percentage_score, H.
  - unfold ActionsSpec.suggestion. cbn [fst snd].
    rewrite (proj2 (percentage_score z H)). reflexivity.
  - intro H. unfold derivedCareerActions. rewrite H. reflexivity.
  - intro actions. unfold derivedCareerActions.
    destruct (negb (truthy (optGet (str "skills") ni))).
    + intro E. injection E as <-. simpl. lia.
    + destruct (fold_left _ _ _) as [walked|]; [|discriminate].
      cbn [option_map]. intro E.
      assert (A : actions = firstn 4 walked) by congruence.
      rewrite A. apply firstn_le_length.
Qed.

Lemma derivedCareerActions_spec_witness :
  derivedCareerActions
    (VObj [(str "skills",
            VObj [(str "Go", VNum (Num.ofZ 40)); (str "Rust", VNum (Num.ofZ 70));
                  (str "Python", VNum (Num.stringToNumber (str "49.5")));
                  (str "C", VNum (Num.ofZ (- 10 ^ 21))); (str "Java", VNum (Num.ofZ 5));
                  (str "Lua", VNum (Num.ofZ 49))])])
  = Some (ActionsSpec.suggestions
            [(str "Go", Num.ofZ 40); (str "Rust", Num.ofZ 70);
             (str "Python", Num.stringToNumber (str "49.5"));
             (str "C", Num.ofZ (- 10 ^ 21)); (str "Java", Num.ofZ 5);
             (str "Lua", Num.ofZ 49)])
  /\ Num.ltb (Num.ofZ 49) (Num.ofZ 50) = (49 <? 50)
  /\ derivedCareerActions (VObj [(str "overall", VNum (Num.ofZ 70))]) = Some []
  /\ (length [str "Go skills are at 40. Focus on targeted projects or courses to lift this metric."]
      <= 4)%nat.
Proof.
  split; [|split; [|split]].
  - apply (proj1 (derivedCareerActions_spec _)). reflexivity.
  - apply (proj1 (proj2 (derivedCareerActions_spec VNull)) [] 49). lia.
  - apply (proj1 (proj2 (proj2 (derivedCareerActions_spec _)))). reflexivity.
  - apply (proj2 (proj2 (proj2 (proj2
             (derivedCareerActions_spec
                (VObj [(str "skills", VObj [(str "Go", VNum (Num.ofZ 40))])])))))).
    vm_compute. reflexivity.
Defined.

(* ===================================================================== *)
(** ** The byte-size formatter *)
(* ===================================================================== *)

(** C9: the formatter maps 0 to "0 B" and 1536 to "1.5 KB". *)
Theorem formatBytes_spec :
  formatBytes 0 = str "0 B" /\ formatBytes 1536 = str "1.5 KB".
Proof. split; vm_compute; reflexivity. Qed.

(* ===================================================================== *)
(** ** The analysis run *)
(* ===================================================================== *)

(** C5: with a username that is empty once trimmed, the handler issues no
    request and sets the error to "Username cannot be empty". *)
Theorem empty_username_rejected env w :
  trim (St.username (state w)) = [] ->
  calls (run env w) = calls w
  /\ St.error (state (run env w)) = str "Username cannot be empty".
Proof.
  intro H. unfold run. rewrite handleAnalyze_blank by exact H. split; reflexivity.
Qed.

Lemma empty_username_rejected_witness :
  calls (run (backend (answers 5 200 (BodyJson VNull)) (answers 5 200 (BodyJson VNull)))
             (freshWorld (str "   ")))
  = []
  /\ St.error
       (state (run (backend (answers 5 200 (BodyJson VNull)) (answers 5 200 (BodyJson VNull)))
                   (freshWorld (str "   "))))
     = str "Username cannot be empty".
Proof.
  apply (empty_username_rejected
           (backend (answers 5 200 (BodyJson VNull)) (answers 5 200 (BodyJson VNull)))
           (freshWorld (str "   "))).
  reflexivity.
Defined.

(** The error shown after a profile response that is not ok is the message
    thrown by the block for it. *)
Lemma run_profileFailed env w status body m :
  trim (St.username (state w)) <> [] ->
  timerFires (profileExchange env w) PROFILE_TIMEOUT = false ->
  outcome (profileExchange env w) = Responds status body ->
  Response.ok (Response.mk status body false) = false ->
  (forall w1, profileFailed env (Response.mk status body false) w1
              = (Thrown (errorWith m), w1)) ->
  m <> [] ->
  St.error (state (run env w)) = m.
Proof.
  intros Hu Ht Ho Hok Hm Hne.
  rewrite (run_thrown env w (errorWith m)
             (called (profileCall env w) (requesting env w)) Hu).
  - cbn [settled failed state St.error]. apply surfaced_Error, Hne.
  - rewrite analysis_run. cbv zeta. rewrite Ht, Ho. cbv zeta. rewrite Hok. apply Hm.
Qed.

(** C1: when the profile request is answered with status 404 the error
    shown is "GitHub user not found. Please check the username.", with
    status 403 "GitHub API rate limit exceeded. Please try again later.",
    whatever the body of the response holds. *)
Theorem profile_status_messages env w body :
  trim (St.username (state w)) <> [] ->
  timerFires (profileExchange env w) PROFILE_TIMEOUT = false ->
  (outcome (profileExchange env w) = Responds 404 body ->
   St.error (state (run env w))
   = str "GitHub user not found. Please check the username.")
  /\ (outcome (profileExchange env w) = Responds 403 body ->
      St.error (state (run env w))
      = str "GitHub API rate limit exceeded. Please try again later.").
Proof.
  intros Hu Ht. split; intro Ho.
  - apply (run_profileFailed env w 404 body); try assumption; try reflexivity;
      [|discriminate].
    intro w1. destruct (profileFailed_run env 404 body w1) as (m & -> & H4 & _).
    rewrite (H4 eq_refl). reflexivity.
  - apply (run_profileFailed env w 403 body); try assumption; try reflexivity;
      [|discriminate].
    intro w1. destruct (profileFailed_run env 403 body w1) as (m & -> & _ & H3 & _).
    rewrite (H3 eq_refl). reflexivity.
Qed.

Lemma profile_status_messages_witness :
  St.error
    (state (run (backend (answers 40 404 (BodyJson (VObj [(str "error", VStr (str "Not Found"))])))
                         (answers 5 200 (BodyJson VNull)))
                (freshWorld (str "octocat"))))
  = str "GitHub user not found. Please check the username."
  /\ St.error
       (state (run (backend (answers 40 403 (BodyJson (VObj [(str "error", VStr (str "quota"))])))
                            (answers 5 200 (BodyJson VNull)))
                   (freshWorld (str "octocat"))))
     = str "GitHub API rate limit exceeded. Please try again later.".
Proof.
  split.
  - apply (proj1 (profile_status_messages
                    (backend (answers 40 404 (BodyJson (VObj [(str "error", VStr (str "Not Found"))])))
                             (answers 5 200 (BodyJson VNull)))
                    (freshWorld (str "octocat"))
                    (BodyJson (VObj [(str "error", VStr (str "Not Found"))]))
                    ltac:(vm_compute; discriminate) ltac:(reflexivity))).
    reflexivity.
  - apply (proj2 (profile_status_messages
                    (backend (answers 40 403 (BodyJson (VObj [(str "error", VStr (str "quota"))])))
                             (answers 5 200 (BodyJson VNull)))
                    (freshWorld (str "octocat"))
                    (BodyJson (VObj [(str "error", VStr (str "quota"))]))
                    ltac:(vm_compute; discriminate) ltac:(reflexivity))).
    reflexivity.
Defined.

(** C10: when the profile request is answered with a status that is not
    ok and neither 404 nor 403, and a JSON body without a truthy [error],
    the error shown is "Failed to fetch GitHub profile data". *)
Theorem profile_default_message env w status d :
  trim (St.username (state w)) <> [] ->
  timerFires (profileExchange env w) PROFILE_TIMEOUT = false ->
  outcome (profileExchange env w) = Responds status (BodyJson d) ->
  Response.ok (Response.mk status (BodyJson d) false) = false ->
  status <> 404 -> status <> 403 ->
  truthy (optGet (str "error") d) = false ->
  St.error (state (run env w)) = str "Failed to fetch GitHub profile data".
Proof.
  intros Hu Ht Ho Hok H4 H3 Hd.
  apply (run_profileFailed env w status (BodyJson d)); try assumption; [|discriminate].
  intro w1. destruct (profileFailed_run env status (BodyJson d) w1) as (m & -> & _ & _ & H).
  rewrite (H H4 H3 d eq_refl Hd). reflexivity.
Qed.

Lemma profile_default_message_witness :
  St.error
    (state (run (backend (answers 40 500 (BodyJson (VObj [(str "detail", VStr (str "oops"))])))
                         (answers 5 200 (BodyJson VNull)))
                (freshWorld (str "octocat"))))
  = str "Failed to fetch GitHub profile data".
Proof.
  apply (profile_default_message
           (backend (answers 40 500 (BodyJson (VObj [(str "detail", VStr (str "oops"))])))
                    (answers 5 200 (BodyJson VNull)))
           (freshWorld (str "octocat")) 500
           (VObj [(str "detail", VStr (str "oops"))])).
  - vm_compute. discriminate.
  - reflexivity.
  - reflexivity.
  - reflexivity.
  - discriminate.
  - discriminate.
  - reflexivity.
Defined.

Lemma timerFires_late (x : Exchange) (timeout : Z) :
  timeout < latency x -> timerFires x timeout = true.
Proof.
  intro H. unfold timerFires. apply Z.ltb_lt in H. rewrite H. reflexivity.
Qed.

(** C2: a request made through [fetchWithTimeout] whose timer falls due
    before the transport settles is aborted and the call throws the
    AbortError; the handler gives the profile request 120 seconds and the
    AI request 150 seconds, and in both cases the error shown after such a
    timeout is "Request timed out. Please try again.". *)
Theorem timeout_aborts env w :
  (forall url options timeout w0,
      timeout < latency (Env.fetch env url options) ->
      fetchWithTimeout env url options timeout w0
      = (Thrown AbortError, called (mkCall url options timeout true (state w0)) w0))
  /\ PROFILE_TIMEOUT = 120 * 1000 /\ AI_TIMEOUT = 150 * 1000
  /\ (trim (St.username (state w)) <> [] ->
      PROFILE_TIMEOUT < latency (profileExchange env w) ->
      St.error (state (run env w)) = str "Request timed out. Please try again."
      /\ exists c,
           calls (run env w) = calls w ++ [c]
           /\ url c = profileUrl (St.username (state w))
           /\ timeoutMs c = PROFILE_TIMEOUT /\ aborted c = true)
  /\ (forall status profileData,
      trim (St.username (state w)) <> [] ->
      timerFires (profileExchange env w) PROFILE_TIMEOUT = false ->
      outcome (profileExchange env w) = Responds status (BodyJson profileData) ->
      Response.ok (Response.mk status (BodyJson profileData) false) = true ->
      AI_TIMEOUT < latency (aiExchange env profileData) ->
      St.error (state (run env w)) = str "Request timed out. Please try again."
      /\ exists c,
           calls (run env w) = calls w ++ [profileCall env w; c]
           /\ url c = aiUrl /\ timeoutMs c = AI_TIMEOUT /\ aborted c = true).
Proof.
  split; [|split; [reflexivity|]; split; [reflexivity|]; split].
  - intros u o t w0 Hlate. apply timerFires_late in Hlate.
    unfold fetchWithTimeout. cbv zeta. rewrite Hlate. reflexivity.
  - intros Hu Hlate. apply timerFires_late in Hlate.
    rewrite (run_thrown env w AbortError
               (called (profileCall env w) (requesting env w)) Hu)
      by (rewrite analysis_run; cbv zeta; rewrite Hlate; reflexivity).
    split; [reflexivity|].
    exists (profileCall env w). repeat split. exact Hlate.
  - intros status v Hu Ht Ho Hok Hlate. apply timerFires_late in Hlate.
    set (w1 := called (profileCall env w) (requesting env w)).
    rewrite (run_thrown env w AbortError
               (called (aiCall env v (aiRequesting env v w1)) (aiRequesting env v w1)) Hu)
      by (rewrite analysis_run; cbv zeta; rewrite Ht, Ho; cbv zeta; rewrite Hok;
          apply aiStage_timeout, Hlate).
    split; [reflexivity|].
    exists (aiCall env v (aiRequesting env v w1)). repeat split.
    + cbn [settled failed logged called calls aiRequesting w1 requesting started].
      rewrite <- app_assoc. reflexivity.
    + exact Hlate.
Qed.

Lemma timeout_aborts_witness :
  fetchWithTimeout
    (backend (answers 120001 200 (BodyJson VNull)) (answers 5 200 (BodyJson VNull)))
    (profileUrl (str "octocat")) emptyInit PROFILE_TIMEOUT (freshWorld (str "octocat"))
  = (Thrown AbortError,
     called (mkCall (profileUrl (str "octocat")) emptyInit PROFILE_TIMEOUT true
                    (state (freshWorld (str "octocat"))))
            (freshWorld (str "octocat")))
  /\ St.error
       (state (run (backend (answers 120001 200 (BodyJson VNull))
                            (answers 5 200 (BodyJson VNull)))
                   (freshWorld (str "octocat"))))
     = str "Request timed out. Please try again."
  /\ St.error
       (state (run (backend (answers 900 200 (BodyJson (VObj [])))
                            (answers 150001 200 (BodyJson VNull)))
                   (freshWorld (str "octocat"))))
     = str "Request timed out. Please try again.".
Proof.
  split; [|split].
  - apply (proj1 (timeout_aborts
             (backend (answers 120001 200 (BodyJson VNull)) (answers 5 200 (BodyJson VNull)))
             (freshWorld (str "octocat")))).
    reflexivity.
  - apply (proj1 (proj2 (proj2 (proj2 (timeout_aborts
             (backend (answers 120001 200 (BodyJson VNull)) (answers 5 200 (BodyJson VNull)))
             (freshWorld (str "octocat"))))))).
    + vm_compute. discriminate.
    + reflexivity.
  - apply (proj2 (proj2 (proj2 (proj2 (timeout_aborts
             (backend (answers 900 200 (BodyJson (VObj [])))
                      (answers 150001 200 (BodyJson VNull)))
             (freshWorld (str "octocat")))))) 200 (VObj [])).
    + vm_compute. discriminate.
    + reflexivity.
    + reflexivity.
    + reflexivity.
    + reflexivity.
Defined.

(** C7: when the AI request is answered with a status that is not ok, the
    error shown is the [error] field of the body when that is a non-blank
    string, else "GitHub user not found." for status 404, else "AI
    analysis failed"; the messages of the profile request for 404 and 403
    are not used: a 403 without such a field shows "AI analysis failed". *)
Theorem ai_error_message env w status profileData status2 body2 :
  trim (St.username (state w)) <> [] ->
  timerFires (profileExchange env w) PROFILE_TIMEOUT = false ->
  outcome (profileExchange env w) = Responds status (BodyJson profileData) ->
  Response.ok (Response.mk status (BodyJson profileData) false) = true ->
  timerFires (aiExchange env profileData) AI_TIMEOUT = false ->
  outcome (aiExchange env profileData) = Responds status2 body2 ->
  Response.ok (Response.mk status2 body2 false) = false ->
  St.error (state (run env w)) = ErrorSpec.aiErrorMessage status2 body2
  /\ (status2 = 403 -> ErrorSpec.errorField body2 = None ->
      St.error (state (run env w)) = str "AI analysis failed").
Proof.
  intros Hu Ht Ho Hok Ht2 Ho2 Hok2.
  set (w1 := called (profileCall env w) (requesting env w)).
  assert (E : St.error (state (run env w)) = ErrorSpec.aiErrorMessage status2 body2).
  { rewrite (run_thrown env w
               (errorWith (getResponseError (Response.mk status2 body2 false)
                                                  (str "AI analysis failed")))
               (called (aiCall env profileData (aiRequesting env profileData w1))
                       (aiRequesting env profileData w1)) Hu)
      by (rewrite analysis_run; cbv zeta; rewrite Ht, Ho; cbv zeta; rewrite Hok;
          apply aiStage_failed; assumption).
    cbn [settled failed state St.error].
    rewrite getResponseError_fresh. fold (ErrorSpec.aiErrorMessage status2 body2).
    apply surfaced_Error. unfold ErrorSpec.aiErrorMessage.
    destruct (ErrorSpec.errorField body2) as [e|] eqn:F.
    - apply (errorField_nonEmpty body2), F.
    - destruct (status2 =? 404); discriminate. }
  split; [exact E|].
  intros -> F. rewrite E. unfold ErrorSpec.aiErrorMessage. rewrite F. reflexivity.
Qed.

Lemma ai_error_message_witness :
  St.error
    (state (run (backend (answers 900 200 (BodyJson (VObj [(str "profile", VNull)])))
                         (answers 30 403 (BodyJson (VObj [(str "detail", VStr (str "no"))]))))
                (freshWorld (str "octocat"))))
  = str "AI analysis failed".
Proof.
  apply (proj2 (ai_error_message
           (backend (answers 900 200 (BodyJson (VObj [(str "profile", VNull)])))
                    (answers 30 403 (BodyJson (VObj [(str "detail", VStr (str "no"))]))))
           (freshWorld (str "octocat")) 200 (VObj [(str "profile", VNull)])
           403 (BodyJson (VObj [(str "detail", VStr (str "no"))]))
           ltac:(vm_compute; discriminate) ltac:(reflexivity) ltac:(reflexivity)
           ltac:(reflexivity) ltac:(reflexivity) ltac:(reflexivity) ltac:(reflexivity)));
    reflexivity.
Defined.

Lemma errorIs_analysis e env username : preserves (errorIs e) (analysis env username).
Proof.
  unfold analysis.
  repeat (preserve_step
          || apply errorIs_appendLog || apply errorIs_fetch
          || apply errorIs_profileFailed || apply errorIs_aiStage).
Qed.

(** C6, as it holds: a run that passed validation and ends with an error
    has "Analysis failed" as the last entry of its log; the run that fails
    validation on an empty username leaves the log as it was. *)
Theorem failure_logged env w :
  (trim (St.username (state w)) <> [] ->
   St.error (state (run env w)) <> [] ->
   exists earlier e,
     St.logs (state (run env w)) = earlier ++ [e]
     /\ LogEntry.message e = str "Analysis failed")
  /\ (trim (St.username (state w)) = [] ->
      St.logs (state (run env w)) = St.logs (state w)).
Proof.
  split.
  - intros Hu He. rewrite run_nonblank in He |- * by exact Hu.
    pose proof (errorIs_analysis [] env (St.username (state w)) (started env w) eq_refl) as K.
    destruct (analysis env (St.username (state w)) (started env w)) as [[u|err] w1].
    + exfalso. apply He. exact K.
    + eexists. eexists. split; reflexivity.
  - intro Hu. unfold run. rewrite handleAnalyze_blank by exact Hu. reflexivity.
Qed.

Lemma failure_logged_witness :
  (exists earlier e,
      St.logs
        (state (run (backend (answers 40 500 (BodyBad (str "Unexpected token <")))
                             (answers 5 200 (BodyJson VNull)))
                    (freshWorld (str "octocat"))))
      = earlier ++ [e]
      /\ LogEntry.message e = str "Analysis failed")
  /\ St.logs
       (state (run (backend (answers 40 500 (BodyBad (str "Unexpected token <")))
                            (answers 5 200 (BodyJson VNull)))
                   (usedWorld (str " "))))
     = St.logs (state (usedWorld (str " "))).
Proof.
  split.
  - apply (proj1 (failure_logged
                    (backend (answers 40 500 (BodyBad (str "Unexpected token <")))
                             (answers 5 200 (BodyJson VNull)))
                    (freshWorld (str "octocat")))).
    + vm_compute. discriminate.
    + vm_compute. discriminate.
  - apply (proj2 (failure_logged
                    (backend (answers 40 500 (BodyBad (str "Unexpected token <")))
                             (answers 5 200 (BodyJson VNull)))
                    (usedWorld (str " ")))).
    reflexivity.
Defined.

(** C6, as stated, fails on the empty username: the run ends with the
    error "Username cannot be empty" and the log has no entry at all. *)
Lemma empty_username_not_logged :
  St.error
    (state (run (backend (answers 5 200 (BodyJson VNull)) (answers 5 200 (BodyJson VNull)))
                (freshWorld [])))
  = str "Username cannot be empty"
  /\ St.logs
       (state (run (backend (answers 5 200 (BodyJson VNull)) (answers 5 200 (BodyJson VNull)))
                   (freshWorld [])))
     = []
  /\ ~ (exists earlier e,
          St.logs
            (state (run (backend (answers 5 200 (BodyJson VNull))
                                 (answers 5 200 (BodyJson VNull)))
                        (freshWorld [])))
          = earlier ++ [e]
          /\ LogEntry.message e = str "Analysis failed").
Proof.
  repeat split.
  intros (earlier & e & H & _).
  change (@nil LogEntry.t = earlier ++ [e]) in H.
  destruct earlier; discriminate H.
Qed.

(** C8: in a run with a username that is not blank, the profile request
    is issued in a state whose profile data, AI insights and numeric
    insights are cleared and whose log, started afresh, has
    "Kickstarting GitHub profile analysis" as its first entry (the entry
    for the request itself is the only other one). *)
Theorem run_starts_clean env w :
  trim (St.username (state w)) <> [] ->
  exists c rest e1 e2,
    calls (run env w) = calls w ++ c :: rest
    /\ url c = profileUrl (St.username (state w))
    /\ St.githubData (issuedWith c) = VNull
    /\ St.aiInsights (issuedWith c) = VNull
    /\ St.numericInsights (issuedWith c) = VNull
    /\ St.logs (issuedWith c) = [e1; e2]
    /\ LogEntry.message e1 = str "Kickstarting GitHub profile analysis"
    /\ LogEntry.message e2 = str "Requesting repository intelligence from backend".
Proof.
  intro Hu. destruct (run_calls env w Hu) as [rest H].
  exists (profileCall env w), rest. eexists. eexists.
  split; [rewrite H, <- app_assoc; reflexivity|].
  repeat split.
Qed.

Lemma run_starts_clean_witness :
  exists c rest e1 e2,
    calls (run (backend (answers 40 200 (BodyJson (VObj []))) (answers 5 200 (BodyJson (VObj []))))
               (usedWorld (str "octocat")))
    = calls (usedWorld (str "octocat")) ++ c :: rest
    /\ url c = profileUrl (str "octocat")
    /\ St.githubData (issuedWith c) = VNull
    /\ St.aiInsights (issuedWith c) = VNull
    /\ St.numericInsights (issuedWith c) = VNull
    /\ St.logs (issuedWith c) = [e1; e2]
    /\ LogEntry.message e1 = str "Kickstarting GitHub profile analysis"
    /\ LogEntry.message e2 = str "Requesting repository intelligence from backend".
Proof.
  apply (run_starts_clean
           (backend (answers 40 200 (BodyJson (VObj []))) (answers 5 200 (BodyJson (VObj []))))
           (usedWorld (str "octocat"))).
  vm_compute. discriminate.
Defined.

(* ===================================================================== *)
(** ** The rest of the AI stage *)
(* ===================================================================== *)

Lemma forEach_appendLog env : forall messages w,
  Forall (fun m => m <> []) messages ->
  forEach messages (fun entry => appendLog env entry) w
  = (Normal tt, loggedAll env messages w).
Proof.
  induction messages as [|m messages IH]; intros w H; [reflexivity|].
  inversion H as [|? ? Hm Hrest]; subst.
  cbn [forEach]. unfold bind. rewrite appendLog_run by exact Hm.
  rewrite IH by exact Hrest. reflexivity.
Qed.

Lemma filter_nonEmpty (l : list jsstring) :
  Forall (fun m => m <> []) (filter nonEmpty l).
Proof.
  apply Forall_forall. intros m Hm. apply filter_In in Hm as [_ Hm].
  destruct m; [discriminate | discriminate].
Qed.

Lemma getMember_hasMembers env v key w :
  hasMembers v = true -> getMember env v key w = (Normal (optGet key v), w).
Proof. destruct v; intro H; try discriminate H; reflexivity. Qed.

Lemma getMember_null env v key w :
  hasMembers v = false ->
  getMember env v key w = (Thrown (TypeError (Env.nullReadMessage env key)), w).
Proof. destruct v; intro H; try discriminate H; reflexivity. Qed.

(** The AI stage up to the answer of the AI request. *)
Lemma aiStage_requested env status v w :
  aiStage env (Response.mk status (BodyJson v) false) w =
  let w1 := aiRequesting env v w in
  let w2 := called (aiCall env v w1) w1 in
  if timerFires (aiExchange env v) AI_TIMEOUT then (Thrown AbortError, w2)
  else
    match outcome (aiExchange env v) with
    | Fails msg => (Thrown (TypeError msg), w2)
    | Responds status2 body2 =>
        if Response.ok (Response.mk status2 body2 false) then
          match body2 with
          | BodyBad msg => (Thrown (SyntaxError msg), w2)
          | BodyJson aiResult =>
              if hasMembers aiResult then (Normal tt, completed env aiResult w2)
              else (Thrown (TypeError (Env.nullReadMessage env (str "text_analysis"))), w2)
          end
        else
          (Thrown (errorWith (getResponseError (Response.mk status2 body2 false)
                                                     (str "AI analysis failed"))), w2)
    end.
Proof.
  unfold aiStage, bind, lift, setGithubData, setState.
  cbn [fst Response.json Response.bodyUsed Response.body].
  rewrite !appendLog_run by discriminate.
  unfold fetchWithTimeout. fold (aiExchange env v). cbv zeta.
  fold (aiRequesting env v w).
  change (mkWorld (state (aiRequesting env v w)) _ _)
    with (called (aiCall env v (aiRequesting env v w)) (aiRequesting env v w)).
  destruct (timerFires _ _); [reflexivity|].
  destruct (outcome _) as [status2 body2|msg]; [|reflexivity].
  destruct (Response.ok _); cbn [negb]; [|reflexivity].
  cbn [Response.bodyUsed Response.body].
  destruct body2 as [aiResult|msg]; [|reflexivity].
  destruct (hasMembers aiResult) eqn:Hm.
  - rewrite !getMember_hasMembers by exact Hm.
    unfold setAiInsights, setNumericInsights, setState.
    rewrite !getMember_hasMembers by exact Hm.
    unfold completed, forwarded, orNull.
    destruct (optGet (str "logs") aiResult) as [ | | | | | items | ];
      try (unfold ret; rewrite appendLog_run by discriminate; reflexivity).
    destruct items as [|item items].
    + unfold ret. rewrite appendLog_run by discriminate. reflexivity.
    + rewrite forEach_appendLog by apply filter_nonEmpty.
      rewrite appendLog_run by discriminate. reflexivity.
  - rewrite getMember_null by exact Hm. reflexivity.
Qed.

Lemma aiStage_unparsed env status msg w :
  aiStage env (Response.mk status (BodyBad msg) false) w = (Thrown (SyntaxError msg), w).
Proof. reflexivity. Qed.

(** Every run that passes validation ends in one of the three ways. *)
Lemma run_ends env w :
  trim (St.username (state w)) <> [] -> RunEnd env w (run env w).
Proof.
  intro Hu. rewrite run_nonblank by exact Hu. rewrite analysis_run. cbv zeta.
  fold (profileAnswered env w).
  destruct (timerFires (profileExchange env w) PROFILE_TIMEOUT) eqn:Ht.
  { apply ProfileStageFailed. unfold profilePayload. rewrite Ht. reflexivity. }
  destruct (outcome (profileExchange env w)) as [status body|msg] eqn:Ho.
  2:{ apply ProfileStageFailed. unfold profilePayload. rewrite Ht, Ho. reflexivity. }
  cbv zeta.
  destruct (Response.ok (Response.mk status body false)) eqn:Hok.
  2:{ destruct (profileFailed_run env status body (profileAnswered env w)) as (m & -> & _).
      apply ProfileStageFailed. unfold profilePayload. rewrite Ht, Ho.
      destruct body; [rewrite Hok|]; reflexivity. }
  destruct body as [v|msg].
  2:{ rewrite aiStage_unparsed.
      apply ProfileStageFailed. unfold profilePayload. rewrite Ht, Ho. reflexivity. }
  assert (Hp : profilePayload env w = Some v).
  { unfold profilePayload. rewrite Ht, Ho, Hok. reflexivity. }
  rewrite aiStage_requested. cbv zeta. fold (aiAnswered env v w).
  destruct (timerFires (aiExchange env v) AI_TIMEOUT) eqn:Ht2.
  { apply (AiStageFailed env w v); [exact Hp|]. unfold aiResultOf. rewrite Ht2. reflexivity. }
  destruct (outcome (aiExchange env v)) as [status2 body2|msg] eqn:Ho2.
  2:{ apply (AiStageFailed env w v); [exact Hp|].
      unfold aiResultOf. rewrite Ht2, Ho2. reflexivity. }
  destruct (Response.ok (Response.mk status2 body2 false)) eqn:Hok2.
  2:{ apply (AiStageFailed env w v); [exact Hp|].
      unfold aiResultOf. rewrite Ht2, Ho2.
      destruct body2; [rewrite Hok2|]; reflexivity. }
  destruct body2 as [r|msg].
  2:{ apply (AiStageFailed env w v); [exact Hp|].
      unfold aiResultOf. rewrite Ht2, Ho2. reflexivity. }
  destruct (hasMembers r) eqn:Hm.
  - apply (WentThrough env w v r); [exact Hp|].
    unfold aiResultOf. rewrite Ht2, Ho2, Hok2, Hm. reflexivity.
  - apply (AiStageFailed env w v); [exact Hp|].
    unfold aiResultOf. rewrite Ht2, Ho2, Hok2, Hm. reflexivity.
Qed.

Lemma loggedAll_cells env : forall messages w,
  calls (loggedAll env messages w) = calls w
  /\ St.username (state (loggedAll env messages w)) = St.username (state w)
  /\ St.loading (state (loggedAll env messages w)) = St.loading (state w)
  /\ St.error (state (loggedAll env messages w)) = St.error (state w)
  /\ St.githubData (state (loggedAll env messages w)) = St.githubData (state w)
  /\ St.aiInsights (state (loggedAll env messages w)) = St.aiInsights (state w)
  /\ St.numericInsights (state (loggedAll env messages w)) = St.numericInsights (state w).
Proof.
  induction messages as [|m messages IH]; intro w; [repeat split|].
  cbn [loggedAll fold_left]. fold (loggedAll env messages (logged env m w)).
  destruct (IH (logged env m w)) as (-> & -> & -> & -> & -> & -> & ->).
  repeat split.
Qed.

Lemma loggedAll_logs env : forall messages w,
  exists entries,
    St.logs (state (loggedAll env messages w)) = St.logs (state w) ++ entries
    /\ List.map LogEntry.message entries = messages.
Proof.
  induction messages as [|m messages IH]; intro w.
  - exists []. split; [symmetry; apply app_nil_r | reflexivity].
  - cbn [loggedAll fold_left]. fold (loggedAll env messages (logged env m w)).
    destruct (IH (logged env m w)) as (entries & -> & Hm).
    exists (entryAt env w m :: entries). split.
    + cbn [logged state St.logs]. rewrite <- app_assoc. reflexivity.
    + cbn [List.map entryAt LogEntry.message]. rewrite Hm. reflexivity.
Qed.

Lemma surfaced_nonEmpty err : surfaced err <> [].
Proof.
  unfold surfaced. destruct (Js.eqb _ _); [discriminate|].
  destruct (JsError.message err); discriminate.
Qed.

(* ===================================================================== *)
(** ** Further properties of the analysis run *)
(* ===================================================================== *)



Lemma profilePayload_some env w status v :
  timerFires (profileExchange env w) PROFILE_TIMEOUT = false ->
  outcome (profileExchange env w) = Responds status (BodyJson v) ->
  Response.ok (Response.mk status (BodyJson v) false) = true ->
  profilePayload env w = Some v.
Proof. intros Ht Ho Hok. unfold profilePayload. rewrite Ht, Ho, Hok. reflexivity. Qed.

Lemma profilePayload_inv env w v :
  profilePayload env w = Some v ->
  timerFires (profileExchange env w) PROFILE_TIMEOUT = false
  /\ exists status,
       outcome (profileExchange env w) = Responds status (BodyJson v)
       /\ Response.ok (Response.mk status (BodyJson v) false) = true.
Proof.
  unfold profilePayload.
  destruct (timerFires _ _); [discriminate|].
  destruct (outcome _) as [status [v'|msg]|msg]; try discriminate.
  destruct (Response.ok _) eqn:Hok; [|discriminate].
  intros [= <-]. split; [reflexivity|]. exists status. split; [reflexivity | exact Hok].
Qed.

Lemma aiResultOf_some env v status r :
  timerFires (aiExchange env v) AI_TIMEOUT = false ->
  outcome (aiExchange env v) = Responds status (BodyJson r) ->
  Response.ok (Response.mk status (BodyJson r) false) = true ->
  hasMembers r = true ->
  aiResultOf env v = Some r.
Proof.
  intros Ht Ho Hok Hm. unfold aiResultOf. rewrite Ht, Ho, Hok, Hm. reflexivity.
Qed.

Lemma calls_completed env r w : calls (completed env r w) = calls w.
Proof.
  cbn [completed logged calls]. rewrite (proj1 (loggedAll_cells env _ _)). reflexivity.
Qed.

Lemma calls_aiAnswered env v w :
  calls (aiAnswered env v w)
  = calls w ++ [profileCall env w; aiCall env v (aiRequesting env v (profileAnswered env w))].
Proof.
  unfold aiAnswered. cbv zeta. fold (profileAnswered env w).
  change (calls (called ?c ?x)) with (calls x ++ [c]).
  change (calls (aiRequesting env v (profileAnswered env w)))
    with (calls w ++ [profileCall env w]).
  rewrite <- app_assoc. reflexivity.
Qed.

(** X2: a run makes one request or two, in this order: the profile
    request, then - only when that one was answered in time by an ok
    response whose body parses - the AI request, a POST that carries the
    parsed body as [profileData]. *)
Theorem run_requests env w :
  trim (St.username (state w)) <> [] ->
  exists rest,
    calls (run env w) = calls w ++ profileCall env w :: rest
    /\ (length rest <= 1)%nat
    /\ (forall c, In c rest ->
          url c = aiUrl /\ timeoutMs c = AI_TIMEOUT
          /\ init c = aiInit (St.githubData (issuedWith c))
          /\ timerFires (profileExchange env w) PROFILE_TIMEOUT = false
          /\ exists status,
               outcome (profileExchange env w)
               = Responds status (BodyJson (St.githubData (issuedWith c)))
               /\ Response.ok (Response.mk status
                                 (BodyJson (St.githubData (issuedWith c))) false) = true)
    /\ (forall status v,
          timerFires (profileExchange env w) PROFILE_TIMEOUT = false ->
          outcome (profileExchange env w) = Responds status (BodyJson v) ->
          Response.ok (Response.mk status (BodyJson v) false) = true ->
          length rest = 1%nat).
Proof.
  intro Hu.
  assert (Hai : forall v, profilePayload env w = Some v ->
            exists rest,
              calls w ++ [profileCall env w]
                ++ [aiCall env v (aiRequesting env v (profileAnswered env w))]
              = calls w ++ profileCall env w :: rest
              /\ (length rest <= 1)%nat
              /\ (forall c, In c rest ->
                    url c = aiUrl /\ timeoutMs c = AI_TIMEOUT
                    /\ init c = aiInit (St.githubData (issuedWith c))
                    /\ timerFires (profileExchange env w) PROFILE_TIMEOUT = false
                    /\ exists status,
                         outcome (profileExchange env w)
                         = Responds status (BodyJson (St.githubData (issuedWith c)))
                         /\ Response.ok (Response.mk status
                                           (BodyJson (St.githubData (issuedWith c))) false)
                            = true)
              /\ (forall status v,
                    timerFires (profileExchange env w) PROFILE_TIMEOUT = false ->
                    outcome (profileExchange env w) = Responds status (BodyJson v) ->
                    Response.ok (Response.mk status (BodyJson v) false) = true ->
                    length rest = 1%nat)).
  { intros v Hp. eexists. split; [reflexivity|]. split; [simpl; lia|]. split.
    - intros c [<- | []]. destruct (profilePayload_inv env w v Hp) as (Ht & status & Ho & Hok).
      repeat split; try assumption. exists status. split; assumption.
    - reflexivity. }
  destruct (run_ends env w Hu) as [err Hp | v err Hp Ha | v r Hp Ha].
  - exists []. split; [reflexivity|]. split; [simpl; lia|]. split; [intros c []|].
    intros status v Ht Ho Hok.
    rewrite (profilePayload_some env w status v Ht Ho Hok) in Hp. discriminate.
  - destruct (Hai v Hp) as (rest & E & H). exists rest. split; [|exact H].
    rewrite <- E.
    change (calls (settled (failed env err (aiAnswered env v w))))
      with (calls (aiAnswered env v w)).
    apply calls_aiAnswered.
  - destruct (Hai v Hp) as (rest & E & H). exists rest. split; [|exact H].
    rewrite <- E. cbn [settled calls]. rewrite calls_completed.
    apply calls_aiAnswered.
Qed.

Lemma run_requests_witness :
  exists rest,
    calls (run (backend (answers 40 200 (BodyJson (VObj [(str "profile", VNull)])))
                        (answers 5 500 (BodyBad (str "<html>"))))
               (freshWorld (str "octocat")))
    = calls (freshWorld (str "octocat"))
      ++ profileCall (backend (answers 40 200 (BodyJson (VObj [(str "profile", VNull)])))
                              (answers 5 500 (BodyBad (str "<html>"))))
                     (freshWorld (str "octocat")) :: rest
    /\ length rest = 1%nat.
Proof.
  destruct (run_requests
              (backend (answers 40 200 (BodyJson (VObj [(str "profile", VNull)])))
                       (answers 5 500 (BodyBad (str "<html>"))))
              (freshWorld (str "octocat"))
              ltac:(vm_compute; discriminate)) as (rest & E & _ & _ & H).
  exists rest. split; [exact E|].
  apply (H 200 (VObj [(str "profile", VNull)])); reflexivity.
Defined.

Lemma error_completed env r w :
  St.error (state (completed env r w)) = St.error (state w).
Proof.
  cbn [completed logged state St.error].
  destruct (loggedAll_cells env (forwarded r)
              (mkWorld
                 (St.mk (St.username (state w)) (St.loading (state w)) (St.error (state w))
                        (St.logs (state w)) (St.githubData (state w))
                        (orNull (optGet (str "text_analysis") r))
                        (orNull (optGet (str "numeric_analysis") r)))
                 (calls w) (clockReads w))) as (_ & _ & _ & -> & _).
  reflexivity.
Qed.

(** X3: the log of a run that passed validation ends with its verdict:
    "AI pipeline completed successfully" when the run leaves no error,
    "Analysis failed" when it leaves one. *)
Theorem run_verdict env w :
  trim (St.username (state w)) <> [] ->
  exists earlier e,
    St.logs (state (run env w)) = earlier ++ [e]
    /\ ((St.error (state (run env w)) = []
         /\ LogEntry.message e = str "AI pipeline completed successfully")
        \/ (St.error (state (run env w)) <> []
            /\ LogEntry.message e = str "Analysis failed")).
Proof.
  intro Hu.
  destruct (run_ends env w Hu) as [err Hp | v err Hp Ha | v r Hp Ha].
  - eexists. eexists. split; [reflexivity|]. right.
    split; [apply surfaced_nonEmpty | reflexivity].
  - eexists. eexists. split; [reflexivity|]. right.
    split; [apply surfaced_nonEmpty | reflexivity].
  - eexists. eexists. split; [reflexivity|]. left. split; [|reflexivity].
    change (St.error (state (settled (completed env r (aiAnswered env v w)))))
      with (St.error (state (completed env r (aiAnswered env v w)))).
    rewrite error_completed. reflexivity.
Qed.

Lemma run_verdict_witness :
  exists earlier e,
    St.logs
      (state (run (backend (answers 40 200 (BodyJson (VObj [])))
                           (answers 5 200 (BodyJson (VObj []))))
                  (usedWorld (str "octocat"))))
    = earlier ++ [e]
    /\ ((St.error
           (state (run (backend (answers 40 200 (BodyJson (VObj [])))
                                (answers 5 200 (BodyJson (VObj []))))
                       (usedWorld (str "octocat"))))
         = []
         /\ LogEntry.message e = str "AI pipeline completed successfully")
        \/ (St.error
              (state (run (backend (answers 40 200 (BodyJson (VObj [])))
                                   (answers 5 200 (BodyJson (VObj []))))
                          (usedWorld (str "octocat"))))
            <> []
            /\ LogEntry.message e = str "Analysis failed")).
Proof.
  refine (run_verdict
            (backend (answers 40 200 (BodyJson (VObj [])))
                     (answers 5 200 (BodyJson (VObj []))))
            (usedWorld (str "octocat")) _).
  vm_compute. discriminate.
Defined.

(** X4: a run that ends with an error shows no AI results: AI insights
    and numeric insights are [null], and the profile data is either
    [null] or the body of an ok profile response that arrived in time. *)
Theorem failure_hides_insights env w :
  trim (St.username (state w)) <> [] ->
  St.error (state (run env w)) <> [] ->
  St.aiInsights (state (run env w)) = VNull
  /\ St.numericInsights (state (run env w)) = VNull
  /\ (St.githubData (state (run env w)) = VNull
      \/ (timerFires (profileExchange env w) PROFILE_TIMEOUT = false
          /\ exists status,
               outcome (profileExchange env w)
               = Responds status (BodyJson (St.githubData (state (run env w))))
               /\ Response.ok
                    (Response.mk status
                       (BodyJson (St.githubData (state (run env w)))) false) = true)).
Proof.
  intros Hu He.
  destruct (run_ends env w Hu) as [err Hp | v err Hp Ha | v r Hp Ha].
  - repeat split. left. reflexivity.
  - repeat split. right. apply (profilePayload_inv env w v Hp).
  - exfalso. apply He.
    change (St.error (state (settled (completed env r (aiAnswered env v w)))))
      with (St.error (state (completed env r (aiAnswered env v w)))).
    rewrite error_completed. reflexivity.
Qed.

Lemma failure_hides_insights_witness :
  St.aiInsights
    (state (run (backend (answers 40 200 (BodyJson (VObj [(str "profile", VNull)])))
                         (answers 5 500 (BodyJson (VObj [(str "text_analysis", VNum (Num.ofZ 1))]))))
                (usedWorld (str "octocat"))))
  = VNull.
Proof.
  refine (proj1 (failure_hides_insights
                   (backend (answers 40 200 (BodyJson (VObj [(str "profile", VNull)])))
                            (answers 5 500 (BodyJson (VObj [(str "text_analysis", VNum (Num.ofZ 1))]))))
                   (usedWorld (str "octocat")) _ _)).
  - vm_compute. discriminate.
  - vm_compute. discriminate.
Defined.

(** X5: when both requests are answered in time by ok responses whose
    bodies parse (the AI body to something other than [null]), the run
    ends without an error, with the profile body as profile data,
    [text_analysis || null] and [numeric_analysis || null] as insights,
    and a log that reads: the four fixed progress lines, the sanitized
    non-empty entries of the [logs] array in array order, and the closing
    line. *)
Theorem run_completes env w status profileData status2 aiResult :
  trim (St.username (state w)) <> [] ->
  timerFires (profileExchange env w) PROFILE_TIMEOUT = false ->
  outcome (profileExchange env w) = Responds status (BodyJson profileData) ->
  Response.ok (Response.mk status (BodyJson profileData) false) = true ->
  timerFires (aiExchange env profileData) AI_TIMEOUT = false ->
  outcome (aiExchange env profileData) = Responds status2 (BodyJson aiResult) ->
  Response.ok (Response.mk status2 (BodyJson aiResult) false) = true ->
  hasMembers aiResult = true ->
  St.error (state (run env w)) = []
  /\ St.githubData (state (run env w)) = profileData
  /\ St.aiInsights (state (run env w)) = orNull (optGet (str "text_analysis") aiResult)
  /\ St.numericInsights (state (run env w))
     = orNull (optGet (str "numeric_analysis") aiResult)
  /\ List.map LogEntry.message (St.logs (state (run env w)))
     = [str "Kickstarting GitHub profile analysis";
        str "Requesting repository intelligence from backend";
        str "Repository summary received";
        str "Sending profile summary to AI pipeline"]
       ++ forwarded aiResult
       ++ [str "AI pipeline completed successfully"].
Proof.
  intros Hu Ht Ho Hok Ht2 Ho2 Hok2 Hm.
  pose proof (profilePayload_some env w status profileData Ht Ho Hok) as Hp.
  pose proof (aiResultOf_some env profileData status2 aiResult Ht2 Ho2 Hok2 Hm) as Ha.
  destruct (run_ends env w Hu) as [err Hp' | v err Hp' Ha' | v r Hp' Ha'].
  - rewrite Hp in Hp'. discriminate.
  - rewrite Hp in Hp'. injection Hp' as <-. rewrite Ha in Ha'. discriminate.
  - rewrite Hp in Hp'. injection Hp' as <-. rewrite Ha in Ha'. injection Ha' as <-.
    set (w0 := mkWorld
                 (St.mk (St.username (state (aiAnswered env profileData w)))
                        (St.loading (state (aiAnswered env profileData w)))
                        (St.error (state (aiAnswered env profileData w)))
                        (St.logs (state (aiAnswered env profileData w)))
                        (St.githubData (state (aiAnswered env profileData w)))
                        (orNull (optGet (str "text_analysis") aiResult))
                        (orNull (optGet (str "numeric_analysis") aiResult)))
                 (calls (aiAnswered env profileData w))
                 (clockReads (aiAnswered env profileData w))).
    destruct (loggedAll_cells env (forwarded aiResult) w0) as (_ & _ & _ & E1 & E2 & E3 & E4).
    destruct (loggedAll_logs env (forwarded aiResult) w0) as (entries & E5 & E6).
    change (state (settled (completed env aiResult (aiAnswered env profileData w))))
      with (St.mk (St.username (state (loggedAll env (forwarded aiResult) w0))) false
                  (St.error (state (loggedAll env (forwarded aiResult) w0)))
                  (St.logs (state (loggedAll env (forwarded aiResult) w0))
                     ++ [entryAt env (loggedAll env (forwarded aiResult) w0)
                                 (str "AI pipeline completed successfully")])
                  (St.githubData (state (loggedAll env (forwarded aiResult) w0)))
                  (St.aiInsights (state (loggedAll env (forwarded aiResult) w0)))
                  (St.numericInsights (state (loggedAll env (forwarded aiResult) w0)))).
    cbn [St.error St.githubData St.aiInsights St.numericInsights St.logs].
    rewrite E1, E2, E3, E4, E5. repeat split.
    rewrite !map_app, E6. reflexivity.
Qed.

Lemma run_completes_witness :
  St.error
    (state (run (backend (answers 40 200 (BodyJson (VObj [(str "profile", VNull)])))
                         (answers 5 200
                            (BodyJson (VObj [(str "logs", VArr [VStr (str "a: b")])]))))
                (usedWorld (str "octocat"))))
  = [].
Proof.
  refine (proj1 (run_completes
                   (backend (answers 40 200 (BodyJson (VObj [(str "profile", VNull)])))
                            (answers 5 200
                               (BodyJson (VObj [(str "logs", VArr [VStr (str "a: b")])]))))
                   (usedWorld (str "octocat"))
                   200 (VObj [(str "profile", VNull)])
                   200 (VObj [(str "logs", VArr [VStr (str "a: b")])])
                   _ _ _ _ _ _ _ _)).
  - vm_compute. discriminate.
  - reflexivity.
  - reflexivity.
  - reflexivity.
  - reflexivity.
  - reflexivity.
  - reflexivity.
  - reflexivity.
Defined.

(* ===================================================================== *)
(** ** Decimal numerals *)
(* ===================================================================== *)

Lemma str_inj (s t : string) : str s = str t -> s = t.
Proof.
  revert t. induction s as [|a s IH]; intros [|b t] H; try discriminate H.
  - reflexivity.
  - cbn in H. injection H as Ha Hs.
    f_equal.
    + rewrite <- (ascii_N_embedding a), <- (ascii_N_embedding b), Ha. reflexivity.
    + apply IH. exact Hs.
Qed.

Lemma uint_digits (d : Decimal.uint) :
  Forall (fun c => isDigit c = true) (str (NilEmpty.string_of_uint d)).
Proof.
  induction d; cbn; constructor; try reflexivity; exact IHd.
Qed.

Lemma to_int_of_nat (k : nat) :
  exists u, Z.to_int (Z.of_nat k) = Decimal.Pos u /\ u <> Decimal.Nil.
Proof.
  destruct (Z.of_nat k) as [|p|p] eqn:E.
  - exists Decimal.zero. split; [reflexivity | discriminate].
  - exists (Pos.to_uint p). split; [reflexivity | apply DecimalPos.Unsigned.to_uint_nonnil].
  - lia.
Qed.

(** The numeral of a natural number consists of digits. *)
Lemma decimal_digits (k : nat) :
  Forall (fun c => isDigit c = true) (decimal (Z.of_nat k)).
Proof.
  unfold decimal. destruct (to_int_of_nat k) as (u & -> & Hu).
  cbn [NilZero.string_of_int]. destruct u; try congruence; apply uint_digits.
Qed.

(** Different natural numbers have different numerals. *)
Lemma decimal_inj (j k : nat) :
  decimal (Z.of_nat j) = decimal (Z.of_nat k) -> j = k.
Proof.
  unfold decimal. intro H. apply str_inj in H.
  destruct (to_int_of_nat j) as (u & Eu & Hu).
  destruct (to_int_of_nat k) as (v & Ev & Hv).
  assert (I : NilZero.int_of_string (NilZero.string_of_int (Z.to_int (Z.of_nat j)))
              = NilZero.int_of_string (NilZero.string_of_int (Z.to_int (Z.of_nat k))))
    by (rewrite H; reflexivity).
  rewrite Eu, Ev in I.
  rewrite !NilZero.isi in I by (intros [= ->]; congruence) || discriminate.
  rewrite <- Eu, <- Ev in I. injection I as I.
  apply DecimalZ.to_int_inj in I. lia.
Qed.

Lemma split_first (x : N) : forall p p' q q',
  ~ In x p -> ~ In x p' -> p ++ x :: q = p' ++ x :: q' -> p = p'.
Proof.
  induction p as [|a p IH]; intros [|b p'] q q' Hp Hp' E.
  - reflexivity.
  - injection E as -> _. exfalso. apply Hp'. left. reflexivity.
  - injection E as -> _. exfalso. apply Hp. left. reflexivity.
  - injection E as -> E. f_equal. apply (IH p' q q').
    + intro H. apply Hp. right. exact H.
    + intro H. apply Hp'. right. exact H.
    + exact E.
Qed.

Lemma split_last (x : N) (a a' b b' : jsstring) :
  ~ In x b -> ~ In x b' -> a ++ x :: b = a' ++ x :: b' -> b = b'.
Proof.
  intros Hb Hb' E.
  apply (f_equal (@rev N)) in E.
  rewrite !rev_app_distr in E. cbn [rev] in E. rewrite <- !app_assoc in E.
  cbn [app] in E.
  apply split_first in E.
  - rewrite <- (rev_involutive b), <- (rev_involutive b'), E. reflexivity.
  - intro H. apply Hb. apply in_rev. exact H.
  - intro H. apply Hb'. apply in_rev. exact H.
Qed.

Lemma dash_not_digit (k : nat) : ~ In 45%N (decimal (Z.of_nat k)).
Proof.
  intro H. pose proof (decimal_digits k) as D.
  rewrite Forall_forall in D. specialize (D _ H). discriminate D.
Qed.

(* ===================================================================== *)
(** ** The log as a list *)
(* ===================================================================== *)

Lemma positional_nil : positional [].
Proof. intros [|k] e H; discriminate H. Qed.

Lemma positional_logged env m w :
  positional (St.logs (state w)) -> positional (St.logs (state (logged env m w))).
Proof.
  intros P k e H. cbn [logged state St.logs] in H.
  destruct (Nat.lt_ge_cases k (length (St.logs (state w)))) as [Hk | Hk].
  - rewrite nth_error_app1 in H by exact Hk. apply P, H.
  - rewrite nth_error_app2 in H by exact Hk.
    destruct (k - length (St.logs (state w)))%nat as [|n] eqn:E.
    + injection H as <-. cbn [entryAt LogEntry.id LogEntry.time].
      replace k with (length (St.logs (state w))) by lia. reflexivity.
    + destruct n; discriminate H.
Qed.

Lemma positional_loggedAll env : forall ms w,
  positional (St.logs (state w)) -> positional (St.logs (state (loggedAll env ms w))).
Proof.
  induction ms as [|m ms IH]; intros w P; [exact P|].
  cbn [loggedAll fold_left]. fold (loggedAll env ms (logged env m w)).
  apply IH, positional_logged, P.
Qed.

(** Positions give distinct ids, whatever the timestamps are. *)
Lemma positional_NoDup logs :
  positional logs -> NoDup (List.map LogEntry.id logs).
Proof.
  intro P. apply NoDup_nth_error. intros i j Hi E.
  rewrite length_map in Hi. rewrite !nth_error_map in E.
  destruct (nth_error logs i) as [e1|] eqn:E1;
    [|apply nth_error_None in E1; lia].
  destruct (nth_error logs j) as [e2|] eqn:E2; [|discriminate E].
  injection E as E.
  rewrite (P i e1 E1), (P j e2 E2) in E.
  apply split_last in E; [apply decimal_inj, E | apply dash_not_digit..].
Qed.

Lemma positional_run env w :
  trim (St.username (state w)) <> [] -> positional (St.logs (state (run env w))).
Proof.
  intro Hu.
  assert (P0 : positional (St.logs (state (requesting env w)))).
  { apply positional_logged, positional_logged. apply positional_nil. }
  assert (P1 : forall v, positional (St.logs (state (aiAnswered env v w)))).
  { intro v. unfold aiAnswered. cbv zeta.
    change (St.logs (state (called ?c ?x))) with (St.logs (state x)).
    unfold aiRequesting. apply positional_logged, positional_logged. exact P0. }
  destruct (run_ends env w Hu) as [err Hp | v err Hp Ha | v r Hp Ha].
  - change (St.logs (state (settled (failed env err (profileAnswered env w)))))
      with (St.logs (state (logged env (str "Analysis failed") (profileAnswered env w)))).
    apply positional_logged. exact P0.
  - change (St.logs (state (settled (failed env err (aiAnswered env v w)))))
      with (St.logs (state (logged env (str "Analysis failed") (aiAnswered env v w)))).
    apply positional_logged, P1.
  - change (St.logs (state (settled (completed env r (aiAnswered env v w)))))
      with (St.logs (state (completed env r (aiAnswered env v w)))).
    unfold completed. apply positional_logged, positional_loggedAll. apply P1.
Qed.

(** X6: in the log of a run that passed validation, the id of each entry
    is its timestamp, a dash and its position, and no two entries share an
    id - also when the clock shows the same time for all of them. *)
Theorem log_ids_distinct env w :
  trim (St.username (state w)) <> [] ->
  positional (St.logs (state (run env w)))
  /\ NoDup (List.map LogEntry.id (St.logs (state (run env w)))).
Proof.
  intro Hu. pose proof (positional_run env w Hu) as P.
  split; [exact P | apply positional_NoDup, P].
Qed.

Lemma log_ids_distinct_witness :
  NoDup
    (List.map LogEntry.id
       (St.logs
          (state (run (Env.mk (fun _ _ => answers 5 200 (BodyJson (VObj [])))
                              (fun _ => str "10:15:00") (fun _ => []) [])
                      (usedWorld (str "octocat")))))).
Proof.
  refine (proj2 (log_ids_distinct
                   (Env.mk (fun _ _ => answers 5 200 (BodyJson (VObj [])))
                           (fun _ => str "10:15:00") (fun _ => []) [])
                   (usedWorld (str "octocat")) _)).
  vm_compute. discriminate.
Defined.

(* ===================================================================== *)
(** ** Further properties of the log sanitizer *)
(* ===================================================================== *)

Module SanitizeFacts.
Import SanitizeSpec.

Lemma sanitize_string s :
  sanitizeLogEntry (VStr s) = trim (collapseWhitespace (beforeColon (removeFenced s))).
Proof.
  unfold sanitizeLogEntry. cbv zeta.
  rewrite RegexFacts.replace_fences, truncate_at_colon, RegexFacts.replace_spaces.
  reflexivity.
Qed.

(** *** Trimming *)

Lemma dropWhile_suffix p s : exists pre, s = pre ++ dropWhile p s.
Proof.
  induction s as [|c s [pre IH]]; [exists []; reflexivity|].
  cbn [dropWhile]. destruct (p c).
  - exists (c :: pre). cbn [app]. f_equal. exact IH.
  - exists []. reflexivity.
Qed.

Lemma dropWhile_head p s c r : dropWhile p s = c :: r -> p c = false.
Proof.
  induction s as [|x s IH]; [discriminate|].
  cbn [dropWhile]. destruct (p x) eqn:E; [exact IH|].
  intros [= <- _]. exact E.
Qed.

Lemma trimEnd_prefix s : exists post, s = trimEnd s ++ post.
Proof.
  unfold trimEnd. destruct (dropWhile_suffix is_ws (rev s)) as [pre H].
  exists (rev pre). rewrite <- rev_app_distr, <- H, rev_involutive. reflexivity.
Qed.

(** The trimmed string is a segment of the string. *)
Lemma trim_segment s : exists pre post, s = pre ++ trim s ++ post.
Proof.
  unfold trim, trimStart.
  destruct (dropWhile_suffix is_ws s) as [pre H].
  destruct (trimEnd_prefix (dropWhile is_ws s)) as [post H'].
  exists pre, post. rewrite <- H'. exact H.
Qed.

Lemma trim_head s c r : trim s = c :: r -> is_ws c = false.
Proof.
  unfold trim, trimStart. intro H.
  destruct (trimEnd_prefix (dropWhile is_ws s)) as [post H'].
  rewrite H in H'. apply (dropWhile_head is_ws s c (r ++ post)). exact H'.
Qed.

Lemma trim_last s r c : trim s = r ++ [c] -> is_ws c = false.
Proof.
  unfold trim, trimEnd. intro H.
  apply (f_equal (@rev N)) in H. rewrite rev_involutive, rev_app_distr in H.
  cbn in H. apply (dropWhile_head _ _ _ _ H).
Qed.

Lemma Forall_trim (P : N -> Prop) s : Forall P s -> Forall P (trim s).
Proof.
  intro H. destruct (trim_segment s) as (pre & post & E). rewrite E in H.
  apply Forall_app in H as [_ H]. apply Forall_app in H as [H _]. exact H.
Qed.

(** A string without whitespace at either end is its own trimming. *)
Lemma trim_fixed s :
  (forall c r, s = c :: r -> is_ws c = false) ->
  (forall r c, s = r ++ [c] -> is_ws c = false) ->
  trim s = s.
Proof.
  intros Hh Hl. unfold trim, trimStart.
  assert (E : dropWhile is_ws s = s).
  { destruct s as [|c r]; [reflexivity|]. cbn [dropWhile].
    rewrite (Hh c r eq_refl). reflexivity. }
  rewrite E. unfold trimEnd.
  destruct (rev s) as [|c r] eqn:R.
  - rewrite <- (rev_involutive s), R. reflexivity.
  - cbn [dropWhile].
    assert (Hc : is_ws c = false).
    { apply (Hl (rev r) c). rewrite <- (rev_involutive s), R. reflexivity. }
    rewrite Hc, <- R. apply rev_involutive.
Qed.

(** *** Collapsing *)

Lemma Forall_collapseRuns (P : N -> Prop) : forall s b,
  P 32%N -> Forall P s -> Forall P (collapseRuns b s).
Proof.
  induction s as [|c s IH]; intros b H32 H; [constructor|].
  inversion H as [|? ? Hc Hs]; subst. cbn [collapseRuns].
  destruct (is_ws c); [destruct b|]; try constructor; auto.
Qed.

Lemma collapseRuns_spaces : forall s b,
  Forall (fun c => is_ws c = true -> c = 32%N) (collapseRuns b s).
Proof.
  induction s as [|c s IH]; intro b; [constructor|].
  cbn [collapseRuns]. destruct (is_ws c) eqn:E; [destruct b|].
  - apply IH.
  - constructor; [reflexivity | apply IH].
  - constructor; [congruence | apply IH].
Qed.

Lemma collapseRuns_inRun_head : forall s d r,
  collapseRuns true s = d :: r -> is_ws d = false.
Proof.
  induction s as [|c s IH]; intros d r; [discriminate|].
  cbn [collapseRuns]. destruct (is_ws c) eqn:E; [apply IH|].
  intros [= <- _]. exact E.
Qed.

(** No two whitespace code units are neighbours in a collapsed string. *)
Lemma collapseRuns_single : forall s b a c d r,
  collapseRuns b s = a ++ c :: d :: r -> is_ws c = true -> is_ws d = true -> False.
Proof.
  induction s as [|x s IH]; intros b a c d r H Hc Hd.
  - destruct a; discriminate H.
  - cbn [collapseRuns] in H. destruct (is_ws x) eqn:E; [destruct b|].
    + apply (IH true a c d r H Hc Hd).
    + destruct a as [|y a].
      * injection H as _ H.
        rewrite (collapseRuns_inRun_head s d r H) in Hd. discriminate.
      * injection H as _ H. apply (IH true a c d r H Hc Hd).
    + destruct a as [|y a].
      * injection H as <- _. congruence.
      * injection H as _ H. apply (IH false a c d r H Hc Hd).
Qed.

(** A string whose whitespace is single spaces is its own collapsing. *)
Lemma collapseRuns_fixed : forall s,
  Forall (fun c => is_ws c = true -> c = 32%N) s ->
  (forall a c d r, s = a ++ c :: d :: r -> is_ws c = true -> is_ws d = true -> False) ->
  (forall c r, s = c :: r -> is_ws c = false) ->
  collapseRuns false s = s.
Proof.
  assert (G : forall s b,
             Forall (fun c => is_ws c = true -> c = 32%N) s ->
             (forall a c d r, s = a ++ c :: d :: r ->
                              is_ws c = true -> is_ws d = true -> False) ->
             (b = true -> forall c r, s = c :: r -> is_ws c = false) ->
             collapseRuns b s = s).
  { induction s as [|x s IH]; intros b F A Hb; [reflexivity|].
    inversion F as [|? ? Fx Fs]; subst. cbn [collapseRuns].
    assert (A' : forall a c d r, s = a ++ c :: d :: r ->
                                 is_ws c = true -> is_ws d = true -> False).
    { intros a c d r E. apply (A (x :: a) c d r). rewrite E. reflexivity. }
    destruct (is_ws x) eqn:E.
    - destruct b.
      + rewrite (Hb eq_refl x s eq_refl) in E. discriminate.
      + rewrite (Fx eq_refl). f_equal. apply IH; [exact Fs | exact A' |].
        intros _ c r ->. destruct (is_ws c) eqn:Ec; [|reflexivity].
        exfalso. apply (A [] x c r eq_refl E Ec).
    - f_equal. apply IH; [exact Fs | exact A' | discriminate]. }
  intros s F A H. apply G; [exact F | exact A |]. discriminate.
Qed.

(** *** Cutting at the colon *)

Lemma beforeColon_free s : Forall (fun c => c <> 58%N) (beforeColon s).
Proof.
  unfold beforeColon. induction s as [|c s IH]; [constructor|].
  cbn [takeWhile]. destruct (N.eqb c 58) eqn:E; cbn [negb]; [constructor|].
  constructor; [apply N.eqb_neq, E | exact IH].
Qed.

Lemma beforeColon_fixed s : ~ In 58%N s -> beforeColon s = s.
Proof.
  unfold beforeColon. induction s as [|c s IH]; intro H; [reflexivity|].
  cbn [takeWhile]. destruct (N.eqb c 58) eqn:E.
  - apply N.eqb_eq in E. subst. exfalso. apply H. left. reflexivity.
  - cbn [negb]. f_equal. apply IH. intro K. apply H. right. exact K.
Qed.

Lemma beforeColon_cut a b : ~ In 58%N a -> beforeColon (a ++ 58%N :: b) = a.
Proof.
  unfold beforeColon. induction a as [|c a IH]; intro H; [reflexivity|].
  cbn [app takeWhile]. destruct (N.eqb c 58) eqn:E.
  - apply N.eqb_eq in E. subst. exfalso. apply H. left. reflexivity.
  - cbn [negb]. f_equal. apply IH. intro K. apply H. right. exact K.
Qed.

End SanitizeFacts.

(** *** Fenced segments *)

Module FenceFacts.
Import Regex SanitizeSpec RegexFacts.

Lemma not_backtick t c : ~ In backtick t -> In c t -> N.eqb backtick c = false.
Proof.
  intros H Hc. apply N.eqb_neq. intros <-. apply H, Hc.
Qed.

(** Text without a backtick is a single piece. *)
Lemma pieces_plain : forall t, ~ In backtick t -> pieces t = [t].
Proof.
  induction t as [|c t IH]; intro H; [reflexivity|].
  rewrite pieces_cons, closeK_spec.
  assert (Hc : N.eqb backtick c = false) by (apply (not_backtick (c :: t)); [exact H | now left]).
  rewrite IH by (intro K; apply H; now right).
  destruct t as [|b [|d t3]]; try reflexivity.
  unfold isFence. rewrite Hc. reflexivity.
Qed.

Lemma removeFenced_plain t : ~ In backtick t -> removeFenced t = t.
Proof. intro H. unfold removeFenced. rewrite pieces_plain by exact H. reflexivity. Qed.

Lemma closeK_app x a t s3 :
  closeK (x :: a) = Some s3 -> closeK (x :: a ++ t) = Some (s3 ++ t).
Proof.
  rewrite !closeK_spec. destruct a as [|b [|c a3]]; try discriminate.
  cbn [app]. destruct (isFence x b c); [|discriminate].
  intros [= <-]. reflexivity.
Qed.

Lemma closeK_app_none x a t :
  ~ In backtick t -> closeK (x :: a) = None -> closeK (x :: a ++ t) = None.
Proof.
  intro H. rewrite !closeK_spec. unfold isFence.
  destruct a as [|b [|c a3]]; cbn [app].
  - intros _. destruct t as [|b [|c t3]]; try reflexivity.
    rewrite (not_backtick _ b H) by (now left).
    rewrite andb_false_r. reflexivity.
  - intros _. destruct t as [|c t3]; try reflexivity.
    rewrite (not_backtick _ c H) by (now left).
    rewrite andb_false_r. reflexivity.
  - destruct (_ && _ && _)%bool; [discriminate | reflexivity].
Qed.

Lemma consHead_appendLast x ps t :
  ps <> [] -> consHead x (appendLast ps t) = appendLast (consHead x ps) t.
Proof. destruct ps as [|p [|q r]]; intro H; [congruence | reflexivity..]. Qed.

Lemma pieces_app_plain t : ~ In backtick t ->
  forall n a, (length a <= n)%nat -> pieces (a ++ t) = appendLast (pieces a) t.
Proof.
  intro H. induction n as [|n IH]; intros a Hn.
  - destruct a; [|simpl in Hn; lia]. cbn [app]. apply pieces_plain, H.
  - destruct a as [|x a]; [cbn [app]; apply pieces_plain, H|].
    simpl in Hn. cbn [app]. rewrite (pieces_cons x a), (pieces_cons x (a ++ t)).
    destruct (closeK (x :: a)) as [s3|] eqn:K.
    + rewrite (closeK_app x a t s3 K).
      assert (Hs3 : (length s3 <= n)%nat).
      { rewrite closeK_spec in K. destruct a as [|b [|c a3]]; try discriminate.
        destruct (isFence x b c); [|discriminate]. injection K as <-.
        simpl in Hn. lia. }
      rewrite IH by exact Hs3.
      pose proof (pieces_nonempty s3) as Hne.
      destruct (pieces s3); [congruence | reflexivity].
    + rewrite (closeK_app_none x a t H K).
      rewrite IH by lia. apply consHead_appendLast, pieces_nonempty.
Qed.

Lemma outside_skip p q ps : ps <> [] -> outside (p :: q :: ps) = p ++ outside ps.
Proof. destruct ps; [congruence | reflexivity]. Qed.

Lemma appendLast_nonempty ps t : appendLast ps t <> [].
Proof. destruct ps as [|p [|q r]]; discriminate. Qed.

Lemma outside_appendLast t : forall n ps,
  (length ps <= n)%nat -> ps <> [] -> outside (appendLast ps t) = outside ps ++ t.
Proof.
  induction n as [|n IH]; intros ps Hn Hne.
  - destruct ps; [congruence | simpl in Hn; lia].
  - destruct ps as [|p [|q [|r rest]]]; [congruence | reflexivity | |].
    + cbn [appendLast outside]. rewrite <- !app_assoc. reflexivity.
    + change (appendLast (p :: q :: r :: rest) t)
        with (p :: q :: appendLast (r :: rest) t).
      rewrite outside_skip by apply appendLast_nonempty.
      rewrite IH by (simpl in Hn |- *; lia || discriminate).
      rewrite outside_skip by discriminate. apply app_assoc.
Qed.

(** Text without a backtick, added behind, stays as it is. *)
Lemma removeFenced_app_plain a t :
  ~ In backtick t -> removeFenced (a ++ t) = removeFenced a ++ t.
Proof.
  intro H. unfold removeFenced.
  rewrite (pieces_app_plain t H (length a) a) by lia.
  apply (outside_appendLast t (length (pieces a))); [lia | apply pieces_nonempty].
Qed.

Lemma outside_in_join c : forall n ps,
  (length ps <= n)%nat -> In c (outside ps) -> In c (Js.join fence ps).
Proof.
  induction n as [|n IH]; intros ps Hn H.
  - destruct ps; [exact H | simpl in Hn; lia].
  - destruct ps as [|p [|q [|r rest]]]; try exact H.
    rewrite outside_skip in H by discriminate.
    change (Js.join fence (p :: q :: r :: rest))
      with (p ++ fence ++ q ++ fence ++ Js.join fence (r :: rest)).
    apply in_app_or in H as [H | H]; [apply in_or_app; now left|].
    apply in_or_app; right. apply in_or_app; right.
    apply in_or_app; right. apply in_or_app; right.
    apply IH; [simpl in Hn |- *; lia | exact H].
Qed.

(** Removing fenced segments adds no code unit. *)
Lemma removeFenced_in c s : In c (removeFenced s) -> In c s.
Proof.
  intro H. unfold removeFenced in H.
  apply (outside_in_join c (length (pieces s))) in H; [|lia].
  rewrite (join_pieces_bounded (length s)) in H by lia. exact H.
Qed.

End FenceFacts.

(** The shape of every label the sanitizer returns. *)
Lemma sanitizeLogEntry_shape_aux (entry : value) :
  ~ In 58%N (sanitizeLogEntry entry)
  /\ Forall (fun c => is_ws c = true -> c = 32%N) (sanitizeLogEntry entry)
  /\ (forall a c d r, sanitizeLogEntry entry = a ++ c :: d :: r ->
                      is_ws c = true -> is_ws d = true -> False)
  /\ (forall c r, sanitizeLogEntry entry = c :: r -> is_ws c = false)
  /\ (forall r c, sanitizeLogEntry entry = r ++ [c] -> is_ws c = false).
Proof.
  destruct entry as [ | | b | z | s | items | props];
    try (cbn [sanitizeLogEntry]; repeat split;
         [ intros []
         | constructor
         | intros [|? ?] ? ? ? H; discriminate H
         | intros ? ? H; discriminate H
         | intros [|? ?] ? H; discriminate H ]).
  rewrite SanitizeFacts.sanitize_string.
  set (t := SanitizeSpec.beforeColon (SanitizeSpec.removeFenced s)).
  repeat split.
  - assert (F : Forall (fun c => c <> 58%N)
                  (trim (SanitizeSpec.collapseWhitespace t))).
    { apply SanitizeFacts.Forall_trim, SanitizeFacts.Forall_collapseRuns;
        [discriminate | apply SanitizeFacts.beforeColon_free]. }
    intro H. rewrite Forall_forall in F. apply (F _ H). reflexivity.
  - apply SanitizeFacts.Forall_trim, SanitizeFacts.collapseRuns_spaces.
  - intros a c d r H Hc Hd.
    destruct (SanitizeFacts.trim_segment (SanitizeSpec.collapseWhitespace t))
      as (pre & post & E).
    rewrite H in E. unfold SanitizeSpec.collapseWhitespace in E.
    apply (SanitizeFacts.collapseRuns_single t false (pre ++ a) c d (r ++ post)); auto.
    rewrite E, <- !app_assoc. reflexivity.
  - intros c r H. apply (SanitizeFacts.trim_head _ _ _ H).
  - intros r c H. apply (SanitizeFacts.trim_last _ _ _ H).
Qed.


(** X7: whatever it is given, the sanitizer returns a label without a
    colon, whose only whitespace is single spaces between other code
    units: no other whitespace code unit, no two of them side by side,
    none at either end. *)
Theorem sanitizeLogEntry_shape (entry : value) :
  ~ In 58%N (sanitizeLogEntry entry)
  /\ Forall (fun c => is_ws c = true -> c = 32%N) (sanitizeLogEntry entry)
  /\ (forall a c d r, sanitizeLogEntry entry = a ++ c :: d :: r ->
                      is_ws c = true -> is_ws d = true -> False)
  /\ (forall c r, sanitizeLogEntry entry = c :: r -> is_ws c = false)
  /\ (forall r c, sanitizeLogEntry entry = r ++ [c] -> is_ws c = false).
Proof. exact (sanitizeLogEntry_shape_aux entry). Qed.

(** X8: a label the sanitizer returned without a backtick in it passes a
    second sanitizing unchanged. *)
Theorem sanitizeLogEntry_again (entry : value) :
  ~ In Regex.backtick (sanitizeLogEntry entry) ->
  sanitizeLogEntry (VStr (sanitizeLogEntry entry)) = sanitizeLogEntry entry.
Proof.
  intro Hb.
  destruct (sanitizeLogEntry_shape_aux entry) as (H58 & Hsp & Hsingle & Hhead & Hlast).
  rewrite SanitizeFacts.sanitize_string.
  rewrite FenceFacts.removeFenced_plain by exact Hb.
  rewrite SanitizeFacts.beforeColon_fixed by exact H58.
  unfold SanitizeSpec.collapseWhitespace.
  rewrite SanitizeFacts.collapseRuns_fixed by assumption.
  apply SanitizeFacts.trim_fixed; assumption.
Qed.

Lemma sanitizeLogEntry_again_witness :
  sanitizeLogEntry (VStr (sanitizeLogEntry (VStr (str "  cloning ```git```  repo : 3 files"))))
  = sanitizeLogEntry (VStr (str "  cloning ```git```  repo : 3 files")).
Proof.
  apply (sanitizeLogEntry_again (VStr (str "  cloning ```git```  repo : 3 files"))).
  vm_compute. intro H. repeat (destruct H as [H | H]; [discriminate H|]). exact H.
Defined.

(** X9: what follows the first colon of an entry has no influence on its
    label, as long as it holds no backtick (a fenced segment that opens
    before the colon and closes behind it is removed first, colon
    included). *)
Theorem sanitizeLogEntry_cut (a b : jsstring) :
  ~ In 58%N a -> ~ In Regex.backtick b ->
  sanitizeLogEntry (VStr (a ++ str ":" ++ b)) = sanitizeLogEntry (VStr a).
Proof.
  intros Ha Hb. rewrite !SanitizeFacts.sanitize_string.
  change (str ":" ++ b) with (58%N :: b).
  rewrite FenceFacts.removeFenced_app_plain
    by (intros [H | H]; [discriminate H | exact (Hb H)]).
  assert (Hr : ~ In 58%N (SanitizeSpec.removeFenced a))
    by (intro H; apply Ha, FenceFacts.removeFenced_in, H).
  rewrite SanitizeFacts.beforeColon_cut by exact Hr.
  rewrite SanitizeFacts.beforeColon_fixed by exact Hr.
  reflexivity.
Qed.

Lemma sanitizeLogEntry_cut_witness :
  sanitizeLogEntry (VStr (str "step ```x``` done" ++ str ":" ++ str " /tmp/a:b"))
  = sanitizeLogEntry (VStr (str "step ```x``` done")).
Proof.
  apply (sanitizeLogEntry_cut (str "step ```x``` done") (str " /tmp/a:b")).
  - vm_compute. intro H. repeat (destruct H as [H | H]; [discriminate H|]). exact H.
  - vm_compute. intro H. repeat (destruct H as [H | H]; [discriminate H|]). exact H.
Defined.

Example sanitize_fence_across_colon :
  sanitizeLogEntry (VStr (str "x```" ++ str ":" ++ str "y```z")) = str "xz"
  /\ sanitizeLogEntry (VStr (str "x```")) = str "x```".
Proof. vm_compute. split; reflexivity. Qed.

(* ===================================================================== *)
(** ** Further properties of the helpers *)
(* ===================================================================== *)

(** X10: the error extractor never returns a blank message when its
    fallback is not blank; and for a response whose body was read
    before, it goes by the status alone. *)
Theorem getResponseError_not_blank response fallback :
  trim fallback <> [] ->
  trim (getResponseError response fallback) <> []
  /\ (Response.bodyUsed response = true ->
      getResponseError response fallback
      = if Response.status response =? 404 then str "GitHub user not found."
        else fallback).
Proof.
  intro Hf.
  assert (Hd : trim (if Response.status response =? 404
                     then str "GitHub user not found." else fallback) <> []).
  { destruct (Response.status response =? 404); [vm_compute; discriminate | exact Hf]. }
  unfold getResponseError, Response.clone, Response.json. split.
  - destruct (Response.bodyUsed response) eqn:U; [exact Hd|].
    cbn [fst Response.bodyUsed Response.body]. rewrite U.
    destruct (Response.body response) as [d|msg]; [|exact Hd].
    destruct (optGet (str "error") d); try exact Hd.
    destruct (nonEmpty (trim s)) eqn:E; [|exact Hd].
    destruct (trim s); discriminate.
  - intros ->. reflexivity.
Qed.

Lemma getResponseError_not_blank_witness :
  trim (getResponseError
          (Response.mk 500 (BodyJson (VObj [(str "error", VStr (str "   "))])) false)
          (str "AI analysis failed"))
  <> [].
Proof.
  refine (proj1 (getResponseError_not_blank
                   (Response.mk 500 (BodyJson (VObj [(str "error", VStr (str "   "))])) false)
                   (str "AI analysis failed") _)).
  vm_compute. discriminate.
Defined.

(** X12: a count from 1 to 1023 bytes is printed as the count itself with
    ".0 B" behind it. *)
Theorem formatBytes_small (bytes : Z) :
  1 <= bytes <= 1023 -> formatBytes bytes = decimal bytes ++ str ".0 B".
Proof.
  intro H. unfold formatBytes.
  destruct (bytes =? 0) eqn:E0; [apply Z.eqb_eq in E0; lia|].
  destruct (bytes <? 0) eqn:E1; [apply Z.ltb_lt in E1; lia|].
  assert (Hlog : Z.log2 bytes / 10 = 0).
  { apply Z.div_small. split; [apply Z.log2_nonneg|].
    apply Z.log2_lt_pow2; [lia|]. change (2 ^ 10) with 1024. lia. }
  cbv zeta. rewrite Hlog. change (1024 ^ 0) with 1.
  unfold toFixed1. cbv zeta.
  replace ((20 * bytes + 1) / (2 * 1)) with (bytes * 10)
    by (apply Z.div_unique with (r := 1); lia).
  rewrite Z.div_mul, Z.mod_mul by lia.
  rewrite <- app_assoc. reflexivity.
Qed.

Lemma formatBytes_small_witness : formatBytes 1023 = decimal 1023 ++ str ".0 B".
Proof. apply (formatBytes_small 1023). lia. Defined.

(** X13: from 2 * 1024^5 bytes on, the table of units is exhausted and
    the unit printed is "undefined". *)
Theorem formatBytes_beyond_units (bytes : Z) :
  2 * 1024 ^ 5 <= bytes ->
  exists value, formatBytes bytes = value ++ str " undefined".
Proof.
  intro H. change (2 * 1024 ^ 5) with (2 ^ 51) in H.
  assert (Hpos : 0 < bytes) by (assert (0 < 2 ^ 51) by reflexivity; lia).
  unfold formatBytes.
  destruct (bytes =? 0) eqn:E0; [apply Z.eqb_eq in E0; lia|].
  destruct (bytes <? 0) eqn:E1; [apply Z.ltb_lt in E1; lia|].
  cbv zeta.
  assert (Hlog : 51 <= Z.log2 bytes) by (apply Z.log2_le_pow2; lia).
  assert (Hidx : 5 <= Z.log2 bytes / 10) by (apply Z.div_le_lower_bound; lia).
  assert (Hunit : unitAt (Z.log2 bytes / 10) = str "undefined").
  { unfold unitAt. apply nth_overflow. change (length units) with 5%nat. lia. }
  rewrite Hunit. eexists. reflexivity.
Qed.

Lemma formatBytes_beyond_units_witness :
  exists value, formatBytes (3 * 1024 ^ 5) = value ++ str " undefined".
Proof. apply (formatBytes_beyond_units (3 * 1024 ^ 5)). vm_compute. discriminate. Defined.

Lemma indexed_nth {A} (l : list A) : forall start i,
  nth_error (indexed start l) i
  = option_map (fun x => ((start + i)%nat, x)) (nth_error l i).
Proof.
  induction l as [|x l IH]; intros start [|i]; try reflexivity.
  - cbn. rewrite Nat.add_0_r. reflexivity.
  - cbn [indexed nth_error]. rewrite IH. rewrite Nat.add_succ_r. reflexivity.
Qed.

Lemma indexed_length {A} (l : list A) : forall start, length (indexed start l) = length l.
Proof. induction l as [|x l IH]; intro start; cbn; [|rewrite IH]; reflexivity. Qed.

Lemma pieFills_length {A} (data : list A) : length (pieFills data) = length data.
Proof. unfold pieFills. rewrite length_map. apply indexed_length. Qed.

(** X14: every slice of a pie chart gets one of the six palette colours,
    never [undefined]; the first six slices get six different colours
    and slice [i + 6] repeats the colour of slice [i]. *)
Theorem pie_fills_cycle {A} (data : list A) :
  (forall i, (i < length data)%nat ->
     exists color, nth_error (pieFills data) i = Some (Some color)
                   /\ In color PIE_COLORS)
  /\ (forall i, (i + 6 < length data)%nat ->
        nth_error (pieFills data) (i + 6) = nth_error (pieFills data) i)
  /\ NoDup (firstn 6 (pieFills data)).
Proof.
  assert (Hfill : forall i, (i < length data)%nat ->
            nth_error (pieFills data) i = Some (cellFill i)).
  { intros i Hi. unfold pieFills. rewrite nth_error_map, indexed_nth.
    destruct (nth_error data i) eqn:E; [reflexivity|].
    apply nth_error_None in E. lia. }
  split; [|split].
  - intros i Hi. rewrite (Hfill i Hi). unfold cellFill.
    change (length PIE_COLORS) with 6%nat.
    assert (Hm : (i mod 6 < 6)%nat) by (apply Nat.mod_upper_bound; discriminate).
    destruct (nth_error PIE_COLORS (i mod 6)) as [color|] eqn:E.
    + exists color. split; [reflexivity | apply (nth_error_In _ _ E)].
    + apply nth_error_None in E. change (length PIE_COLORS) with 6%nat in E. lia.
  - intros i Hi. rewrite (Hfill (i + 6)%nat Hi), (Hfill i) by lia.
    unfold cellFill. change (length PIE_COLORS) with 6%nat.
    f_equal. f_equal.
    replace (i + 6)%nat with (i + 1 * 6)%nat by lia. apply Nat.Div0.mod_add.
  - apply NoDup_nth_error. intros i j Hi E.
    rewrite length_firstn, pieFills_length in Hi.
    assert (Hi6 : (i < 6)%nat) by lia.
    assert (Hid : (i < length data)%nat) by lia.
    rewrite nth_error_firstn in E.
    destruct (Nat.ltb_spec i 6) as [_|]; [|lia].
    rewrite (Hfill i Hid) in E.
    destruct (Nat.lt_ge_cases j 6) as [Hj6 | Hj6].
    + rewrite nth_error_firstn in E.
      destruct (Nat.ltb_spec j 6) as [_|]; [|lia].
      destruct (Nat.lt_ge_cases j (length data)) as [Hjd | Hjd].
      * rewrite (Hfill j Hjd) in E. injection E as E.
        do 6 (destruct i as [|i]; [do 6 (destruct j as [|j]; [reflexivity || discriminate E|]); lia|]).
        lia.
      * assert (N : nth_error (pieFills data) j = None)
          by (apply nth_error_None; rewrite pieFills_length; lia).
        rewrite N in E. discriminate E.
    + rewrite nth_error_firstn in E.
      destruct (Nat.ltb_spec j 6) as [|_]; [lia|]. discriminate E.
Qed.

Lemma sanitizeLogEntry_shape_witness : is_ws 98%N = false.
Proof.
  apply (proj1 (proj2 (proj2 (proj2 (sanitizeLogEntry_shape (VStr (str " b: c"))))))
           98%N []).
  vm_compute. reflexivity.
Defined.

Lemma pie_fills_cycle_witness :
  nth_error (pieFills [1; 2; 3; 4; 5; 6; 7; 8]%nat) (1 + 6)
  = nth_error (pieFills [1; 2; 3; 4; 5; 6; 7; 8]%nat) 1.
Proof.
  apply (proj1 (proj2 (pie_fills_cycle [1; 2; 3; 4; 5; 6; 7; 8]%nat)) 1%nat).
  vm_compute. lia.
Defined.

(* ===================================================================== *)
(** ** Failures of the two stages *)
(* ===================================================================== *)

Lemma profileFailed_field env status d w :
  status <> 404 -> status <> 403 ->
  truthy (optGet (str "error") d) = true ->
  profileFailed env (Response.mk status (BodyJson d) false) w
  = (Thrown (raised env (optGet (str "error") d)), w).
Proof.
  intros H4 H3 Ht. apply Z.eqb_neq in H4, H3.
  rewrite <- (throw_new_Error (A := unit)).
  unfold profileFailed, Response.json, tryCatch, bind, lift, ret, throw.
  cbn [Response.bodyUsed Response.body Response.status].
  destruct d; try discriminate Ht;
    cbn [getMember]; unfold ret; cbn in Ht |- *; rewrite ?Ht, H4, H3; reflexivity.
Qed.

Lemma surfaced_raised env f :
  truthy f = true ->
  surfaced (raised env f)
  = messageOrDefault (match toString f with
                      | Some text => text
                      | None => Env.convertMessage env
                      end).
Proof.
  intro H. unfold raised, new_Error.
  destruct f; try discriminate H; destruct (toString _); reflexivity.
Qed.

Lemma nonEmpty_app_l (a b : jsstring) : nonEmpty a = true -> nonEmpty (a ++ b) = true.
Proof. destruct a; [discriminate | reflexivity]. Qed.

Lemma nonEmpty_app_r (a b : jsstring) : nonEmpty b = true -> nonEmpty (a ++ b) = true.
Proof. destruct a; [intro H; exact H | reflexivity]. Qed.

Lemma decimal_nonEmpty z : nonEmpty (decimal z) = true.
Proof. unfold decimal. destruct (Z.to_int z) as [[| | | | | | | | | |]|d]; reflexivity. Qed.

(** A Number never prints as the empty string. *)
Lemma Number_toString_nonEmpty x : nonEmpty (Num.toString x) = true.
Proof.
  destruct x as [|negative|negative m e]; [reflexivity | destruct negative; reflexivity |].
  unfold Num.toString. destruct (N.eqb m 0); [reflexivity|].
  destruct (Num.shortestFrom _ _ _ _) as [[s k] n].
  apply nonEmpty_app_r. unfold Num.layout. cbv zeta.
  destruct (_ && _); [apply nonEmpty_app_l, decimal_nonEmpty|].
  destruct (_ && _); [apply nonEmpty_app_r; reflexivity|].
  destruct (_ && _); [reflexivity|].
  destruct (n =? 1); [apply nonEmpty_app_l, decimal_nonEmpty|].
  apply nonEmpty_app_r. reflexivity.
Qed.

(** X15: when the profile request is answered with a status that is not
    ok and neither 404 nor 403, and the JSON body has a truthy [error],
    that field is what the user is shown, converted to a string: a string
    as it is, blank or not; a number as Number::toString prints it; the
    message of the engine's TypeError when the field is an object that
    cannot be converted; and "Something went wrong. Try again." when the
    text so found is empty. *)
Theorem profile_error_field env w status d :
  trim (St.username (state w)) <> [] ->
  timerFires (profileExchange env w) PROFILE_TIMEOUT = false ->
  outcome (profileExchange env w) = Responds status (BodyJson d) ->
  Response.ok (Response.mk status (BodyJson d) false) = false ->
  status <> 404 -> status <> 403 ->
  truthy (optGet (str "error") d) = true ->
  St.error (state (run env w))
  = messageOrDefault (match toString (optGet (str "error") d) with
                      | Some text => text
                      | None => Env.convertMessage env
                      end)
  /\ (forall e, optGet (str "error") d = VStr e -> St.error (state (run env w)) = e)
  /\ (forall x, optGet (str "error") d = VNum x ->
                St.error (state (run env w)) = Num.toString x)
  /\ (forall props,
         optGet (str "error") d = VObj props ->
         St.error (state (run env w))
         = match lookup (str "toString") props with
           | Some _ => messageOrDefault (Env.convertMessage env)
           | None => str "[object Object]"
           end).
Proof.
  intros Hu Ht Ho Hok H4 H3 Hf.
  assert (E : St.error (state (run env w))
              = messageOrDefault (match toString (optGet (str "error") d) with
                                  | Some text => text
                                  | None => Env.convertMessage env
                                  end)).
  { rewrite (run_thrown env w (raised env (optGet (str "error") d))
               (profileAnswered env w) Hu).
    - cbn [settled failed state St.error]. apply surfaced_raised, Hf.
    - rewrite analysis_run. cbv zeta. rewrite Ht, Ho. cbv zeta. rewrite Hok.
      apply profileFailed_field; assumption. }
  split; [exact E|]. split; [|split].
  - intros e He. rewrite E, He. rewrite He in Hf.
    destruct e; [discriminate Hf | reflexivity].
  - intros x Hx. rewrite E, Hx. cbn [toString]. unfold messageOrDefault.
    rewrite Number_toString_nonEmpty. reflexivity.
  - intros props Hp. rewrite E, Hp. cbn [toString].
    destruct (lookup (str "toString") props); reflexivity.
Qed.

Lemma profile_error_field_witness :
  St.error
    (state (run (backend (answers 40 500
                            (BodyJson (VObj [(str "error", VNum (Num.ofZ (10 ^ 21)))])))
                         (answers 5 200 (BodyJson VNull)))
                (freshWorld (str "octocat"))))
  = Num.toString (Num.ofZ (10 ^ 21)).
Proof.
  refine (proj1 (proj2 (proj2 (profile_error_field
                   (backend (answers 40 500
                               (BodyJson (VObj [(str "error", VNum (Num.ofZ (10 ^ 21)))])))
                            (answers 5 200 (BodyJson VNull)))
                   (freshWorld (str "octocat")) 500
                   (VObj [(str "error", VNum (Num.ofZ (10 ^ 21)))]) _ _ _ _ _ _ _)))
            (Num.ofZ (10 ^ 21)) _).
  - vm_compute. discriminate.
  - reflexivity.
  - reflexivity.
  - reflexivity.
  - discriminate.
  - discriminate.
  - vm_compute. reflexivity.
  - reflexivity.
Defined.

(** X16: when the transport fails the profile request, or answers it ok
    with a body that does not parse, the user is shown the message of
    that failure (the default text if it is empty), the profile data
    stays [null] and no AI request is made. *)
Theorem profile_stage_failure env w msg :
  trim (St.username (state w)) <> [] ->
  timerFires (profileExchange env w) PROFILE_TIMEOUT = false ->
  (outcome (profileExchange env w) = Fails msg
   \/ exists status,
        outcome (profileExchange env w) = Responds status (BodyBad msg)
        /\ Response.ok (Response.mk status (BodyBad msg) false) = true) ->
  St.error (state (run env w)) = messageOrDefault msg
  /\ St.githubData (state (run env w)) = VNull
  /\ calls (run env w) = calls w ++ [profileCall env w].
Proof.
  intros Hu Ht Ho.
  assert (E : exists err,
             run env w = settled (failed env err (profileAnswered env w))
             /\ surfaced err = messageOrDefault msg).
  { destruct Ho as [Ho | (status & Ho & Hok)].
    - exists (TypeError msg). split; [|reflexivity].
      apply run_thrown; [exact Hu|].
      rewrite analysis_run. cbv zeta. rewrite Ht, Ho. reflexivity.
    - exists (SyntaxError msg). split; [|reflexivity].
      apply run_thrown; [exact Hu|].
      rewrite analysis_run. cbv zeta. rewrite Ht, Ho. cbv zeta. rewrite Hok.
      apply aiStage_unparsed. }
  destruct E as (err & -> & Hs). repeat split. exact Hs.
Qed.

Lemma profile_stage_failure_witness :
  St.error
    (state (run (backend (mkExchange 30 false (Fails (str "Failed to fetch")))
                         (answers 5 200 (BodyJson VNull)))
                (freshWorld (str "octocat"))))
  = messageOrDefault (str "Failed to fetch").
Proof.
  refine (proj1 (profile_stage_failure
                   (backend (mkExchange 30 false (Fails (str "Failed to fetch")))
                            (answers 5 200 (BodyJson VNull)))
                   (freshWorld (str "octocat")) (str "Failed to fetch") _ _ _)).
  - vm_compute. discriminate.
  - reflexivity.
  - left. reflexivity.
Defined.

(** X17: once the profile data is in, a failure of the AI stage - the
    transport failing, an ok answer that does not parse, or an ok answer
    that parses to [null] - shows the message of that failure (for
    [null], the engine's message for reading [text_analysis] off it) and
    keeps the profile data on screen. *)
Theorem ai_stage_failure env w status profileData msg :
  trim (St.username (state w)) <> [] ->
  timerFires (profileExchange env w) PROFILE_TIMEOUT = false ->
  outcome (profileExchange env w) = Responds status (BodyJson profileData) ->
  Response.ok (Response.mk status (BodyJson profileData) false) = true ->
  timerFires (aiExchange env profileData) AI_TIMEOUT = false ->
  (outcome (aiExchange env profileData) = Fails msg
   \/ (exists status2,
         outcome (aiExchange env profileData) = Responds status2 (BodyBad msg)
         /\ Response.ok (Response.mk status2 (BodyBad msg) false) = true)
   \/ (exists status2 aiResult,
         outcome (aiExchange env profileData) = Responds status2 (BodyJson aiResult)
         /\ Response.ok (Response.mk status2 (BodyJson aiResult) false) = true
         /\ hasMembers aiResult = false
         /\ msg = Env.nullReadMessage env (str "text_analysis"))) ->
  St.error (state (run env w)) = messageOrDefault msg
  /\ St.githubData (state (run env w)) = profileData.
Proof.
  intros Hu Ht Ho Hok Ht2 Ho2.
  assert (E : exists err,
             run env w = settled (failed env err (aiAnswered env profileData w))
             /\ surfaced err = messageOrDefault msg).
  { assert (A : forall r,
               aiStage env (Response.mk status (BodyJson profileData) false)
                       (profileAnswered env w) = r ->
               analysis env (St.username (state w)) (started env w) = r).
    { intros r <-. rewrite analysis_run. cbv zeta. rewrite Ht, Ho. cbv zeta.
      rewrite Hok. reflexivity. }
    destruct Ho2 as [Ho2 | [(status2 & Ho2 & Hok2) | (status2 & r & Ho2 & Hok2 & Hm & ->)]].
    - exists (TypeError msg). split; [|reflexivity].
      apply run_thrown; [exact Hu|]. apply A.
      rewrite aiStage_requested. cbv zeta. rewrite Ht2, Ho2. reflexivity.
    - exists (SyntaxError msg). split; [|reflexivity].
      apply run_thrown; [exact Hu|]. apply A.
      rewrite aiStage_requested. cbv zeta. rewrite Ht2, Ho2, Hok2. reflexivity.
    - exists (TypeError (Env.nullReadMessage env (str "text_analysis"))).
      split; [|reflexivity].
      apply run_thrown; [exact Hu|]. apply A.
      rewrite aiStage_requested. cbv zeta. rewrite Ht2, Ho2, Hok2, Hm. reflexivity. }
  destruct E as (err & -> & Hs). split; [exact Hs | reflexivity].
Qed.

Lemma ai_stage_failure_witness :
  St.githubData
    (state (run (backend (answers 40 200 (BodyJson (VObj [(str "profile", VNull)])))
                         (answers 5 200 (BodyJson VNull)))
                (freshWorld (str "octocat"))))
  = VObj [(str "profile", VNull)].
Proof.
  refine (proj2 (ai_stage_failure
                   (backend (answers 40 200 (BodyJson (VObj [(str "profile", VNull)])))
                            (answers 5 200 (BodyJson VNull)))
                   (freshWorld (str "octocat")) 200 (VObj [(str "profile", VNull)])
                   (str "Cannot read properties of null (reading 'text_analysis')")
                   _ _ _ _ _ _)).
  - vm_compute. discriminate.
  - reflexivity.
  - reflexivity.
  - reflexivity.
  - reflexivity.
  - right. right. exists 200, VNull. repeat split.
Defined.

(* ===================================================================== *)
(** ** No blank line in the log *)
(* ===================================================================== *)

Lemma named_logged env m w :
  m <> [] ->
  Forall (fun e => LogEntry.message e <> []) (St.logs (state w)) ->
  Forall (fun e => LogEntry.message e <> []) (St.logs (state (logged env m w))).
Proof.
  intros Hm H. cbn [logged state St.logs]. apply Forall_app. split; [exact H|].
  constructor; [exact Hm | constructor].
Qed.

Lemma named_loggedAll env : forall ms w,
  Forall (fun m => m <> []) ms ->
  Forall (fun e => LogEntry.message e <> []) (St.logs (state w)) ->
  Forall (fun e => LogEntry.message e <> []) (St.logs (state (loggedAll env ms w))).
Proof.
  induction ms as [|m ms IH]; intros w Hms H; [exact H|].
  inversion Hms as [|? ? Hm Hrest]; subst.
  cbn [loggedAll fold_left]. fold (loggedAll env ms (logged env m w)).
  apply IH; [exact Hrest | apply named_logged; assumption].
Qed.

Lemma forwarded_nonEmpty r : Forall (fun m => m <> []) (forwarded r).
Proof.
  unfold forwarded. destruct (optGet (str "logs") r); try constructor.
  apply filter_nonEmpty.
Qed.

(** X18: no entry of the log of a run that passed validation has an
    empty message, whatever the backend puts into its [logs] array. *)
Theorem log_lines_not_empty env w :
  trim (St.username (state w)) <> [] ->
  Forall (fun e => LogEntry.message e <> []) (St.logs (state (run env w))).
Proof.
  intro Hu.
  assert (P0 : Forall (fun e => LogEntry.message e <> [])
                 (St.logs (state (requesting env w)))).
  { apply named_logged; [discriminate|]. apply named_logged; [discriminate|]. constructor. }
  assert (P1 : forall v, Forall (fun e => LogEntry.message e <> [])
                           (St.logs (state (aiAnswered env v w)))).
  { intro v. unfold aiAnswered. cbv zeta.
    change (St.logs (state (called ?c ?x))) with (St.logs (state x)).
    unfold aiRequesting.
    apply named_logged; [discriminate|]. apply named_logged; [discriminate|]. exact P0. }
  destruct (run_ends env w Hu) as [err Hp | v err Hp Ha | v r Hp Ha].
  - change (St.logs (state (settled (failed env err (profileAnswered env w)))))
      with (St.logs (state (logged env (str "Analysis failed") (profileAnswered env w)))).
    apply named_logged; [discriminate | exact P0].
  - change (St.logs (state (settled (failed env err (aiAnswered env v w)))))
      with (St.logs (state (logged env (str "Analysis failed") (aiAnswered env v w)))).
    apply named_logged; [discriminate | apply P1].
  - change (St.logs (state (settled (completed env r (aiAnswered env v w)))))
      with (St.logs (state (completed env r (aiAnswered env v w)))).
    unfold completed. apply named_logged; [discriminate|].
    apply named_loggedAll; [apply forwarded_nonEmpty | apply P1].
Qed.

Lemma log_lines_not_empty_witness :
  Forall (fun e => LogEntry.message e <> [])
    (St.logs
       (state (run (backend (answers 40 200 (BodyJson (VObj [])))
                            (answers 5 200
                               (BodyJson (VObj [(str "logs",
                                                 VArr [VStr (str ": x"); VNull])]))))
                   (usedWorld (str "octocat"))))).
Proof.
  apply (log_lines_not_empty
           (backend (answers 40 200 (BodyJson (VObj [])))
                    (answers 5 200
                       (BodyJson (VObj [(str "logs", VArr [VStr (str ": x"); VNull])]))))
           (usedWorld (str "octocat"))).
  vm_compute. discriminate.
Defined.

(* ===================================================================== *)
(** ** What a run depends on *)
(* ===================================================================== *)

Section Respect.

Lemma respects_ret {A} (a : A) : respects (ret a).
Proof. intros w1 w2 H. split; [reflexivity | exact H]. Qed.

Lemma respects_throw {A} (e : JsError.t) : respects (@throw A e).
Proof. intros w1 w2 H. split; [reflexivity | exact H]. Qed.

Lemma respects_lift {A} (c : completion A) : respects (lift c).
Proof. intros w1 w2 H. split; [reflexivity | exact H]. Qed.

Lemma respects_bind {A B} (c : M A) (k : A -> M B) :
  respects c -> (forall a, respects (k a)) -> respects (bind c k).
Proof.
  intros Hc Hk w1 w2 H. unfold bind.
  destruct (Hc w1 w2 H) as [E G].
  destruct (c w1) as [[a1|e1] v1], (c w2) as [[a2|e2] v2]; cbn [fst snd] in E, G;
    try discriminate E.
  - injection E as <-. apply Hk, G.
  - injection E as <-. split; [reflexivity | exact G].
Qed.

Lemma respects_tryCatch {A} (body : M A) (handler : JsError.t -> M A) :
  respects body -> (forall e, respects (handler e)) -> respects (tryCatch body handler).
Proof.
  intros Hb Hh w1 w2 H. unfold tryCatch.
  destruct (Hb w1 w2 H) as [E G].
  destruct (body w1) as [[a1|e1] v1], (body w2) as [[a2|e2] v2]; cbn [fst snd] in E, G;
    try discriminate E.
  - split; [exact E | exact G].
  - injection E as <-. apply Hh, G.
Qed.

Lemma respects_tryFinally {A} (body : M A) (fin : M unit) :
  respects body -> respects fin -> respects (tryFinally body fin).
Proof.
  intros Hb Hf w1 w2 H. unfold tryFinally.
  destruct (Hb w1 w2 H) as [E G].
  destruct (body w1) as [r1 v1], (body w2) as [r2 v2]; cbn [fst snd] in E, G. subst r2.
  destruct (Hf v1 v2 G) as [E' G'].
  destruct (fin v1) as [[u1|e1] x1], (fin v2) as [[u2|e2] x2]; cbn [fst snd] in E', G';
    try discriminate E'.
  - split; [reflexivity | exact G'].
  - injection E' as <-. split; [reflexivity | exact G'].
Qed.

Lemma respects_forEach {A} (l : list A) (f : A -> M unit) :
  (forall x, respects (f x)) -> respects (forEach l f).
Proof.
  intro Hf. induction l as [|x l IH]; cbn [forEach].
  - apply respects_ret.
  - apply respects_bind; [apply Hf | intros _; exact IH].
Qed.

Lemma respects_getMember env v key : respects (getMember env v key).
Proof. destruct v; intros w1 w2 H; (split; [reflexivity | exact H]). Qed.

Lemma respects_setState f : respects (setState f).
Proof.
  intros w1 w2 [Hs Hc]. split; [reflexivity|].
  split; cbn [setState snd state clockReads]; [rewrite Hs; reflexivity | exact Hc].
Qed.

Lemma respects_appendLog env m : respects (appendLog env m).
Proof.
  intros w1 w2 [Hs Hc]. destruct m as [|c m].
  - split; [reflexivity | split; assumption].
  - rewrite !appendLog_run by discriminate. split; [reflexivity|].
    split; unfold logged, entryAt; cbn [snd state clockReads]; rewrite ?Hs, ?Hc; reflexivity.
Qed.

Lemma respects_fetch env u o t : respects (fetchWithTimeout env u o t).
Proof.
  intros w1 w2 [Hs Hc]. unfold fetchWithTimeout. cbv zeta.
  destruct (timerFires _ _); [split; [reflexivity | split; assumption]|].
  destruct (outcome _); (split; [reflexivity | split; assumption]).
Qed.

End Respect.

Ltac respect_step :=
  lazymatch goal with
  | |- respects (bind _ _) => apply respects_bind; [|intro]
  | |- respects (tryCatch _ _) => apply respects_tryCatch; [|intro]
  | |- respects (tryFinally _ _) => apply respects_tryFinally
  | |- respects (forEach _ _) => apply respects_forEach; intro
  | |- respects (ret _) => apply respects_ret
  | |- respects (throw _) => apply respects_throw
  | |- respects (lift _) => apply respects_lift
  | |- respects (getMember _ _ _) => apply respects_getMember
  | |- respects (appendLog _ _) => apply respects_appendLog
  | |- respects (fetchWithTimeout _ _ _ _) => apply respects_fetch
  | |- respects (setState _) => apply respects_setState
  | |- respects (if ?b then _ else _) => destruct b
  | |- respects (match ?v with VArr _ => _ | _ => _ end) => destruct v
  | |- respects (match ?l with [] => _ | _ :: _ => _ end) => destruct l
  end.

Lemma respects_profileFailed env r : respects (profileFailed env r).
Proof. unfold profileFailed, Response.json. repeat respect_step. Qed.

Lemma respects_aiStage env r : respects (aiStage env r).
Proof.
  unfold aiStage, setGithubData, setAiInsights, setNumericInsights.
  repeat respect_step.
Qed.

Lemma respects_analysisFailed env err : respects (analysisFailed env err).
Proof. unfold analysisFailed, setError. repeat respect_step. Qed.

Lemma respects_analysis env username : respects (analysis env username).
Proof.
  unfold analysis.
  repeat (respect_step || apply respects_profileFailed || apply respects_aiStage).
Qed.

(** X20: what a run that passed validation leaves on screen - results,
    error, log, loading flag - is fixed by the username, the backend and
    the clock: the results, error and log of earlier runs and the calls
    made before have no part in it. *)
Theorem run_starts_afresh env w1 w2 :
  trim (St.username (state w1)) <> [] ->
  St.username (state w1) = St.username (state w2) ->
  clockReads w1 = clockReads w2 ->
  state (run env w1) = state (run env w2).
Proof.
  intros Hu Eu Ec.
  assert (Hu2 : trim (St.username (state w2)) <> []) by (rewrite <- Eu; exact Hu).
  unfold run. rewrite !handleAnalyze_nonblank by assumption.
  assert (A : agree (started env w1) (started env w2)).
  { unfold agree, started, logged, entryAt.
    cbn [state clockReads St.username St.loading St.error St.logs St.githubData
         St.aiInsights St.numericInsights].
    rewrite Eu, Ec. split; reflexivity. }
  rewrite <- Eu.
  assert (R : respects (tryFinally
                          (tryCatch (analysis env (St.username (state w1)))
                                    (analysisFailed env))
                          (setLoading false))).
  { unfold setLoading.
    repeat (respect_step || apply respects_analysis || apply respects_analysisFailed). }
  apply (R _ _ A).
Qed.

Lemma run_starts_afresh_witness :
  state (run (backend (answers 40 200 (BodyJson (VObj [])))
                      (answers 5 500 (BodyBad (str "<html>"))))
             (mkWorld (St.mk (str "octocat") false [] [] VNull VNull VNull) [] 7))
  = state (run (backend (answers 40 200 (BodyJson (VObj [])))
                        (answers 5 500 (BodyBad (str "<html>"))))
               (usedWorld (str "octocat"))).
Proof.
  apply (run_starts_afresh
           (backend (answers 40 200 (BodyJson (VObj [])))
                    (answers 5 500 (BodyBad (str "<html>"))))
           (mkWorld (St.mk (str "octocat") false [] [] VNull VNull VNull) [] 7)
           (usedWorld (str "octocat"))).
  - vm_compute. discriminate.
  - reflexivity.
  - reflexivity.
Defined.

(** X19: when the profile request is answered with a status that is not
    ok and neither 404 nor 403, and a body that does not parse, the
    error shown is "Failed to fetch GitHub profile data". *)
Theorem profile_unparsed_failure env w status msg :
  trim (St.username (state w)) <> [] ->
  timerFires (profileExchange env w) PROFILE_TIMEOUT = false ->
  outcome (profileExchange env w) = Responds status (BodyBad msg) ->
  Response.ok (Response.mk status (BodyBad msg) false) = false ->
  status <> 404 -> status <> 403 ->
  St.error (state (run env w)) = str "Failed to fetch GitHub profile data".
Proof.
  intros Hu Ht Ho Hok H4 H3. apply Z.eqb_neq in H4, H3.
  rewrite (run_thrown env w
             (errorWith (str "Failed to fetch GitHub profile data"))
             (profileAnswered env w) Hu).
  - reflexivity.
  - rewrite analysis_run. cbv zeta. rewrite Ht, Ho. cbv zeta. rewrite Hok.
    unfold profileFailed, Response.json, tryCatch, bind, lift, ret, throw, getResponseError,
      Response.clone.
    cbn [Response.bodyUsed Response.body Response.status].
    rewrite H4, H3. reflexivity.
Qed.

Lemma profile_unparsed_failure_witness :
  St.error
    (state (run (backend (answers 40 502 (BodyBad (str "Unexpected token <")))
                         (answers 5 200 (BodyJson VNull)))
                (freshWorld (str "octocat"))))
  = str "Failed to fetch GitHub profile data".
Proof.
  apply (profile_unparsed_failure
           (backend (answers 40 502 (BodyBad (str "Unexpected token <")))
                    (answers 5 200 (BodyJson VNull)))
           (freshWorld (str "octocat")) 502 (str "Unexpected token <")).
  - vm_compute. discriminate.
  - reflexivity.
  - reflexivity.
  - reflexivity.
  - discriminate.
  - discriminate.
Defined.
